(** * Step executors of the deployments compiler: crop, offset and
    detections consensus

    Shallow embedding of
    [inference/enterprise/deployments/complier/steps_executors/auxiliary.py].

    Conventions of the embedding.
    - Python numbers (the [int]s and [float]s held by a detection, the
      thresholds, IOU values and aggregated confidences) are exact rationals
      [Qc]; the results of [round] and the box corners are integers [Z].
    - A detection [dict] is the record [detection]; its keys are the ones of
      the spec's data model, so a lookup never misses.
    - Exceptions are values of [error]; a function that may raise returns a
      [result].
    - [uuid4()] reads an explicit supply of identifiers that is threaded
      through the functions that draw from it ([exec]). *)

From Stdlib Require Import ZArith QArith Qcanon Qround.
From stdpp Require Import gmap strings list fin_maps numbers pretty sorting.

Open Scope Z_scope.

(** ** Exceptions and the two monads *)

Inductive error : Type :=
  | ExecutionGraphError (msg : string)
  | IndexError
  | TypeError
  | AttributeError
  | ValueError
  | StatisticsError
  | ZeroDivisionError
  | KeyError.

Inductive result (A : Type) : Type :=
  | Ok (a : A)
  | Raise (e : error).
Arguments Ok {A} a.
Arguments Raise {A} e.

#[export] Instance result_ret : MRet result := @Ok.
#[export] Instance result_bind : MBind result := λ A B f r,
  match r with
  | Ok a => f a
  | Raise e => Raise e
  end.
#[export] Instance result_fmap : FMap result := λ A B f r,
  match r with
  | Ok a => Ok (f a)
  | Raise e => Raise e
  end.

(** The identifiers [uuid4()] will return, in the order of the calls. *)
Definition uuid_supply : Type := nat → string.

Definition exec (A : Type) : Type := uuid_supply → result (A * uuid_supply).

#[export] Instance exec_ret : MRet exec := λ A a s, Ok (a, s).
#[export] Instance exec_bind : MBind exec := λ A B f c s,
  match c s with
  | Ok (a, s') => f a s'
  | Raise e => Raise e
  end.

#[export] Instance exec_fmap : FMap exec := λ A B f c s,
  match c s with
  | Ok (a, s') => Ok (f a, s')
  | Raise e => Raise e
  end.

Definition lift {A : Type} (r : result A) : exec A := λ s,
  match r with
  | Ok a => Ok (a, s)
  | Raise e => Raise e
  end.

Definition raise {A : Type} (e : error) : exec A := λ _, Raise e.

(** [str(uuid4())] *)
Definition uuid4 : exec string := λ s, Ok (s 0%nat, λ n, s (S n)).

(** The value a computation returns, the supply forgotten. *)
Definition run {A : Type} (c : exec A) (s : uuid_supply) : result A :=
  fst <$> c s.

(** ** Numbers *)

Definition Zc (n : Z) : Qc := Q2Qc (inject_Z n).

(** Python's [round(v)]: nearest integer, a tie goes to the even one. *)
Definition round (v : Qc) : Z :=
  let f := Qfloor v in
  let r := (v - Zc f)%Qc in
  if decide (r < Q2Qc (1 # 2))%Qc then f
  else if decide (Q2Qc (1 # 2) < r)%Qc then f + 1
  else if Z.even f then f else f + 1.

(** [max(values)] and [min(values)]: [ValueError] on an empty list. *)
Definition py_max {A : Type} (lt : A → A → bool) (values : list A) : result A :=
  match values with
  | [] => Raise ValueError
  | v :: vs => Ok (foldl (λ m e, if lt m e then e else m) v vs)
  end.

Definition py_min {A : Type} (lt : A → A → bool) (values : list A) : result A :=
  match values with
  | [] => Raise ValueError
  | v :: vs => Ok (foldl (λ m e, if lt e m then e else m) v vs)
  end.

Definition Qc_ltb (a b : Qc) : bool := bool_decide (a < b)%Qc.
Definition Qc_leb (a b : Qc) : bool := bool_decide (a ≤ b)%Qc.

(** [statistics.mean(values)]: [StatisticsError] on an empty list. *)
Definition mean (values : list Qc) : result Qc :=
  match values with
  | [] => Raise StatisticsError
  | _ => Ok (foldr Qcplus 0%Qc values / Zc (Z.of_nat (length values)))%Qc
  end.

(** ** Data model *)

Record detection : Type := mk_detection {
  detection_id : string;
  parent_id : string;
  class : string;
  class_id : Z;
  confidence : Qc;
  det_x : Qc;
  det_y : Qc;
  width : Qc;
  height : Qc;
}.

Inductive AggregationMode : Type := MAX | MIN | AVERAGE.

(** [AGGREGATION_MODE2FIELD_AGGREGATOR] *)
Definition AGGREGATION_MODE2FIELD_AGGREGATOR
    (aggregation_mode : AggregationMode) (values : list Qc) : result Qc :=
  match aggregation_mode with
  | MAX => py_max Qc_ltb values
  | MIN => py_min Qc_ltb values
  | AVERAGE => mean values
  end.

Definition aggregate_field_values (detections : list detection)
    (field : detection → Qc) (aggregation_mode : AggregationMode) : result Qc :=
  AGGREGATION_MODE2FIELD_AGGREGATOR aggregation_mode (field <$> detections).

Definition average_field_values (detections : list detection)
    (field : detection → Qc) : result Qc :=
  mean (field <$> detections).

(** ** Geometry *)

Definition detection_to_xyxy (d : detection) : Z * Z * Z * Z :=
  let x_min := round (det_x d - width d / Zc 2)%Qc in
  let y_min := round (det_y d - height d / Zc 2)%Qc in
  let x_max := round (Zc x_min + width d)%Qc in
  let y_max := round (Zc y_min + height d)%Qc in
  (x_min, y_min, x_max, y_max).

(** The quotient is a float division: a zero union raises. *)
Definition calculate_iou (detection_a detection_b : detection) : result Qc :=
  let '(a0, a1, a2, a3) := detection_to_xyxy detection_a in
  let '(b0, b1, b2, b3) := detection_to_xyxy detection_b in
  let x_a := Z.max a0 b0 in
  let y_a := Z.max a1 b1 in
  let x_b := Z.min a2 b2 in
  let y_b := Z.min a3 b3 in
  let intersection := Z.max 0 (x_b - x_a + 1) * Z.max 0 (y_b - y_a + 1) in
  let bbox_a_area := (a2 - a0 + 1) * (a3 - a1 + 1) in
  let bbox_b_area := (b2 - b0 + 1) * (b3 - b1 + 1) in
  let union := bbox_a_area + bbox_b_area - intersection in
  if decide (union = 0) then Raise ZeroDivisionError
  else Ok (Zc intersection / Zc union)%Qc.

(** ** Crop step *)

(** [a[lo:hi]] on one axis: a negative bound counts from the end, both
    bounds are clipped to the axis. *)
Definition py_slice {A : Type} (l : list A) (lo hi : Z) : list A :=
  let n := Z.of_nat (length l) in
  let norm i := if decide (i < 0) then Z.max (i + n) 0 else Z.min i n in
  take (Z.to_nat (norm hi - norm lo)) (drop (Z.to_nat (norm lo)) l).

(** A decoded image: rows of pixels. *)
Definition image (P : Type) : Type := list (list P).

(** [image[y_min:y_max, x_min:x_max]] *)
Definition image_slice {P : Type} (i : image P) (y_min y_max x_min x_max : Z)
    : image P :=
  (λ row, py_slice row x_min x_max) <$> py_slice i y_min y_max.

Inductive ImageType : Type := NUMPY_OBJECT.

Record origin_coordinates (S : Type) : Type := mk_origin_coordinates {
  center_x : Qc;
  center_y : Qc;
  origin_size : S;
}.
Arguments mk_origin_coordinates {S}.
Arguments center_x {S}.
Arguments center_y {S}.
Arguments origin_size {S}.

Record crop (P S : Type) : Type := mk_crop {
  crop_type : ImageType;
  crop_value : image P;
  crop_parent_id : string;
  crop_origin_coordinates : origin_coordinates S;
}.
Arguments mk_crop {P S}.
Arguments crop_type {P S}.
Arguments crop_value {P S}.
Arguments crop_parent_id {P S}.
Arguments crop_origin_coordinates {P S}.

Definition crop_image {P S : Type} (i : image P) (detections : list detection)
    (origin_size : S) : list (crop P S) :=
  (λ d,
     let '(x_min, y_min, x_max, y_max) := detection_to_xyxy d in
     let cropped_image := image_slice i y_min y_max x_min x_max in
     mk_crop NUMPY_OBJECT cropped_image (detection_id d)
       (mk_origin_coordinates (det_x d) (det_y d) origin_size))
  <$> detections.

(** ** DetectionOffset step *)

Definition offset_detection (d : detection) (offset_x offset_y : Qc)
    : exec detection :=
  let detection_copy := d in
  let new_width := (width detection_copy + Zc (round offset_x))%Qc in
  let new_height := (height detection_copy + Zc (round offset_y))%Qc in
  let new_parent_id := detection_id detection_copy in
  new_detection_id ← uuid4;
  mret {| detection_id := new_detection_id;
          parent_id := new_parent_id;
          class := class detection_copy;
          class_id := class_id detection_copy;
          confidence := confidence detection_copy;
          det_x := det_x detection_copy;
          det_y := det_y detection_copy;
          width := new_width;
          height := new_height |}.

(** ** Batch sizes of the consensus sources *)

(** A resolved [predictions] input: the detections of one image, or one list
    of detections per image of a batch. *)
Inductive predictions_value : Type :=
  | Flat (l : list detection)
  | Nested (l : list (list detection)).

(** [len(predictions) == 0 or issubclass(type(predictions[0]), dict)] *)
Definition get_batch_size (predictions : predictions_value) : nat :=
  match predictions with
  | Flat _ => 1
  | Nested [] => 1
  | Nested l => length l
  end.

Definition get_predictions_batch_sizes (all_predictions : list predictions_value)
    : list nat :=
  get_batch_size <$> all_predictions.

Definition all_batch_sizes_equal (batch_sizes : list nat) : bool :=
  match batch_sizes with
  | [] => true
  | reference :: _ => forallb (λ e, bool_decide (e = reference)) batch_sizes
  end.

Definition get_and_validate_batch_sizes (all_predictions : list predictions_value)
    (step_name : string) : result (list nat) :=
  let batch_sizes := get_predictions_batch_sizes all_predictions in
  if negb (all_batch_sizes_equal batch_sizes) then
    Raise (ExecutionGraphError
             ("Detected missmatch of input dimensions in step: " +:+ step_name))
  else Ok batch_sizes.

(** ** Python containers used by the consensus *)

(** A [dict] whose iteration order matters: keys in insertion order. *)
Fixpoint dict_get {K V : Type} `{EqDecision K} (k : K) (d : list (K * V))
    : option V :=
  match d with
  | [] => None
  | (k', v) :: d' => if decide (k = k') then Some v else dict_get k d'
  end.

(** [d[k] = v]: an existing key keeps its position, a new one goes last. *)
Fixpoint dict_set {K V : Type} `{EqDecision K} (k : K) (v : V) (d : list (K * V))
    : list (K * V) :=
  match d with
  | [] => [(k, v)]
  | (k', v') :: d' =>
      if decide (k = k') then (k, v) :: d' else (k', v') :: dict_set k v d'
  end.

Definition dict_values {K V : Type} (d : list (K * V)) : list V := snd <$> d.

(** [l[0]] *)
Definition first {A : Type} (l : list A) : result A :=
  match l with
  | [] => Raise IndexError
  | a :: _ => Ok a
  end.

Fixpoint foldlM {M : Type → Type} `{!MBind M, !MRet M} {A B : Type}
    (f : A → B → M A) (a : A) (l : list B) : M A :=
  match l with
  | [] => mret a
  | b :: l' => a' ← f a b; foldlM f a' l'
  end.

(** ** Detections consensus: filtering and matching *)

Definition confidence_matches (d : detection) (confidence_threshold : Qc) : bool :=
  Qc_ltb confidence_threshold (confidence d).

Definition confidence_and_class_match (d : detection) (confidence_threshold : Qc)
    (classes : gset string) : bool :=
  confidence_matches d confidence_threshold && bool_decide (class d ∈ classes).

Definition filter_predictions (predictions : list (list detection))
    (confidence : Qc) (classes_to_consider : option (list string))
    : list (list detection) :=
  let detection_matches :=
    match classes_to_consider with
    | Some classes =>
        λ d, confidence_and_class_match d confidence (list_to_set classes)
    | None => λ d, confidence_matches d confidence
    end in
  (λ detections, List.filter detection_matches detections) <$> predictions.

(** [enumerate_detections], the sources numbered from [source_id]. *)
Fixpoint enumerate_detections_from (source_id : nat)
    (predictions : list (list detection)) (excluded_source : option nat)
    : list (nat * detection) :=
  match predictions with
  | [] => []
  | detections :: rest =>
      (if decide (excluded_source = Some source_id) then []
       else (λ d, (source_id, d)) <$> detections)
      ++ enumerate_detections_from (S source_id) rest excluded_source
  end.

Definition enumerate_detections (predictions : list (list detection))
    (excluded_source : option nat) : list (nat * detection) :=
  enumerate_detections_from 0 predictions excluded_source.

(** The body of the loop of
    [get_detections_from_different_sources_with_max_overlap]. *)
Definition max_overlap_update (d : detection) (iou_threshold : Qc)
    (class_aware : bool) (detections_already_considered : gset string)
    (current_max_overlap : list (nat * (detection * Qc)))
    (other : nat * detection) : result (list (nat * (detection * Qc))) :=
  let '(other_source, other_detection) := other in
  if bool_decide (detection_id other_detection ∈ detections_already_considered)
  then Ok current_max_overlap
  else if class_aware && bool_decide (class d ≠ class other_detection)
  then Ok current_max_overlap
  else
    iou_value ← calculate_iou d other_detection;
    if Qc_leb iou_value iou_threshold then Ok current_max_overlap
    else
      let current_max_overlap :=
        match dict_get other_source current_max_overlap with
        | None =>
            dict_set other_source (other_detection, iou_value) current_max_overlap
        | Some _ => current_max_overlap
        end in
      match dict_get other_source current_max_overlap with
      | None => Raise KeyError
      | Some best =>
          if Qc_ltb best.2 iou_value
          then Ok (dict_set other_source (other_detection, iou_value)
                     current_max_overlap)
          else Ok current_max_overlap
      end.

Definition get_detections_from_different_sources_with_max_overlap
    (d : detection) (source : nat) (predictions : list (list detection))
    (iou_threshold : Qc) (class_aware : bool)
    (detections_already_considered : gset string)
    : result (list (nat * (detection * Qc))) :=
  foldlM
    (max_overlap_update d iou_threshold class_aware detections_already_considered)
    [] (enumerate_detections predictions (Some source)).

(** ** Detections consensus: merging *)

(** [Counter(classes)]: the classes in the order they are first met. *)
Definition Counter (classes : list string) : list (string * nat) :=
  foldl (λ counts c, dict_set c (S (default 0%nat (dict_get c counts))) counts)
    [] classes.

(** [class_counts.most_common(1)] is the first entry of the highest count, in
    a list that is empty when there is no entry. *)
Definition get_majority_class (detections : list detection) : result (string * Z) :=
  let class_counts := Counter (class <$> detections) in
  most_common ← first
    match py_max (λ a b, bool_decide (a.2 < b.2)%nat) class_counts with
    | Ok e => [e]
    | Raise _ => []
    end;
  let most_common_class_name := most_common.1 in
  cid ← first (class_id <$>
    List.filter (λ d, bool_decide (class d = most_common_class_name)) detections);
  Ok (most_common_class_name, cid).

Definition get_class_of_most_confident_detection (detections : list detection)
    : result (string * Z) :=
  max_confidence ← aggregate_field_values detections confidence MAX;
  most_confident_prediction ← first
    (List.filter (λ d, bool_decide (confidence d = max_confidence)) detections);
  Ok (class most_confident_prediction, class_id most_confident_prediction).

Definition get_class_of_least_confident_detection (detections : list detection)
    : result (string * Z) :=
  max_confidence ← aggregate_field_values detections confidence MIN;
  most_confident_prediction ← first
    (List.filter (λ d, bool_decide (confidence d = max_confidence)) detections);
  Ok (class most_confident_prediction, class_id most_confident_prediction).

Definition AGGREGATION_MODE2CLASS_SELECTOR (mode : AggregationMode)
    : list detection → result (string * Z) :=
  match mode with
  | MAX => get_class_of_most_confident_detection
  | MIN => get_class_of_least_confident_detection
  | AVERAGE => get_majority_class
  end.

Definition get_detection_sizes (detections : list detection) : list Qc :=
  (λ d, height d * width d)%Qc <$> detections.

Definition get_average_bounding_box (detections : list detection)
    : result (Qc * Qc * Qc * Qc) :=
  x ← round <$> average_field_values detections det_x;
  y ← round <$> average_field_values detections det_y;
  w ← round <$> average_field_values detections width;
  h ← round <$> average_field_values detections height;
  Ok (Zc x, Zc y, Zc w, Zc h).

(** [[idx for idx, v in enumerate(values) if v == reference]] *)
Definition indices_of (reference : Qc) (values : list Qc) : list nat :=
  fst <$> List.filter (λ iv, bool_decide (iv.2 = reference))
            (imap (λ idx v, (idx, v)) values).

Definition bounding_box_of_size (select : list Qc → result Qc)
    (detections : list detection) : result (Qc * Qc * Qc * Qc) :=
  let detection_sizes := get_detection_sizes detections in
  size ← select detection_sizes;
  matching_detection_id ← first (indices_of size detection_sizes);
  match detections !! matching_detection_id with
  | None => Raise IndexError
  | Some matching_detection =>
      Ok (det_x matching_detection, det_y matching_detection,
          width matching_detection, height matching_detection)
  end.

Definition get_smallest_bounding_box : list detection → result (Qc * Qc * Qc * Qc) :=
  bounding_box_of_size (py_min Qc_ltb).

Definition get_largest_bounding_box : list detection → result (Qc * Qc * Qc * Qc) :=
  bounding_box_of_size (py_max Qc_ltb).

Definition AGGREGATION_MODE2BOXES_AGGREGATOR (mode : AggregationMode)
    : list detection → result (Qc * Qc * Qc * Qc) :=
  match mode with
  | MAX => get_largest_bounding_box
  | MIN => get_smallest_bounding_box
  | AVERAGE => get_average_bounding_box
  end.

Definition merge_detections (detections : list detection)
    (confidence_aggregation_mode boxes_aggregation_mode : AggregationMode)
    : exec detection :=
  '(class_name, cid) ←
    lift (AGGREGATION_MODE2CLASS_SELECTOR confidence_aggregation_mode detections);
  '(x, y, w, h) ←
    lift (AGGREGATION_MODE2BOXES_AGGREGATOR boxes_aggregation_mode detections);
  head_detection ← lift (first detections);
  new_detection_id ← uuid4;
  merged_confidence ←
    lift (aggregate_field_values detections confidence confidence_aggregation_mode);
  mret {| parent_id := parent_id head_detection;
          detection_id := new_detection_id;
          class := class_name;
          class_id := cid;
          confidence := merged_confidence;
          det_x := x;
          det_y := y;
          width := w;
          height := h |}.

(** ** Detections consensus: presence verdict *)

(** [required_objects] when it is not [None]: a count, or a [dict] from class
    to count (two dictionaries are equal when they hold the same entries). *)
Inductive required_objects_value : Type :=
  | RequiredCount (n : Z)
  | RequiredPerClass (m : gmap string Z).

(** The loop over [required_objects.items()]. [class2detections] is a
    [defaultdict(list)]: reading a class that is not a key stores [[]] under
    it. [None] stands for the early [return False, {}]. The order of the items
    does not change the outcome: every early return is the same, and without
    one every item has been read. *)
Fixpoint check_required_classes (items : list (string * Z))
    (class2detections : gmap string (list detection))
    : option (gmap string (list detection)) :=
  match items with
  | [] => Some class2detections
  | (requested_class, required_objects_count) :: rest =>
      let class2detections :=
        match class2detections !! requested_class with
        | None => <[requested_class := []]> class2detections
        | Some _ => class2detections
        end in
      if decide (Z.of_nat (length (default [] (class2detections !! requested_class)))
                 < required_objects_count)
      then None
      else check_required_classes rest class2detections
  end.

(** [class2detections] after the loop over the consensus detections. *)
Definition group_by_class (consensus_detections : list detection)
    : gmap string (list detection) :=
  foldl (λ class2detections d,
           <[class d := default [] (class2detections !! class d) ++ [d]]>
             class2detections)
    ∅ consensus_detections.

Definition check_objects_presence_in_consensus_predictions
    (consensus_detections : list detection) (class_aware : bool)
    (aggregation_mode : AggregationMode)
    (required_objects : option required_objects_value)
    : result (bool * gmap string Qc) :=
  if decide (length consensus_detections = 0%nat) then Ok (false, ∅)
  else
    let required_objects := default (RequiredCount 0) required_objects in
    let required_objects :=
      match required_objects with
      | RequiredPerClass m =>
          if negb class_aware
          then RequiredCount (map_fold (λ _ v acc, v + acc) 0 m)
          else required_objects
      | RequiredCount _ => required_objects
      end in
    below ←
      (if negb class_aware then
         match required_objects with
         | RequiredCount n =>
             Ok (bool_decide (Z.of_nat (length consensus_detections) < n))
         | RequiredPerClass _ => Raise TypeError
         end
       else Ok false);
    if (below : bool) then Ok (false, ∅)
    else if negb class_aware then
      aggregated_confidence ←
        aggregate_field_values consensus_detections confidence aggregation_mode;
      Ok (true, {["any_object" := aggregated_confidence]})
    else
      let class2detections := group_by_class consensus_detections in
      match required_objects with
      | RequiredCount _ => Raise AttributeError
      | RequiredPerClass m =>
          match check_required_classes (map_to_list m) class2detections with
          | None => Ok (false, ∅)
          | Some class2detections =>
              class2confidence ←
                mapM (λ entry : string * list detection,
                        c ← aggregate_field_values entry.2 confidence
                              aggregation_mode;
                        Ok (entry.1, c))
                  (map_to_list class2detections);
              Ok (true, list_to_map class2confidence)
          end
      end.

(** ** Detections consensus: one batch element *)

Definition get_parent_id_of_predictions_from_different_sources
    (predictions : list (list detection)) : result string :=
  let encountered_parent_ids : gset string :=
    list_to_set (parent_id <$> concat predictions) in
  if decide (1 < size encountered_parent_ids)%nat then
    Raise (ExecutionGraphError
      ("Missmatch in predictions - while executing consensus step, "
       +:+ "in equivalent batches, detections are assigned different parent "
       +:+ "identifiers, whereas consensus can only be applied for predictions "
       +:+ "made against the same input."))
  else first (elements encountered_parent_ids).

(** The two variables the loop of [resolve_batch_consensus] updates. *)
Record consensus_state : Type := mk_consensus_state {
  detections_already_considered : gset string;
  consensus_detections : list detection;
}.

(** The body of the loop of [resolve_batch_consensus]. The parameter
    [confidence] of the source is [confidence_threshold] here, [confidence]
    being the field of a detection. *)
Definition consensus_iteration (predictions : list (list detection))
    (required_votes : Z) (class_aware : bool)
    (iou_threshold confidence_threshold : Qc)
    (detections_merge_confidence_aggregation
     detections_merge_coordinates_aggregation : AggregationMode)
    (st : consensus_state) (seed : nat * detection) : exec consensus_state :=
  let '(source_id, d) := seed in
  detections_with_max_overlap ←
    lift (get_detections_from_different_sources_with_max_overlap d source_id
            predictions iou_threshold class_aware
            (detections_already_considered st));
  if decide (required_votes - 1 ≤ Z.of_nat (length detections_with_max_overlap))
  then
    let matched := fst <$> dict_values detections_with_max_overlap in
    merged_detection ←
      merge_detections (d :: matched) detections_merge_confidence_aggregation
        detections_merge_coordinates_aggregation;
    if Qc_leb confidence_threshold (confidence merged_detection) then
      mret {| consensus_detections :=
                consensus_detections st ++ [merged_detection];
              detections_already_considered :=
                foldl (λ considered matched_detection,
                         considered ∪ {[detection_id matched_detection]})
                  (detections_already_considered st ∪ {[detection_id d]})
                  matched |}
    else mret st
  else mret st.

(** The [for] loop of [resolve_batch_consensus], from the empty state. *)
Definition consensus_loop (predictions : list (list detection))
    (required_votes : Z) (class_aware : bool)
    (iou_threshold confidence_threshold : Qc)
    (detections_merge_confidence_aggregation
     detections_merge_coordinates_aggregation : AggregationMode)
    : exec consensus_state :=
  foldlM
    (consensus_iteration predictions required_votes class_aware
       iou_threshold confidence_threshold
       detections_merge_confidence_aggregation
       detections_merge_coordinates_aggregation)
    {| detections_already_considered := ∅; consensus_detections := [] |}
    (enumerate_detections predictions None).

Definition resolve_batch_consensus (predictions : list (list detection))
    (required_votes : Z) (class_aware : bool)
    (iou_threshold confidence_threshold : Qc)
    (classes_to_consider : option (list string))
    (required_objects : option required_objects_value)
    (presence_confidence_aggregation
     detections_merge_confidence_aggregation
     detections_merge_coordinates_aggregation : AggregationMode)
    : exec (string * bool * gmap string Qc * list detection) :=
  parent ← lift (get_parent_id_of_predictions_from_different_sources predictions);
  let predictions := filter_predictions predictions 0%Qc classes_to_consider in
  st ← consensus_loop predictions required_votes class_aware iou_threshold
         confidence_threshold detections_merge_confidence_aggregation
         detections_merge_coordinates_aggregation;
  '(object_present, presence_confidence) ←
    lift (check_objects_presence_in_consensus_predictions
            (consensus_detections st) class_aware
            presence_confidence_aggregation required_objects);
  mret (parent, object_present, presence_confidence, consensus_detections st).

(** ** Detections consensus: the step *)

(** The resolved [image] output of the first source: the metadata of one
    image, or of each image of a batch. *)
Inductive meta_value (I : Type) : Type :=
  | MetaOne (m : I)
  | MetaMany (l : list I).
Arguments MetaOne {I} m.
Arguments MetaMany {I} l.

Record consensus_result (I : Type) : Type := mk_consensus_result {
  res_predictions : list detection;
  res_parent_id : string;
  res_object_present : bool;
  res_presence_confidence : gmap string Qc;
  res_image : meta_value I;
}.
Arguments mk_consensus_result {I}.
Arguments res_predictions {I}.
Arguments res_parent_id {I}.
Arguments res_object_present {I}.
Arguments res_presence_confidence {I}.
Arguments res_image {I}.

(** What the step stores under its selector: one result when the batch size
    is 1, else a list. *)
Inductive step_output (I : Type) : Type :=
  | SingleResult (r : consensus_result I)
  | BatchResults (rs : list (consensus_result I)).
Arguments SingleResult {I} r.
Arguments BatchResults {I} rs.

(** [e[batch_index]] for a source [e] of [all_predictions]. With batch size 1
    every source was wrapped in a list first, so the element is the source
    itself; a source that is a non-empty list of lists then makes
    [resolve_batch_consensus] index a list by a string key. *)
Definition batch_element (batch_size batch_index : nat) (e : predictions_value)
    : result (list detection) :=
  if decide (batch_size = 1%nat) then
    match e with
    | Flat l => Ok l
    | Nested [] => Ok []
    | Nested (_ :: _) => Raise TypeError
    end
  else
    match e with
    | Flat l =>
        match l !! batch_index with
        | None => Raise IndexError
        | Some _ => Raise TypeError
        end
    | Nested l =>
        match l !! batch_index with
        | None => Raise IndexError
        | Some detections => Ok detections
        end
    end.

(** [images_meta[batch_index]] *)
Definition batch_image {I : Type} (batch_size batch_index : nat)
    (images_meta : meta_value I) : result (meta_value I) :=
  if decide (batch_size = 1%nat) then Ok images_meta
  else
    match images_meta with
    | MetaOne _ => Raise KeyError
    | MetaMany l =>
        match l !! batch_index with
        | None => Raise IndexError
        | Some m => Ok (MetaOne m)
        end
    end.

(** [run_detections_consensus_step] on the resolved values of the step's
    selectors: [all_predictions] for [step.predictions], [images_meta] for the
    [image] output next to the first of them, and the step's parameters. *)
Definition run_detections_consensus_step {I : Type} (name : string)
    (all_predictions : list predictions_value) (images_meta : meta_value I)
    (required_votes : Z) (class_aware : bool)
    (iou_threshold confidence_threshold : Qc)
    (classes_to_consider : option (list string))
    (required_objects : option required_objects_value)
    (presence_confidence_aggregation
     detections_merge_confidence_aggregation
     detections_merge_coordinates_aggregation : AggregationMode)
    : exec (step_output I) :=
  if decide (length all_predictions < 1)%nat then
    raise (ExecutionGraphError
             "Consensus step requires at least one source of predictions.")
  else
    batch_sizes ← lift (get_and_validate_batch_sizes all_predictions name);
    batch_size ← lift (first batch_sizes);
    results ←
      mapM (M := exec) (λ batch_index,
              batch_predictions ←
                lift (mapM (M := result)
                        (batch_element batch_size batch_index) all_predictions);
              '(parent, object_present, presence_confidence, consensus) ←
                resolve_batch_consensus batch_predictions required_votes
                  class_aware iou_threshold confidence_threshold
                  classes_to_consider required_objects
                  presence_confidence_aggregation
                  detections_merge_confidence_aggregation
                  detections_merge_coordinates_aggregation;
              img ← lift (batch_image batch_size batch_index images_meta);
              mret (mk_consensus_result consensus parent object_present
                      presence_confidence img))
        (seq 0 batch_size);
    if decide (batch_size = 1%nat) then SingleResult <$> lift (first results)
    else mret (BatchResults results).

(** ** Steps that rewrite predictions: their inputs and outputs *)

(** An element of a resolved [predictions] input, and of the lists the steps
    build from it: one value, or the list of the values of one image. *)
Inductive batch_item (D : Type) : Type :=
  | One (d : D)
  | Many (l : list D).
Arguments One {D} d.
Arguments Many {D} l.

(** [issubclass(type(item), list)] *)
Definition is_list {D : Type} (item : batch_item D) : bool :=
  match item with
  | Many _ => true
  | One _ => false
  end.

(** [for i in images_meta]: a list yields its elements, a dictionary its
    keys, which [keys] lists. *)
Definition iterate_meta {I K : Type} (keys : I → list K)
    (images_meta : meta_value I) : list (I + K) :=
  match images_meta with
  | MetaOne m => inr <$> keys m
  | MetaMany l => inl <$> l
  end.

(** [{"predictions": d, PARENT_ID_KEY: p, "image": i}] *)
Record image_entry (D P M : Type) : Type := mk_image_entry {
  entry_predictions : batch_item D;
  entry_parent_id : batch_item P;
  entry_image : M;
}.
Arguments mk_image_entry {D P M}.
Arguments entry_predictions {D P M}.
Arguments entry_parent_id {D P M}.
Arguments entry_image {D P M}.

(** What a rewriting step stores under its selector: a list with one entry
    per image when an element of the input was a list, else one dictionary
    of lists. *)
Inductive lookup_value (D P I K : Type) : Type :=
  | NestedValue (entries : list (image_entry D P (I + K)))
  | FlatValue (predictions : list (batch_item D)) (parent_ids : list (batch_item P))
      (image : meta_value I).
Arguments NestedValue {D P I K} entries.
Arguments FlatValue {D P I K} predictions parent_ids image.

(** The end of both steps: [zip] stops with the shortest of its lists. *)
Definition store_results {D P I K : Type} (keys : I → list K) (nested : bool)
    (result_detections : list (batch_item D))
    (result_parent_id : list (batch_item P)) (images_meta : meta_value I)
    : lookup_value D P I K :=
  if nested then
    NestedValue
      ((λ dpi : batch_item D * batch_item P * (I + K),
          mk_image_entry dpi.1.1 dpi.1.2 dpi.2)
       <$> zip (zip result_detections result_parent_id)
             (iterate_meta keys images_meta))
  else FlatValue result_detections result_parent_id images_meta.

(** ** DetectionOffset step: the step *)

(** The body of the loop of [run_detection_offset_step]: what is appended to
    [result_detections] and to [result_parent_id]. *)
Definition offset_item (offset_x offset_y : Qc) (item : batch_item detection)
    : exec (batch_item detection * batch_item string) :=
  match item with
  | Many l =>
      offset_detections ←
        mapM (M := exec) (λ d, offset_detection d offset_x offset_y) l;
      mret (Many offset_detections, Many (parent_id <$> offset_detections))
  | One d =>
      offset ← offset_detection d offset_x offset_y;
      mret (One offset, One (parent_id d))
  end.

(** [run_detection_offset_step] on the resolved values of the step's
    selectors. *)
Definition run_detection_offset_step {I K : Type} (keys : I → list K)
    (detections : list (batch_item detection)) (images_meta : meta_value I)
    (offset_x offset_y : Qc) : exec (lookup_value detection string I K) :=
  results ← mapM (M := exec) (offset_item offset_x offset_y) detections;
  let result_detections := fst <$> results in
  let result_parent_id := snd <$> results in
  let nested := existsb is_list detections in
  mret (store_results keys nested result_detections result_parent_id images_meta).

(** ** DetectionFilter step *)

Inductive Operator : Type :=
  | EQUAL
  | NOT_EQUAL
  | LOWER_THAN
  | GREATER_THAN
  | LOWER_OR_EQUAL_THAN
  | GREATER_OR_EQUAL_THAN
  | IN.

Inductive BinaryOperator : Type := AND | OR.

(** Python's comparisons on the values of type [V] that predictions and
    reference values hold. They dispatch on the operands and may raise. *)
Class Comparisons (V : Type) : Type := {
  py_eq : V → V → result bool;
  py_ne : V → V → result bool;
  py_lt : V → V → result bool;
  py_gt : V → V → result bool;
  py_le : V → V → result bool;
  py_ge : V → V → result bool;
  py_in : V → V → result bool;
}.

(** The comparisons of numbers: a number is not a container. *)
#[export] Instance number_comparisons : Comparisons Qc := {|
  py_eq a b := Ok (bool_decide (a = b));
  py_ne a b := Ok (bool_decide (a ≠ b));
  py_lt a b := Ok (Qc_ltb a b);
  py_gt a b := Ok (Qc_ltb b a);
  py_le a b := Ok (Qc_leb a b);
  py_ge a b := Ok (Qc_leb b a);
  py_in a b := Raise TypeError;
|}.

(** [OPERATORS] *)
Definition OPERATORS {V : Type} `{!Comparisons V} (operator : Operator)
    : V → V → result bool :=
  match operator with
  | EQUAL => py_eq
  | NOT_EQUAL => py_ne
  | LOWER_THAN => py_lt
  | GREATER_THAN => py_gt
  | LOWER_OR_EQUAL_THAN => py_le
  | GREATER_OR_EQUAL_THAN => py_ge
  | IN => py_in
  end.

(** [BINARY_OPERATORS], on the truth values the comparisons return. *)
Definition BINARY_OPERATORS (operator : BinaryOperator) : bool → bool → bool :=
  match operator with
  | AND => andb
  | OR => orb
  end.

(** A filter definition. [OtherDefinition] stands for any other object with
    an attribute [type] and none of the attributes of the two classes. *)
Inductive filter_definition (V : Type) : Type :=
  | DetectionFilterDefinition (field_name : string) (operator : Operator)
      (reference_value : V)
  | CompoundDetectionFilterDefinition (left : filter_definition V)
      (operator : BinaryOperator) (right : filter_definition V)
  | OtherDefinition (type : string).
Arguments DetectionFilterDefinition {V} field_name operator reference_value.
Arguments CompoundDetectionFilterDefinition {V} left operator right.
Arguments OtherDefinition {V} type.

(** [e[key]] on a dictionary *)
Definition getitem {V : Type} (e : gmap string V) (key : string) : result V :=
  match e !! key with
  | Some v => Ok v
  | None => Raise KeyError
  end.

Definition unknown_filter_definition (type : string) : error :=
  ExecutionGraphError
    ("Detected filter definition of type " +:+ type +:+ " which is unknown").

Fixpoint build_filter_callable {V : Type} `{!Comparisons V}
    (definition : filter_definition V) : result (gmap string V → result bool) :=
  match definition with
  | CompoundDetectionFilterDefinition left_definition operator right_definition =>
      left_callable ← build_filter_callable left_definition;
      right_callable ← build_filter_callable right_definition;
      let binary_operator := BINARY_OPERATORS operator in
      Ok (λ e, a ← left_callable e; b ← right_callable e;
               Ok (binary_operator a b))
  | DetectionFilterDefinition field_name operator reference_value =>
      let operator := OPERATORS operator in
      Ok (λ e, v ← getitem e field_name; operator v reference_value)
  | OtherDefinition type =>
      if decide (type = "CompoundDetectionFilterDefinition"
                 ∨ type = "DetectionFilterDefinition")
      then Raise AttributeError
      else Raise (unknown_filter_definition type)
  end.

(** [[p for p in prediction if filter_callable(p)]] *)
Fixpoint comprehension_if {A : Type} (condition : A → result bool) (l : list A)
    : result (list A) :=
  match l with
  | [] => Ok []
  | p :: l' =>
      keep ← condition p;
      rest ← comprehension_if condition l';
      Ok (if (keep : bool) then p :: rest else rest)
  end.

(** The body of the loop of [run_detection_filter]: what is appended to
    [result_detections] and to [result_parent_id], if anything. *)
Definition filter_item {V : Type} (PARENT_ID_KEY : string)
    (filter_callable : gmap string V → result bool)
    (prediction : batch_item (gmap string V))
    : result (option (batch_item (gmap string V) * batch_item V)) :=
  match prediction with
  | Many l =>
      filtered_predictions ← comprehension_if filter_callable l;
      parent_ids ←
        mapM (M := result) (λ p, getitem p PARENT_ID_KEY) filtered_predictions;
      Ok (Some (Many filtered_predictions, Many parent_ids))
  | One p =>
      keep ← filter_callable p;
      if (keep : bool) then
        parent ← getitem p PARENT_ID_KEY;
        Ok (Some (One p, One parent))
      else Ok None
  end.

(** [run_detection_filter] on the resolved values of the step's selectors;
    [PARENT_ID_KEY] is the constant of that name. *)
Definition run_detection_filter {V I K : Type} `{!Comparisons V}
    (PARENT_ID_KEY : string) (keys : I → list K)
    (predictions : list (batch_item (gmap string V)))
    (images_meta : meta_value I) (definition : filter_definition V)
    : result (lookup_value (gmap string V) V I K) :=
  filter_callable ← build_filter_callable definition;
  results ← mapM (M := result) (filter_item PARENT_ID_KEY filter_callable)
               predictions;
  let appended := omap id results in
  let result_detections := fst <$> appended in
  let result_parent_id := snd <$> appended in
  let nested := existsb is_list predictions in
  Ok (store_results keys nested result_detections result_parent_id images_meta).

(** ** Crop steps: origin sizes and static crops *)

(** [{HEIGHT_KEY: h, WIDTH_KEY: w}] *)
Record image_size : Type := mk_image_size {
  size_height : Z;
  size_width : Z;
}.

(** [image.shape[0]] and [image.shape[1]]; an image of no rows has width 0
    here. *)
Definition shape {P : Type} (i : image P) : Z * Z :=
  (Z.of_nat (length i),
   Z.of_nat match i with
            | [] => 0
            | row :: _ => length row
            end).

(** An input image is given by what is read of it: the origin coordinates
    it holds, when it is a dictionary with the key [ORIGIN_COORDINATES_KEY]. *)
Definition extract_origin_size_from_images {P : Type}
    (input_images : list (option (origin_coordinates image_size)))
    (decoded_images : list (image P)) : list image_size :=
  (λ pair : option (origin_coordinates image_size) * image P,
     match pair.1 with
     | Some coordinates => origin_size coordinates
     | None =>
         {| size_height := (shape pair.2).1; size_width := (shape pair.2).2 |}
     end)
  <$> zip input_images decoded_images.

(** [run_crop_step] from the decoded images on; a single image and its
    detections come as lists of one element. *)
Definition run_crop_step {P : Type}
    (input_images : list (option (origin_coordinates image_size)))
    (decoded_images : list (image P)) (detections : list (list detection))
    : list (crop P image_size) * list string :=
  let origin_image_shape :=
    extract_origin_size_from_images input_images decoded_images in
  let crops :=
    concat ((λ ido : image P * list detection * image_size,
               crop_image ido.1.1 ido.1.2 ido.2)
            <$> zip (zip decoded_images detections) origin_image_shape) in
  let parent_ids := crop_parent_id <$> crops in
  (crops, parent_ids).

Inductive static_crop_type : Type := AbsoluteStaticCrop | RelativeStaticCrop.

(** [take_static_crop] on the resolved parameters of the step [name]. *)
Definition take_static_crop {P S : Type} (i : image P)
    (type : static_crop_type) (name : string)
    (x_center y_center crop_width crop_height : Qc) (origin_size : S)
    : crop P S :=
  let '(x_center, y_center, crop_width, crop_height) :=
    match type with
    | RelativeStaticCrop =>
        (Zc (round (Zc (shape i).2 * x_center)),
         Zc (round (Zc (shape i).1 * y_center)),
         Zc (round (Zc (shape i).2 * crop_width)),
         Zc (round (Zc (shape i).1 * crop_height)))
    | AbsoluteStaticCrop => (x_center, y_center, crop_width, crop_height)
    end in
  let x_min := round (x_center - crop_width / Zc 2)%Qc in
  let y_min := round (y_center - crop_height / Zc 2)%Qc in
  let x_max := round (Zc x_min + crop_width)%Qc in
  let y_max := round (Zc y_min + crop_height)%Qc in
  let cropped_image := image_slice i y_min y_max x_min x_max in
  mk_crop NUMPY_OBJECT cropped_image ("$steps." +:+ name)
    (mk_origin_coordinates x_center y_center origin_size).

(** [run_static_crop_step] from the decoded images on. *)
Definition run_static_crop_step {P : Type}
    (input_images : list (option (origin_coordinates image_size)))
    (decoded_images : list (image P)) (type : static_crop_type) (name : string)
    (x_center y_center crop_width crop_height : Qc)
    : list (crop P image_size) * list string :=
  let origin_image_shape :=
    extract_origin_size_from_images input_images decoded_images in
  let crops :=
    (λ pair : image P * image_size,
       take_static_crop pair.1 type name x_center y_center crop_width
         crop_height pair.2)
    <$> zip decoded_images origin_image_shape in
  let parent_ids := crop_parent_id <$> crops in
  (crops, parent_ids).

(** ** The pre-filter as the specification words it *)

(** Step 2 of the consensus algorithm in the specification: a source keeps
    the detections with [confidence > confidenceThreshold] whose class is in
    [classesToConsider], when that is given. *)
Definition spec_keeps (confidenceThreshold : Qc)
    (classesToConsider : option (list string)) (d : detection) : Prop :=
  (confidenceThreshold < confidence d)%Qc
  ∧ match classesToConsider with
    | Some classes => class d ∈ classes
    | None => True
    end.

#[export] Instance spec_keeps_dec confidenceThreshold classesToConsider d :
  Decision (spec_keeps confidenceThreshold classesToConsider d).
Proof. unfold spec_keeps. destruct classesToConsider; apply _. Defined.

Definition spec_prefilter (predictions : list (list detection))
    (confidenceThreshold : Qc) (classesToConsider : option (list string))
    : list (list detection) :=
  (λ detections, filter (spec_keeps confidenceThreshold classesToConsider) detections)
  <$> predictions.

(** ** Sample inputs *)

Definition sample_uuids : uuid_supply := λ n, "uuid-" +:+ pretty n.

Definition ratio (a : Z) (b : positive) : Qc := Q2Qc (a # b).

(** A detection of class [cat] made against the image [img]. *)
Definition sample_detection (id : string) (conf : Qc) (x y w h : Z) : detection :=
  {| detection_id := id; parent_id := "img"; class := "cat"; class_id := 0;
     confidence := conf;
     det_x := Zc x; det_y := Zc y; width := Zc w; height := Zc h |}.

(** Two detections of the same 10x10 box, at confidence 0.9 and 0.2. *)
Definition det_09 : detection := sample_detection "a" (ratio 9 10) 10 10 10 10.
Definition det_02 : detection := sample_detection "b" (ratio 2 10) 10 10 10 10.

(** A third detection of that box, and one far away from it. *)
Definition det_07 : detection := sample_detection "c" (ratio 7 10) 10 10 10 10.
Definition det_far : detection := sample_detection "f" (ratio 2 10) 100 100 10 10.

(** A detection made against the crop of detection [d1]. *)
Definition det_on_crop : detection :=
  {| detection_id := "d2"; parent_id := "d1"; class := "cat"; class_id := 0;
     confidence := ratio 9 10;
     det_x := Zc 1; det_y := Zc 1; width := Zc 2; height := Zc 2 |}.

Definition sample_image : image nat := [[1; 2; 3]; [4; 5; 6]; [7; 8; 9]]%nat.

(** ** Notions used in the statements *)

(** The errors the consensus step raises on purpose. *)
Definition parent_id_mismatch : error :=
  ExecutionGraphError
    ("Missmatch in predictions - while executing consensus step, "
     +:+ "in equivalent batches, detections are assigned different parent "
     +:+ "identifiers, whereas consensus can only be applied for predictions "
     +:+ "made against the same input.").

Definition dimension_mismatch (step_name : string) : error :=
  ExecutionGraphError
    ("Detected missmatch of input dimensions in step: " +:+ step_name).

Definition no_source_of_predictions : error :=
  ExecutionGraphError
    "Consensus step requires at least one source of predictions.".

Definition is_graph_error (e : error) : bool :=
  match e with
  | ExecutionGraphError _ => true
  | _ => false
  end.

(** An entry [other_source ↦ (other_detection, iou_value)] of the dictionary
    that [get_detections_from_different_sources_with_max_overlap] builds for
    the detection [d] of the source [source]. *)
Definition overlap_entry_ok (d : detection) (source : nat)
    (predictions : list (list detection)) (iou_threshold : Qc)
    (class_aware : bool) (considered : gset string)
    (entry : nat * (detection * Qc)) : Prop :=
  let other_source := fst entry in
  let other_detection := fst (snd entry) in
  let iou_value := snd (snd entry) in
  other_source ≠ source
  ∧ (∃ detections, predictions !! other_source = Some detections
                   ∧ other_detection ∈ detections)
  ∧ (detection_id other_detection ∉ considered)
  ∧ (class_aware = true → class d = class other_detection)
  ∧ calculate_iou d other_detection = Ok iou_value
  ∧ (iou_threshold < iou_value)%Qc.

(** The state after the group of [d] and [matched] was accepted as [merged]. *)
Definition accept (st : consensus_state) (d : detection) (matched : list detection)
    (merged : detection) : consensus_state :=
  {| consensus_detections := consensus_detections st ++ [merged];
     detections_already_considered :=
       foldl (λ considered matched_detection,
                considered ∪ {[detection_id matched_detection]})
         (detections_already_considered st ∪ {[detection_id d]}) matched |}.

(** No two detections of different sources overlap by more than the
    threshold. *)
Definition no_overlap (predictions : list (list detection)) (iou_threshold : Qc)
    : Prop :=
  ∀ i j detections_i detections_j a b,
    i ≠ j →
    predictions !! i = Some detections_i → a ∈ detections_i →
    predictions !! j = Some detections_j → b ∈ detections_j →
    ∃ v, calculate_iou a b = Ok v ∧ (v ≤ iou_threshold)%Qc.

(** The detections of class [c]. *)
Definition of_class (c : string) (detections : list detection) : list detection :=
  filter (λ d, class d = c) detections.

(** A box whose width and height are not negative. *)
Definition nonnegative_extent (d : detection) : Prop :=
  (0 ≤ width d)%Qc ∧ (0 ≤ height d)%Qc.

(** The number of detections a class-unaware presence verdict asks for: the
    given count, the sum of the minima of a per-class requirement, or 0
    without a requirement. *)
Definition required_total (required_objects : option required_objects_value) : Z :=
  match required_objects with
  | None => 0
  | Some (RequiredCount n) => n
  | Some (RequiredPerClass m) => map_fold (λ _ v acc, v + acc) 0 m
  end.

(** The detection [offset_detection] makes of [d] when [uuid4] returns
    [new_id]. *)
Definition offset_as (d : detection) (offset_x offset_y : Qc) (new_id : string)
    : detection :=
  {| detection_id := new_id;
     parent_id := detection_id d;
     class := class d;
     class_id := class_id d;
     confidence := confidence d;
     det_x := det_x d;
     det_y := det_y d;
     width := (width d + Zc (round offset_x))%Qc;
     height := (height d + Zc (round offset_y))%Qc |}.

(** The detections the step makes of the detections [l], in order, when the
    calls of [uuid4] return [ids 0], [ids 1], ... *)
Definition offset_all (l : list detection) (offset_x offset_y : Qc)
    (ids : nat → string) : list detection :=
  imap (λ i d, offset_as d offset_x offset_y (ids i)) l.

(** The [type] of the first object, from the left, of a filter definition
    that is of neither of the two classes. *)
Fixpoint first_unknown {V : Type} (definition : filter_definition V)
    : option string :=
  match definition with
  | DetectionFilterDefinition _ _ _ => None
  | CompoundDetectionFilterDefinition left_definition _ right_definition =>
      match first_unknown left_definition with
      | Some type => Some type
      | None => first_unknown right_definition
      end
  | OtherDefinition type => Some type
  end.

(** The outcome of the two operands of a compound filter, the left one
    evaluated first and the right one in any case. *)
Definition both_operands (operator : BinaryOperator) (a b : result bool)
    : result bool :=
  match a, b with
  | Ok a, Ok b => Ok (BINARY_OPERATORS operator a b)
  | Raise e, _ => Raise e
  | Ok _, Raise e => Raise e
  end.

(** The condition [filter_callable] holds of [p]. *)
Definition passes {A : Type} (filter_callable : A → result bool) (p : A) : bool :=
  match filter_callable p with
  | Ok keep => keep
  | Raise _ => false
  end.

(** Sample predictions whose values are numbers. *)
Definition sample_prediction (confidence parent : Qc) : gmap string Qc :=
  {["confidence" := confidence; "parent_id" := parent]}.

Definition confidence_above (threshold : Qc) : filter_definition Qc :=
  DetectionFilterDefinition "confidence" GREATER_THAN threshold.

(** The pixel of an image at row [r] and column [c]. *)
Definition pixel {P : Type} (i : image P) (r c : nat) : option P :=
  i !! r ≫= λ row, row !! c.

(** A detection of the sample image whose box starts left of the image. *)
Definition det_at_left_edge : detection :=
  {| detection_id := "e"; parent_id := "img"; class := "cat"; class_id := 0;
     confidence := ratio 9 10;
     det_x := Zc 0; det_y := Zc 1; width := Zc 2; height := Zc 2 |}.

(** The origin size [extract_origin_size_from_images] gives an image. *)
Definition origin_size_of {P : Type}
    (input_image : option (origin_coordinates image_size))
    (decoded_image : image P) : image_size :=
  match input_image with
  | Some coordinates => origin_size coordinates
  | None =>
      {| size_height := (shape decoded_image).1;
         size_width := (shape decoded_image).2 |}
  end.

(** ** Observations on results *)

(** The confidences of the consensus detections of a result, as fractions in
    lowest terms. *)
Definition confidences_of
    (r : result (string * bool * gmap string Qc * list detection))
    : result (list Q) :=
  match r with
  | Ok (_, _, _, consensus) => Ok (map (λ d, this (confidence d)) consensus)
  | Raise e => Raise e
  end.

(** The source detections behind a consensus detection cannot be read off a
    result; these are the identifiers of the ones a matching returns, with the
    source of each. *)
Definition matched_ids (r : result (list (nat * (detection * Qc))))
    : result (list (nat * string)) :=
  match r with
  | Ok matches =>
      Ok (map (λ entry, (fst entry, detection_id (fst (snd entry)))) matches)
  | Raise e => Raise e
  end.

(** The identifiers marked as considered (in the order [elements] lists them)
    and the confidences of the consensus detections of a state of the loop. *)
Definition state_of (r : result (consensus_state * uuid_supply))
    : result (list string * list Q) :=
  match r with
  | Ok (st, _) =>
      Ok (elements (detections_already_considered st),
          map (λ d, this (confidence d)) (consensus_detections st))
  | Raise e => Raise e
  end.

(** * Properties *)

(** ** Crop and offset: provenance *)

Lemma crop_image_parent_ids {P S : Type} (i : image P)
    (detections : list detection) (origin : S) :
  crop_parent_id <$> crop_image i detections origin = detection_id <$> detections.
Proof.
  unfold crop_image. rewrite <- list_fmap_compose.
  apply list_fmap_ext. intros _ d _. simpl.
  by destruct (detection_to_xyxy d) as [[[??]?]?].
Qed.

Lemma offset_detection_spec (d : detection) (offset_x offset_y : Qc)
    (s : uuid_supply) :
  offset_detection d offset_x offset_y s
  = Ok ({| detection_id := s 0%nat;
           parent_id := detection_id d;
           class := class d;
           class_id := class_id d;
           confidence := confidence d;
           det_x := det_x d;
           det_y := det_y d;
           width := (width d + Zc (round offset_x))%Qc;
           height := (height d + Zc (round offset_y))%Qc |},
        λ n, s (S n)).
Proof. reflexivity. Qed.

(** C7, as the code has it: a crop carries as [parent_id] the identifier
    ([detection_id]) of the detection it was cut out for, whatever that
    detection's own [parent_id] is; an offset detection carries the identifier
    [uuid4()] returns next and, as [parent_id], the identifier of the detection
    it was made from, so when that identifier is new the offset detection is
    not its own parent and differs from its origin. *)
Theorem C7_crop_and_offset_provenance {P S : Type} (i : image P)
    (detections : list detection) (origin : S)
    (d : detection) (offset_x offset_y : Qc) (s : uuid_supply) :
  crop_parent_id <$> crop_image i detections origin = detection_id <$> detections
  ∧ ∃ d', run (offset_detection d offset_x offset_y) s = Ok d'
          ∧ detection_id d' = s 0%nat
          ∧ parent_id d' = detection_id d
          ∧ (s 0%nat ≠ detection_id d →
             detection_id d' ≠ detection_id d ∧ parent_id d' ≠ detection_id d').
Proof.
  split; [apply crop_image_parent_ids|].
  unfold run. rewrite offset_detection_spec. simpl.
  eexists. split; [reflexivity|]. simpl. repeat split; congruence.
Qed.

(** C7, the claim as it is stated fails: the crop of a detection whose
    [parent_id] is [d1] and whose own identifier is [d2] has [parent_id] [d2]. *)
Lemma C7_crop_parent_is_the_detection_id :
  parent_id det_on_crop = "d1"
  ∧ crop_parent_id <$> crop_image sample_image [det_on_crop] tt = ["d2"]
  ∧ "d2" ≠ "d1".
Proof. repeat split. discriminate. Qed.

(** ** Reasoning in the two monads *)

Lemma result_bind_ok {A B : Type} (r : result A) (k : A → result B) (a : A) :
  r = Ok a → r ≫= k = k a.
Proof. by intros ->. Qed.

Lemma result_bind_inv {A B : Type} (r : result A) (k : A → result B) (b : B) :
  r ≫= k = Ok b → ∃ a, r = Ok a ∧ k a = Ok b.
Proof. destruct r as [a|e]; [eauto | discriminate]. Qed.

Lemma exec_bind_ok {A B : Type} (c : exec A) (k : A → exec B) s a s' :
  c s = Ok (a, s') → (c ≫= k) s = k a s'.
Proof. unfold mbind, exec_bind. by intros ->. Qed.

Lemma exec_bind_raise {A B : Type} (c : exec A) (k : A → exec B) s e :
  c s = Raise e → (c ≫= k) s = Raise e.
Proof. unfold mbind, exec_bind. by intros ->. Qed.

Lemma exec_bind_inv {A B : Type} (c : exec A) (k : A → exec B) s b s'' :
  (c ≫= k) s = Ok (b, s'') → ∃ a s', c s = Ok (a, s') ∧ k a s' = Ok (b, s'').
Proof.
  unfold mbind, exec_bind. destruct (c s) as [[a s']|e]; [eauto | discriminate].
Qed.

Lemma lift_ok {A : Type} (r : result A) (a : A) s : r = Ok a → lift r s = Ok (a, s).
Proof. by intros ->. Qed.

Lemma lift_raise {A : Type} (r : result A) e s : r = Raise e → lift r s = Raise e.
Proof. by intros ->. Qed.

Lemma lift_inv {A : Type} (r : result A) (a : A) s s' :
  lift r s = Ok (a, s') → r = Ok a ∧ s' = s.
Proof. destruct r; simpl; [by intros [= -> ->] | discriminate]. Qed.

Lemma run_ok {A : Type} (c : exec A) s (a : A) :
  run c s = Ok a ↔ ∃ s', c s = Ok (a, s').
Proof.
  unfold run. destruct (c s) as [[a' s']|e]; simpl; split.
  - intros [= ->]. eauto.
  - by intros [? [= -> _]].
  - discriminate.
  - by intros [? ?].
Qed.

Lemma run_raise {A : Type} (c : exec A) s e : run c s = Raise e ↔ c s = Raise e.
Proof.
  unfold run. destruct (c s) as [[a' s']|e']; simpl; split; congruence.
Qed.

(** ** One parent identifier for all sources *)

Lemma get_parent_id_mismatch (predictions : list (list detection)) d1 d2 :
  d1 ∈ concat predictions → d2 ∈ concat predictions →
  parent_id d1 ≠ parent_id d2 →
  get_parent_id_of_predictions_from_different_sources predictions
  = Raise parent_id_mismatch.
Proof.
  intros H1 H2 Hne. unfold get_parent_id_of_predictions_from_different_sources.
  set (ids := list_to_set _ : gset string).
  assert (Hsub : ({[parent_id d1]} ∪ {[parent_id d2]} : gset string) ⊆ ids).
  { apply union_least; apply singleton_subseteq_l; subst ids;
      rewrite elem_of_list_to_set; apply list_elem_of_fmap; eauto. }
  apply subseteq_size in Hsub.
  rewrite size_union in Hsub by set_solver.
  rewrite !size_singleton in Hsub.
  rewrite decide_True by lia. reflexivity.
Qed.

Lemma get_parent_id_shared (predictions : list (list detection)) (p : string) :
  concat predictions ≠ [] →
  (∀ d, d ∈ concat predictions → parent_id d = p) →
  get_parent_id_of_predictions_from_different_sources predictions = Ok p.
Proof.
  intros Hne Hall. unfold get_parent_id_of_predictions_from_different_sources.
  set (ids := list_to_set _ : gset string).
  assert (Hids : ids = {[p]}).
  { apply set_eq. intros q. subst ids.
    rewrite elem_of_list_to_set, list_elem_of_fmap, elem_of_singleton. split.
    - intros (d & -> & Hd). by apply Hall.
    - intros ->. destruct (concat predictions) as [|d l] eqn:E; [done|].
      exists d. split; [symmetry; apply Hall|]; left. }
  rewrite Hids, size_singleton, decide_False by lia.
  by rewrite elements_singleton.
Qed.

Lemma resolve_batch_consensus_parent_raise predictions required_votes class_aware
    iou_threshold confidence_threshold classes_to_consider required_objects
    m_presence m_confidence m_boxes s e :
  get_parent_id_of_predictions_from_different_sources predictions = Raise e →
  resolve_batch_consensus predictions required_votes class_aware iou_threshold
    confidence_threshold classes_to_consider required_objects
    m_presence m_confidence m_boxes s = Raise e.
Proof.
  intros H. unfold resolve_batch_consensus.
  apply exec_bind_raise. by apply lift_raise.
Qed.

Lemma resolve_batch_consensus_parent_ok predictions required_votes class_aware
    iou_threshold confidence_threshold classes_to_consider required_objects
    m_presence m_confidence m_boxes s parent present confidences consensus s' :
  resolve_batch_consensus predictions required_votes class_aware iou_threshold
    confidence_threshold classes_to_consider required_objects
    m_presence m_confidence m_boxes s
  = Ok (parent, present, confidences, consensus, s') →
  get_parent_id_of_predictions_from_different_sources predictions = Ok parent.
Proof.
  unfold resolve_batch_consensus. intros H.
  apply exec_bind_inv in H as (p & s1 & H1 & H).
  apply lift_inv in H1 as [H1 ->].
  apply exec_bind_inv in H as (st & s2 & _ & H).
  apply exec_bind_inv in H as ([present' confidences'] & s3 & _ & H).
  injection H as <- _ _ _ _. done.
Qed.

(** ** Aggregators never fail on a non-empty list *)

Lemma foldl_pick_elem {A : Type} (pick : A → A → bool) (v : A) (vs : list A) :
  foldl (λ m e, if pick m e then e else m) v vs ∈ v :: vs.
Proof.
  revert v. induction vs as [|w vs IH]; intros v; simpl.
  - left.
  - destruct (pick v w).
    + right. apply IH.
    + specialize (IH v). apply elem_of_cons in IH as [->|IH].
      * left.
      * right. by right.
Qed.

Lemma py_max_elem {A : Type} (lt : A → A → bool) (v : A) (vs : list A) :
  ∃ m, py_max lt (v :: vs) = Ok m ∧ m ∈ v :: vs.
Proof. eexists. split; [reflexivity|]. apply foldl_pick_elem. Qed.

Lemma py_min_elem {A : Type} (lt : A → A → bool) (v : A) (vs : list A) :
  ∃ m, py_min lt (v :: vs) = Ok m ∧ m ∈ v :: vs.
Proof.
  eexists. split; [reflexivity|].
  apply (foldl_pick_elem (λ m e, lt e m)).
Qed.

Lemma mean_nonempty (v : Qc) (vs : list Qc) : ∃ m, mean (v :: vs) = Ok m.
Proof. eexists. reflexivity. Qed.

Lemma aggregate_field_values_nonempty (d : detection) (l : list detection)
    (field : detection → Qc) (mode : AggregationMode) :
  ∃ v, aggregate_field_values (d :: l) field mode = Ok v.
Proof.
  unfold aggregate_field_values. rewrite fmap_cons.
  destruct mode; simpl; eauto.
Qed.

Lemma aggregate_field_values_singleton (d : detection) (field : detection → Qc)
    (mode : AggregationMode) :
  aggregate_field_values [d] field mode = Ok (field d).
Proof.
  destruct mode; try reflexivity.
  unfold aggregate_field_values, AGGREGATION_MODE2FIELD_AGGREGATOR, mean. simpl.
  f_equal. replace (Zc (Z.of_nat 1)) with 1%Qc by (by apply Qc_is_canon).
  field. discriminate.
Qed.

Lemma first_filter_elem {A : Type} (f : A → bool) (l : list A) (x : A) :
  x ∈ l → f x = true →
  ∃ y, first (List.filter f l) = Ok y ∧ y ∈ l ∧ f y = true.
Proof.
  intros Hx Hf.
  assert (Hin : x ∈ List.filter f l).
  { apply list_elem_of_In, filter_In. by rewrite <- list_elem_of_In. }
  destruct (List.filter f l) as [|y l'] eqn:E; [by apply elem_of_nil in Hin|].
  exists y. split; [reflexivity|].
  assert (Hy : In y (List.filter f l)) by (rewrite E; by left).
  apply filter_In in Hy as [Hy ?]. by rewrite <- list_elem_of_In in Hy.
Qed.

(** ** [merge_detections] never fails on a non-empty group *)

Lemma dict_set_elem {K V : Type} `{EqDecision K} (k : K) (v : V) (d : list (K * V))
    (e : K * V) :
  e ∈ dict_set k v d → e = (k, v) ∨ e ∈ d.
Proof.
  induction d as [|[k' v'] d IH]; simpl.
  - intros ->%list_elem_of_singleton. by left.
  - destruct (decide (k = k')) as [->|Hne].
    + intros [->|H]%elem_of_cons; [by left | right; by right].
    + intros [->|H]%elem_of_cons; [right; left|].
      destruct (IH H) as [->|?]; [by left | right; by right].
Qed.

Lemma dict_set_nonempty {K V : Type} `{EqDecision K} (k : K) (v : V)
    (d : list (K * V)) :
  dict_set k v d ≠ [].
Proof. destruct d as [|[k' v'] d]; simpl; [done|]. by destruct (decide (k = k')). Qed.

Lemma Counter_keys_from (classes : list string) (counts : list (string * nat))
    (e : string * nat) :
  e ∈ foldl (λ counts c, dict_set c (S (default 0%nat (dict_get c counts))) counts)
        counts classes →
  e.1 ∈ classes ∨ e ∈ counts.
Proof.
  revert counts. induction classes as [|c classes IH]; intros counts; simpl.
  - by right.
  - intros H. destruct (IH _ H) as [?|H'].
    + left. by right.
    + apply dict_set_elem in H' as [->|?]; [left; left | by right].
Qed.

Lemma Counter_nonempty_from (classes : list string) (counts : list (string * nat)) :
  counts ≠ [] →
  foldl (λ counts c, dict_set c (S (default 0%nat (dict_get c counts))) counts)
    counts classes ≠ [].
Proof.
  revert counts. induction classes as [|c classes IH]; intros counts H; simpl.
  - done.
  - apply IH, dict_set_nonempty.
Qed.

Lemma get_majority_class_nonempty (d : detection) (l : list detection) :
  ∃ r, get_majority_class (d :: l) = Ok r.
Proof.
  unfold get_majority_class.
  destruct (Counter (class <$> d :: l)) as [|e counts] eqn:E.
  { exfalso. revert E. unfold Counter. rewrite fmap_cons. simpl.
    apply Counter_nonempty_from. discriminate. }
  destruct (py_max_elem (λ a b : string * nat, bool_decide (a.2 < b.2)%nat) e counts)
    as (m & -> & Hm).
  cbn -[List.filter].
  assert (Hc : m.1 ∈ class <$> d :: l).
  { rewrite <- E in Hm. apply Counter_keys_from in Hm as [?|H]; [done|].
    by apply elem_of_nil in H. }
  apply list_elem_of_fmap in Hc as (d' & Hd' & Hin).
  destruct (first_filter_elem (λ x, bool_decide (class x = m.1)) (d :: l) d')
    as (y & Hy & _); [done | by apply bool_decide_eq_true|].
  destruct (List.filter _ (d :: l)) as [|y' ?]; [discriminate|]. simpl. eauto.
Qed.

Lemma get_class_of_extreme_detection_nonempty (mode : AggregationMode)
    (d : detection) (l : list detection) :
  mode ≠ AVERAGE →
  ∃ r, (max_confidence ← aggregate_field_values (d :: l) confidence mode;
        most_confident_prediction ← first
          (List.filter (λ d, bool_decide (confidence d = max_confidence)) (d :: l));
        Ok (class most_confident_prediction, class_id most_confident_prediction))
       = Ok r.
Proof.
  intros Hmode.
  assert (∃ m, aggregate_field_values (d :: l) confidence mode = Ok m
               ∧ m ∈ confidence <$> d :: l) as (m & -> & Hm).
  { unfold aggregate_field_values. rewrite fmap_cons.
    destruct mode; [apply py_max_elem | apply py_min_elem | done]. }
  cbn -[List.filter]. apply list_elem_of_fmap in Hm as (d' & -> & Hin).
  destruct (first_filter_elem (λ x, bool_decide (confidence x = confidence d'))
              (d :: l) d') as (y & -> & _);
    [done | by apply bool_decide_eq_true|].
  simpl. eauto.
Qed.

Lemma class_selector_nonempty (mode : AggregationMode) (d : detection)
    (l : list detection) :
  ∃ r, AGGREGATION_MODE2CLASS_SELECTOR mode (d :: l) = Ok r.
Proof.
  destruct mode; simpl.
  - by apply (get_class_of_extreme_detection_nonempty MAX).
  - by apply (get_class_of_extreme_detection_nonempty MIN).
  - apply get_majority_class_nonempty.
Qed.

Lemma indices_of_elem (reference : Qc) (values : list Qc) (i : nat) :
  i ∈ indices_of reference values ↔ values !! i = Some reference.
Proof.
  unfold indices_of. rewrite list_elem_of_fmap. split.
  - intros ([j v] & -> & H).
    apply list_elem_of_In, filter_In in H as [H Hv].
    apply list_elem_of_In, elem_of_lookup_imap in H as (j' & v' & [= -> ->] & H).
    apply bool_decide_eq_true in Hv. simpl in *. by subst.
  - intros H. exists (i, reference). split; [done|].
    apply list_elem_of_In, filter_In. split.
    + apply list_elem_of_In, elem_of_lookup_imap. eauto.
    + by apply bool_decide_eq_true.
Qed.

Lemma bounding_box_of_size_nonempty (select : list Qc → result Qc)
    (d : detection) (l : list detection) :
  (∀ v vs, ∃ m, select (v :: vs) = Ok m ∧ m ∈ v :: vs) →
  ∃ r, bounding_box_of_size select (d :: l) = Ok r.
Proof.
  intros Hsel. unfold bounding_box_of_size, get_detection_sizes.
  set (size_of := λ d : detection, (height d * width d)%Qc).
  rewrite fmap_cons.
  destruct (Hsel (size_of d) (size_of <$> l)) as (m & -> & Hm).
  cbn [mbind result_bind]. rewrite <- fmap_cons in *.
  apply list_elem_of_lookup in Hm as [i Hi].
  pose proof (proj2 (indices_of_elem _ _ _) Hi) as Hin.
  destruct (indices_of m _) as [|j js] eqn:E; [by apply elem_of_nil in Hin|].
  simpl.
  assert (Hj : j ∈ j :: js) by left.
  rewrite <- E in Hj. apply indices_of_elem in Hj.
  rewrite list_lookup_fmap in Hj.
  destruct ((d :: l) !! j) as [d'|]; [eauto | discriminate].
Qed.

Lemma boxes_aggregator_nonempty (mode : AggregationMode) (d : detection)
    (l : list detection) :
  ∃ r, AGGREGATION_MODE2BOXES_AGGREGATOR mode (d :: l) = Ok r.
Proof.
  destruct mode; simpl.
  - apply bounding_box_of_size_nonempty, py_max_elem.
  - apply bounding_box_of_size_nonempty, py_min_elem.
  - unfold get_average_bounding_box, average_field_values.
    rewrite !fmap_cons. simpl. eauto.
Qed.

Lemma merge_detections_nonempty (d : detection) (l : list detection)
    (m_confidence m_boxes : AggregationMode) (s : uuid_supply) :
  ∃ m, merge_detections (d :: l) m_confidence m_boxes s = Ok (m, λ n, s (S n))
       ∧ detection_id m = s 0%nat
       ∧ parent_id m = parent_id d
       ∧ aggregate_field_values (d :: l) confidence m_confidence
         = Ok (confidence m).
Proof.
  unfold merge_detections.
  destruct (class_selector_nonempty m_confidence d l) as ([cn cid] & Hc).
  destruct (boxes_aggregator_nonempty m_boxes d l) as ([[[x y] w] h] & Hb).
  destruct (aggregate_field_values_nonempty d l confidence m_confidence)
    as (c & Ha).
  erewrite exec_bind_ok by (by apply lift_ok). simpl.
  erewrite exec_bind_ok by (by apply lift_ok). simpl.
  erewrite exec_bind_ok by (by apply lift_ok).
  erewrite exec_bind_ok by reflexivity.
  erewrite exec_bind_ok by (by apply lift_ok).
  eexists. split; [reflexivity|]. by rewrite Ha.
Qed.

(** ** Ordered dictionaries and monadic folds *)

Lemma dict_get_None {K V : Type} `{EqDecision K} (k : K) (d : list (K * V)) :
  dict_get k d = None ↔ k ∉ fst <$> d.
Proof.
  induction d as [|[k' v'] d IH]; simpl.
  - split; [intros _; apply not_elem_of_nil | done].
  - destruct (decide (k = k')) as [->|Hne].
    + split; [discriminate|]. intros H. exfalso. apply H. left.
    + rewrite IH, not_elem_of_cons. tauto.
Qed.

Lemma dict_get_elem {K V : Type} `{EqDecision K} (k : K) (v : V) (d : list (K * V)) :
  dict_get k d = Some v → (k, v) ∈ d.
Proof.
  induction d as [|[k' v'] d IH]; simpl; [discriminate|].
  destruct (decide (k = k')) as [->|Hne].
  - intros [= ->]. left.
  - intros H. right. by apply IH.
Qed.

Lemma dict_get_set {K V : Type} `{EqDecision K} (k : K) (v : V) (d : list (K * V)) :
  dict_get k (dict_set k v d) = Some v.
Proof.
  induction d as [|[k' v'] d IH]; simpl.
  - by rewrite decide_True.
  - destruct (decide (k = k')) as [->|Hne]; simpl.
    + by rewrite decide_True.
    + by rewrite decide_False.
Qed.

Lemma dict_set_keys_new {K V : Type} `{EqDecision K} (k : K) (v : V)
    (d : list (K * V)) :
  dict_get k d = None → fst <$> dict_set k v d = (fst <$> d) ++ [k].
Proof.
  induction d as [|[k' v'] d IH]; simpl; [done|].
  destruct (decide (k = k')) as [->|Hne]; [discriminate|].
  intros H. rewrite !fmap_cons. simpl. f_equal. by apply IH.
Qed.

Lemma dict_set_keys_old {K V : Type} `{EqDecision K} (k : K) (v : V)
    (d : list (K * V)) :
  dict_get k d ≠ None → fst <$> dict_set k v d = fst <$> d.
Proof.
  induction d as [|[k' v'] d IH]; simpl; [done|].
  destruct (decide (k = k')) as [->|Hne]; [done|].
  intros H. rewrite !fmap_cons. simpl. f_equal. by apply IH.
Qed.

Lemma foldlM_result_invariant {A B : Type} (I : A → Prop)
    (f : A → B → result A) (l : list B) (a r : A) :
  I a →
  (∀ a b a', I a → b ∈ l → f a b = Ok a' → I a') →
  foldlM f a l = Ok r → I r.
Proof.
  revert a. induction l as [|b l IH]; intros a Ha Hstep; simpl.
  - by intros [= <-].
  - intros (a' & Hf & Hrest)%result_bind_inv.
    apply (IH a'); [|intros; eapply Hstep; [done|by right|done]|done].
    eapply Hstep; [done|left|done].
Qed.

Lemma foldlM_exec_invariant {A B : Type} (I : A → uuid_supply → Prop)
    (f : A → B → exec A) (l : list B) (a r : A) (s s' : uuid_supply) :
  I a s →
  (∀ a b a' s1 s2, I a s1 → b ∈ l → f a b s1 = Ok (a', s2) → I a' s2) →
  foldlM f a l s = Ok (r, s') → I r s'.
Proof.
  revert a s. induction l as [|b l IH]; intros a s Ha Hstep; simpl.
  - by intros [= <- <-].
  - intros (a' & s1 & Hf & Hrest)%exec_bind_inv.
    apply (IH a' s1); [|intros; eapply Hstep; [done|by right|done]|done].
    eapply Hstep; [done|left|done].
Qed.

(** ** The detections a loop enumerates *)

Lemma elem_of_enumerate_detections_from (k : nat)
    (predictions : list (list detection)) (excluded : option nat)
    (i : nat) (d : detection) :
  (i, d) ∈ enumerate_detections_from k predictions excluded
  ↔ excluded ≠ Some i ∧ (k ≤ i)%nat
    ∧ ∃ detections, predictions !! (i - k)%nat = Some detections ∧ d ∈ detections.
Proof.
  revert k. induction predictions as [|ds rest IH]; intros k; simpl.
  - split; [by intros ?%elem_of_nil | by intros (_ & _ & ? & ? & _)].
  - rewrite elem_of_app, IH. split.
    + intros [H|(Hex & Hle & ds' & Hl & Hd)].
      * destruct (decide (excluded = Some k)) as [|Hne];
          [by apply elem_of_nil in H|].
        apply list_elem_of_fmap in H as (d' & [= -> ->] & Hd).
        split; [done|]. split; [lia|].
        exists ds. by rewrite Nat.sub_diag.
      * split; [done|]. split; [lia|]. exists ds'. split; [|done].
        replace (i - k)%nat with (S (i - S k)) by lia. done.
    + intros (Hex & Hle & ds' & Hl & Hd).
      destruct (decide (i = k)) as [->|Hne].
      * left. rewrite Nat.sub_diag in Hl. injection Hl as ->.
        rewrite decide_False by done. apply list_elem_of_fmap. eauto.
      * right. split; [done|]. split; [lia|]. exists ds'. split; [|done].
        replace (i - k)%nat with (S (i - S k)) in Hl by lia. done.
Qed.

Lemma elem_of_enumerate_detections (predictions : list (list detection))
    (excluded : option nat) (i : nat) (d : detection) :
  (i, d) ∈ enumerate_detections predictions excluded
  ↔ excluded ≠ Some i
    ∧ ∃ detections, predictions !! i = Some detections ∧ d ∈ detections.
Proof.
  unfold enumerate_detections. rewrite elem_of_enumerate_detections_from.
  rewrite Nat.sub_0_r. split.
  - intros (? & _ & ?). done.
  - intros (? & ?). split; [done|]. split; [lia|done].
Qed.

(** ** What the matching returns *)

Lemma dict_set_keys_NoDup {K V : Type} `{EqDecision K} (k : K) (v : V)
    (d : list (K * V)) :
  NoDup (fst <$> d) → NoDup (fst <$> dict_set k v d).
Proof.
  intros Hnd. destruct (dict_get k d) as [v'|] eqn:E.
  - rewrite dict_set_keys_old; [done | congruence].
  - rewrite dict_set_keys_new by done.
    apply NoDup_app. split; [done|]. split.
    + intros x Hx ->%list_elem_of_singleton. by apply dict_get_None in E.
    + apply NoDup_singleton.
Qed.

Lemma dict_set_Forall {K V : Type} `{EqDecision K} (P : K * V → Prop) (k : K)
    (v : V) (d : list (K * V)) :
  P (k, v) → Forall P d → Forall P (dict_set k v d).
Proof.
  intros Hkv Hd. apply Forall_forall. intros e He.
  apply dict_set_elem in He as [->|He]; [done|].
  by eapply Forall_forall in Hd.
Qed.

Lemma max_overlap_update_ok (d : detection) (source : nat)
    (predictions : list (list detection)) (iou_threshold : Qc)
    (class_aware : bool) (considered : gset string)
    (current current' : list (nat * (detection * Qc))) (other : nat * detection) :
  other ∈ enumerate_detections predictions (Some source) →
  NoDup (fst <$> current)
  ∧ Forall (overlap_entry_ok d source predictions iou_threshold class_aware
              considered) current →
  max_overlap_update d iou_threshold class_aware considered current other
  = Ok current' →
  NoDup (fst <$> current')
  ∧ Forall (overlap_entry_ok d source predictions iou_threshold class_aware
              considered) current'.
Proof.
  destruct other as [k od]. intros Hin [Hnd Hall].
  apply elem_of_enumerate_detections in Hin as [Hk Hsrc].
  unfold max_overlap_update.
  destruct (bool_decide (detection_id od ∈ considered)) eqn:Hcons;
    [by intros [= <-]|].
  apply bool_decide_eq_false in Hcons.
  destruct (class_aware && bool_decide (class d ≠ class od)) eqn:Hclass;
    [by intros [= <-]|].
  destruct (calculate_iou d od) as [v|e] eqn:Hiou; [|discriminate].
  cbn [mbind result_bind]. unfold Qc_leb, Qc_ltb.
  destruct (bool_decide (v ≤ iou_threshold)%Qc) eqn:Hv; [by intros [= <-]|].
  apply bool_decide_eq_false, Qcnot_le_lt in Hv.
  assert (Hentry : overlap_entry_ok d source predictions iou_threshold
                     class_aware considered (k, (od, v))).
  { repeat split; simpl; try done.
    - congruence.
    - intros ->. simpl in Hclass. apply bool_decide_eq_false in Hclass.
      by destruct (decide (class d = class od)). }
  destruct (dict_get k current) as [best|] eqn:Hget.
  - rewrite Hget. destruct (bool_decide (best.2 < v)%Qc); intros [= <-].
    + split; [by apply dict_set_keys_NoDup | by apply dict_set_Forall].
    + done.
  - rewrite dict_get_set. simpl.
    destruct (bool_decide (v < v)%Qc); intros [= <-].
    + split; [by do 2 apply dict_set_keys_NoDup|].
      by repeat (apply dict_set_Forall; [done|]).
    + split; [by apply dict_set_keys_NoDup | by apply dict_set_Forall].
Qed.

Lemma max_overlap_ok (d : detection) (source : nat)
    (predictions : list (list detection)) (iou_threshold : Qc)
    (class_aware : bool) (considered : gset string)
    (matches : list (nat * (detection * Qc))) :
  get_detections_from_different_sources_with_max_overlap d source predictions
    iou_threshold class_aware considered = Ok matches →
  NoDup (fst <$> matches)
  ∧ Forall (overlap_entry_ok d source predictions iou_threshold class_aware
              considered) matches.
Proof.
  unfold get_detections_from_different_sources_with_max_overlap.
  apply (foldlM_result_invariant
           (λ cur, NoDup (fst <$> cur)
                   ∧ Forall (overlap_entry_ok d source predictions iou_threshold
                               class_aware considered) cur)).
  - split; [apply NoDup_nil_2 | apply Forall_nil_2].
  - intros cur other cur' Hcur Hin Hstep.
    by eapply max_overlap_update_ok.
Qed.

(** At most one match per other source. *)
Lemma max_overlap_length (d : detection) (source : nat)
    (predictions : list (list detection)) (iou_threshold : Qc)
    (class_aware : bool) (considered : gset string)
    (matches : list (nat * (detection * Qc))) :
  (source < length predictions)%nat →
  get_detections_from_different_sources_with_max_overlap d source predictions
    iou_threshold class_aware considered = Ok matches →
  (length matches ≤ length predictions - 1)%nat.
Proof.
  intros Hsrc [Hnd Hall]%max_overlap_ok.
  assert (Hnd' : NoDup (source :: (fst <$> matches))).
  { apply NoDup_cons. split; [|done].
    intros (e & -> & He)%list_elem_of_fmap.
    eapply Forall_forall in Hall; [|done]. by destruct Hall as [? _]. }
  assert (Hsub : source :: (fst <$> matches) ⊆+ seq 0 (length predictions)).
  { apply NoDup_submseteq; [done|]. intros k Hk. apply elem_of_seq.
    apply elem_of_cons in Hk as [->|(e & -> & He)%list_elem_of_fmap]; [lia|].
    eapply Forall_forall in Hall; [|done].
    destruct Hall as (_ & (ds & Hl & _) & _).
    apply lookup_lt_Some in Hl. lia. }
  apply submseteq_length in Hsub.
  rewrite length_seq in Hsub. simpl in Hsub. rewrite length_fmap in Hsub. lia.
Qed.

(** ** One iteration of the consensus loop *)

Lemma consensus_iteration_spec (predictions : list (list detection))
    (required_votes : Z) (class_aware : bool)
    (iou_threshold confidence_threshold : Qc)
    (m_confidence m_boxes : AggregationMode) (st : consensus_state)
    (source_id : nat) (d : detection) (s : uuid_supply)
    (matches : list (nat * (detection * Qc))) :
  get_detections_from_different_sources_with_max_overlap d source_id predictions
    iou_threshold class_aware (detections_already_considered st) = Ok matches →
  let matched := fst <$> dict_values matches in
  ∃ merged,
    merge_detections (d :: matched) m_confidence m_boxes s
    = Ok (merged, λ n, s (S n))
    ∧ consensus_iteration predictions required_votes class_aware iou_threshold
        confidence_threshold m_confidence m_boxes st (source_id, d) s
      = if decide (required_votes - 1 ≤ Z.of_nat (length matches)) then
          if Qc_leb confidence_threshold (confidence merged)
          then Ok (accept st d matched merged, λ n, s (S n))
          else Ok (st, λ n, s (S n))
        else Ok (st, s).
Proof.
  intros Hmatch matched.
  destruct (merge_detections_nonempty d matched m_confidence m_boxes s)
    as (merged & Hmerge & _).
  exists merged. split; [done|].
  unfold consensus_iteration.
  erewrite exec_bind_ok by (by apply lift_ok).
  destruct (decide (required_votes - 1 ≤ Z.of_nat (length matches))); [|done].
  fold matched. erewrite exec_bind_ok by exact Hmerge.
  by destruct (Qc_leb confidence_threshold (confidence merged)).
Qed.

Lemma consensus_iteration_ok_inv (predictions : list (list detection))
    (required_votes : Z) (class_aware : bool)
    (iou_threshold confidence_threshold : Qc)
    (m_confidence m_boxes : AggregationMode) (st st' : consensus_state)
    (source_id : nat) (d : detection) (s s' : uuid_supply) :
  consensus_iteration predictions required_votes class_aware iou_threshold
    confidence_threshold m_confidence m_boxes st (source_id, d) s = Ok (st', s') →
  ∃ matches,
    get_detections_from_different_sources_with_max_overlap d source_id predictions
      iou_threshold class_aware (detections_already_considered st) = Ok matches.
Proof.
  unfold consensus_iteration.
  intros (matches & s1 & [H _]%lift_inv & _)%exec_bind_inv. eauto.
Qed.

(** ** The quorum *)


Lemma max_overlap_update_considered (d : detection) (iou_threshold : Qc)
    (class_aware : bool) (considered : gset string)
    (current : list (nat * (detection * Qc))) (k : nat) (od : detection) :
  detection_id od ∈ considered →
  max_overlap_update d iou_threshold class_aware considered current (k, od)
  = Ok current.
Proof.
  intros H. unfold max_overlap_update. by rewrite bool_decide_eq_true_2.
Qed.

Lemma max_overlap_update_low_iou (d : detection) (iou_threshold : Qc)
    (class_aware : bool) (considered : gset string)
    (current : list (nat * (detection * Qc))) (k : nat) (od : detection)
    (iou_value : Qc) :
  calculate_iou d od = Ok iou_value →
  (iou_value ≤ iou_threshold)%Qc →
  max_overlap_update d iou_threshold class_aware considered current (k, od)
  = Ok current.
Proof.
  intros Hiou Hv. unfold max_overlap_update.
  destruct (bool_decide (detection_id od ∈ considered)); [done|].
  destruct (class_aware && bool_decide (class d ≠ class od)); [done|].
  rewrite Hiou. cbn [mbind result_bind]. unfold Qc_leb.
  by rewrite bool_decide_eq_true_2.
Qed.

Lemma max_overlap_update_first_match (d : detection) (iou_threshold : Qc)
    (class_aware : bool) (considered : gset string)
    (current : list (nat * (detection * Qc))) (k : nat) (od : detection)
    (iou_value : Qc) :
  detection_id od ∉ considered →
  (class_aware = true → class d = class od) →
  calculate_iou d od = Ok iou_value →
  (iou_threshold < iou_value)%Qc →
  dict_get k current = None →
  max_overlap_update d iou_threshold class_aware considered current (k, od)
  = Ok (dict_set k (od, iou_value) current).
Proof.
  intros Hcons Hclass Hiou Hv Hget. unfold max_overlap_update.
  rewrite bool_decide_eq_false_2 by done.
  replace (class_aware && bool_decide (class d ≠ class od)) with false.
  2:{ destruct class_aware; [|done]. symmetry.
      apply bool_decide_eq_false. intros H. by apply H, Hclass. }
  rewrite Hiou. cbn [mbind result_bind]. unfold Qc_leb, Qc_ltb.
  rewrite bool_decide_eq_false_2 by by apply Qclt_not_le.
  rewrite Hget, dict_get_set. cbn [snd].
  rewrite bool_decide_eq_false_2; [done|].
  apply Qcle_not_lt, Qcle_refl.
Qed.

(** Two sources with one detection each, the two detections matching: with
    two required votes they are merged, once. *)
Lemma consensus_loop_two_agreeing_sources (d1 d2 : detection) (class_aware : bool)
    (iou_threshold confidence_threshold iou_value merged_confidence : Qc)
    (m_confidence m_boxes : AggregationMode) (s : uuid_supply) :
  calculate_iou d1 d2 = Ok iou_value →
  (iou_threshold < iou_value)%Qc →
  (class_aware = true → class d1 = class d2) →
  aggregate_field_values [d1; d2] confidence m_confidence = Ok merged_confidence →
  (confidence_threshold ≤ merged_confidence)%Qc →
  ∃ merged,
    merge_detections [d1; d2] m_confidence m_boxes s = Ok (merged, λ n, s (S n))
    ∧ confidence merged = merged_confidence
    ∧ consensus_loop [[d1]; [d2]] 2 class_aware iou_threshold
        confidence_threshold m_confidence m_boxes s
      = Ok (accept {| detections_already_considered := ∅;
                      consensus_detections := [] |} d1 [d2] merged,
            λ n, s (S n)).
Proof.
  intros Hiou Hv Hclass Hagg Hconf.
  destruct (merge_detections_nonempty d1 [d2] m_confidence m_boxes s)
    as (merged & Hmerge & _ & _ & Hc).
  rewrite Hagg in Hc. injection Hc as Hc.
  exists merged. split; [done|]. split; [done|].
  set (st0 := {| detections_already_considered := ∅; consensus_detections := [] |}).
  assert (Hmatch1 :
    get_detections_from_different_sources_with_max_overlap d1 0 [[d1]; [d2]]
      iou_threshold class_aware (detections_already_considered st0)
    = Ok [(1%nat, (d2, iou_value))]).
  { unfold get_detections_from_different_sources_with_max_overlap.
    change (enumerate_detections [[d1]; [d2]] (Some 0%nat)) with [(1%nat, d2)].
    cbn [foldlM].
    by rewrite (max_overlap_update_first_match _ _ _ _ _ _ _ iou_value). }
  destruct (consensus_iteration_spec [[d1]; [d2]] 2 class_aware iou_threshold
              confidence_threshold m_confidence m_boxes st0 0 d1 s _ Hmatch1)
    as (merged' & Hmerge' & Hspec1).
  change (fst <$> dict_values [(1%nat, (d2, iou_value))]) with [d2] in *.
  rewrite Hmerge in Hmerge'. injection Hmerge' as <-.
  rewrite decide_True in Hspec1 by (cbn [length]; lia).
  unfold Qc_leb in Hspec1. rewrite bool_decide_eq_true_2 in Hspec1 by congruence.
  set (st1 := accept st0 d1 [d2] merged) in *.
  assert (Hmatch2 :
    get_detections_from_different_sources_with_max_overlap d2 1 [[d1]; [d2]]
      iou_threshold class_aware (detections_already_considered st1) = Ok []).
  { unfold get_detections_from_different_sources_with_max_overlap.
    change (enumerate_detections [[d1]; [d2]] (Some 1%nat)) with [(0%nat, d1)].
    cbn [foldlM]. rewrite max_overlap_update_considered; [done|].
    subst st1. unfold accept. cbn. set_solver. }
  destruct (consensus_iteration_spec [[d1]; [d2]] 2 class_aware iou_threshold
              confidence_threshold m_confidence m_boxes st1 1 d2
              (λ n, s (S n)) _ Hmatch2) as (merged2 & _ & Hspec2).
  rewrite decide_False in Hspec2 by (cbn [length]; lia).
  unfold consensus_loop.
  change (enumerate_detections [[d1]; [d2]] None) with [(0%nat, d1); (1%nat, d2)].
  cbn [foldlM].
  erewrite exec_bind_ok by exact Hspec1.
  erewrite exec_bind_ok by exact Hspec2.
  reflexivity.
Qed.

(** ** [resolve_batch_consensus] in terms of its three stages *)

Lemma resolve_batch_consensus_ok_inv predictions required_votes class_aware
    iou_threshold confidence_threshold classes_to_consider required_objects
    m_presence m_confidence m_boxes s parent present confidences consensus s' :
  resolve_batch_consensus predictions required_votes class_aware iou_threshold
    confidence_threshold classes_to_consider required_objects
    m_presence m_confidence m_boxes s
  = Ok (parent, present, confidences, consensus, s') →
  get_parent_id_of_predictions_from_different_sources predictions = Ok parent
  ∧ ∃ st,
      consensus_loop (filter_predictions predictions 0%Qc classes_to_consider)
        required_votes class_aware iou_threshold confidence_threshold
        m_confidence m_boxes s = Ok (st, s')
      ∧ consensus = consensus_detections st
      ∧ check_objects_presence_in_consensus_predictions consensus class_aware
          m_presence required_objects = Ok (present, confidences).
Proof.
  unfold resolve_batch_consensus. intros H.
  apply exec_bind_inv in H as (p & s1 & [H1 ->]%lift_inv & H).
  apply exec_bind_inv in H as (st & s2 & Hloop & H).
  apply exec_bind_inv in H as ([present' confidences'] & s3 & [Hc ->]%lift_inv & H).
  injection H as <- <- <- <- <-. eauto.
Qed.

Lemma resolve_batch_consensus_ok_intro predictions required_votes class_aware
    iou_threshold confidence_threshold classes_to_consider required_objects
    m_presence m_confidence m_boxes s parent present confidences st s' :
  get_parent_id_of_predictions_from_different_sources predictions = Ok parent →
  consensus_loop (filter_predictions predictions 0%Qc classes_to_consider)
    required_votes class_aware iou_threshold confidence_threshold
    m_confidence m_boxes s = Ok (st, s') →
  check_objects_presence_in_consensus_predictions (consensus_detections st)
    class_aware m_presence required_objects = Ok (present, confidences) →
  resolve_batch_consensus predictions required_votes class_aware iou_threshold
    confidence_threshold classes_to_consider required_objects
    m_presence m_confidence m_boxes s
  = Ok (parent, present, confidences, consensus_detections st, s').
Proof.
  intros Hp Hloop Hc. unfold resolve_batch_consensus.
  erewrite exec_bind_ok by (by apply lift_ok).
  erewrite exec_bind_ok by exact Hloop.
  erewrite exec_bind_ok by (by apply lift_ok).
  reflexivity.
Qed.


(** ** Boxes of non-negative extent: the IOU is defined *)

Lemma round_floor (v : Qc) : Qfloor v ≤ round v.
Proof.
  unfold round. repeat case_decide; try lia. destruct (Z.even _); lia.
Qed.

Lemma round_add_nonnegative (n : Z) (w : Qc) : (0 ≤ w)%Qc → n ≤ round (Zc n + w)%Qc.
Proof.
  intros Hw. etrans; [|apply round_floor].
  transitivity (Qfloor (inject_Z n)); [by rewrite Qfloor_Z|].
  apply Qfloor_resp_le.
  change (this (Zc n + w)%Qc) with (Qred (Qred (inject_Z n) + w)).
  rewrite !Qred_correct.
  apply (Qle_trans _ (inject_Z n + 0)%Q).
  - rewrite Qplus_0_r. apply Qle_refl.
  - apply Qplus_le_compat; [apply Qle_refl | exact Hw].
Qed.

Lemma detection_to_xyxy_ordered (d : detection) (x_min y_min x_max y_max : Z) :
  nonnegative_extent d →
  detection_to_xyxy d = (x_min, y_min, x_max, y_max) →
  x_min ≤ x_max ∧ y_min ≤ y_max.
Proof.
  intros [Hw Hh]. unfold detection_to_xyxy. intros [= <- <- <- <-].
  split; by apply round_add_nonnegative.
Qed.

Lemma calculate_iou_defined (a b : detection) :
  nonnegative_extent a → nonnegative_extent b →
  ∃ v, calculate_iou a b = Ok v.
Proof.
  intros Ha Hb. unfold calculate_iou.
  destruct (detection_to_xyxy a) as [[[a0 a1] a2] a3] eqn:Ea.
  destruct (detection_to_xyxy b) as [[[b0 b1] b2] b3] eqn:Eb.
  destruct (detection_to_xyxy_ordered _ _ _ _ _ Ha Ea) as [Hax Hay].
  destruct (detection_to_xyxy_ordered _ _ _ _ _ Hb Eb) as [Hbx Hby].
  rewrite decide_False; [eauto|].
  assert (Hi : Z.max 0 (Z.min a2 b2 - Z.max a0 b0 + 1)
               * Z.max 0 (Z.min a3 b3 - Z.max a1 b1 + 1)
               ≤ (a2 - a0 + 1) * (a3 - a1 + 1)).
  { apply Z.mul_le_mono_nonneg; lia. }
  assert (Hbpos : 0 < (b2 - b0 + 1) * (b3 - b1 + 1)) by (apply Z.mul_pos_pos; lia).
  lia.
Qed.

Lemma elem_of_concat {A : Type} (ls : list (list A)) (x : A) :
  x ∈ concat ls ↔ ∃ l, l ∈ ls ∧ x ∈ l.
Proof.
  rewrite list_elem_of_In, in_concat. split.
  - intros (l & Hl & Hx). exists l. by rewrite !list_elem_of_In.
  - intros (l & Hl & Hx). exists l. by rewrite <- !list_elem_of_In.
Qed.

Lemma foldlM_result_defined {A B : Type} (f : A → B → result A) (l : list B)
    (a : A) :
  (∀ a b, b ∈ l → ∃ a', f a b = Ok a') → ∃ r, foldlM f a l = Ok r.
Proof.
  revert a. induction l as [|b l IH]; intros a Hf; [by eexists|].
  destruct (Hf a b) as [a' Ha']; [left|].
  cbn [foldlM]. rewrite Ha'. cbn [mbind result_bind].
  apply IH. intros a0 b0 Hin. apply Hf. by right.
Qed.

Lemma max_overlap_update_defined (d : detection) (iou_threshold : Qc)
    (class_aware : bool) (considered : gset string)
    (current : list (nat * (detection * Qc))) (k : nat) (od : detection) :
  nonnegative_extent d → nonnegative_extent od →
  ∃ current',
    max_overlap_update d iou_threshold class_aware considered current (k, od)
    = Ok current'.
Proof.
  intros Hd Hod. unfold max_overlap_update.
  destruct (bool_decide (detection_id od ∈ considered)); [eauto|].
  destruct (class_aware && bool_decide (class d ≠ class od)); [eauto|].
  destruct (calculate_iou_defined d od Hd Hod) as [v ->].
  cbn [mbind result_bind]. destruct (Qc_leb v iou_threshold); [eauto|].
  destruct (dict_get k current) as [best|] eqn:Hget.
  - rewrite Hget. destruct (Qc_ltb _ v); eauto.
  - rewrite dict_get_set. destruct (Qc_ltb _ v); eauto.
Qed.

Lemma max_overlap_defined (d : detection) (source : nat)
    (predictions : list (list detection)) (iou_threshold : Qc)
    (class_aware : bool) (considered : gset string) :
  nonnegative_extent d →
  (∀ od, od ∈ concat predictions → nonnegative_extent od) →
  ∃ matches,
    get_detections_from_different_sources_with_max_overlap d source predictions
      iou_threshold class_aware considered = Ok matches.
Proof.
  intros Hd Hall. apply foldlM_result_defined. intros current [k od] Hin.
  apply max_overlap_update_defined; [done|]. apply Hall.
  apply elem_of_enumerate_detections in Hin as (_ & ds & Hl & Hod).
  apply list_elem_of_lookup_2 in Hl.
  apply elem_of_concat. eauto.
Qed.


Lemma filter_predictions_concat (predictions : list (list detection))
    (threshold : Qc) (classes_to_consider : option (list string)) (d : detection) :
  d ∈ concat (filter_predictions predictions threshold classes_to_consider) →
  d ∈ concat predictions.
Proof.
  unfold filter_predictions. rewrite !elem_of_concat.
  intros (l & (ds & -> & Hds)%list_elem_of_fmap & Hd).
  exists ds. split; [done|].
  by apply list_elem_of_In, filter_In in Hd as [Hd%list_elem_of_In _].
Qed.




(** ** Sources without any detection *)

Lemma get_parent_id_no_detection (predictions : list (list detection)) :
  concat predictions = [] →
  get_parent_id_of_predictions_from_different_sources predictions
  = Raise IndexError.
Proof.
  intros H. unfold get_parent_id_of_predictions_from_different_sources.
  rewrite H. reflexivity.
Qed.

Lemma batch_sizes_of_empty_sources (all_predictions : list predictions_value) :
  Forall (λ e, e = Flat [] ∨ e = Nested []) all_predictions →
  get_predictions_batch_sizes all_predictions
  = replicate (length all_predictions) 1%nat.
Proof.
  unfold get_predictions_batch_sizes.
  induction 1 as [|e l [->| ->] _ IH]; [done|..];
    rewrite fmap_cons, IH; reflexivity.
Qed.

Lemma all_batch_sizes_equal_replicate (n size : nat) :
  all_batch_sizes_equal (replicate n size) = true.
Proof.
  unfold all_batch_sizes_equal. destruct n as [|n]; [done|].
  change (replicate (S n) size) with (size :: replicate n size) at 2.
  cbv iota beta. apply forallb_forall. intros e He.
  apply list_elem_of_In in He.
  change (size :: replicate n size) with (replicate (S n) size) in He.
  apply elem_of_replicate in He as [-> _].
  by apply bool_decide_eq_true.
Qed.

Lemma batch_elements_of_empty_sources (all_predictions : list predictions_value) :
  Forall (λ e, e = Flat [] ∨ e = Nested []) all_predictions →
  ∃ batch_predictions,
    mapM (M := result) (batch_element 1 0) all_predictions = Ok batch_predictions
    ∧ concat batch_predictions = [].
Proof.
  induction 1 as [|e l [->| ->] _ (bp & IH & Hc)]; simpl.
  - by exists [].
  - rewrite IH. by exists ([] :: bp).
  - rewrite IH. by exists ([] :: bp).
Qed.

(** C9: when no source of a batch element holds a detection, the parent
    check indexes an empty list and the consensus of that element raises
    [IndexError]; so does the whole step when it is given at least one source
    and every source is the empty list. *)
Theorem C9_empty_sources_raise_index_error {I : Type} (name : string)
    (predictions : list (list detection))
    (all_predictions : list predictions_value) (images_meta : meta_value I)
    required_votes class_aware iou_threshold confidence_threshold
    classes_to_consider required_objects m_presence m_confidence m_boxes
    (s : uuid_supply) :
  (concat predictions = [] →
   run (resolve_batch_consensus predictions required_votes class_aware
          iou_threshold confidence_threshold classes_to_consider
          required_objects m_presence m_confidence m_boxes) s
   = Raise IndexError)
  ∧ (all_predictions ≠ [] →
     Forall (λ e, e = Flat [] ∨ e = Nested []) all_predictions →
     run (run_detections_consensus_step name all_predictions images_meta
            required_votes class_aware iou_threshold confidence_threshold
            classes_to_consider required_objects m_presence m_confidence
            m_boxes) s
     = Raise IndexError).
Proof.
  split.
  - intros H. apply run_raise, resolve_batch_consensus_parent_raise.
    by apply get_parent_id_no_detection.
  - intros Hne Hall. apply run_raise. unfold run_detections_consensus_step.
    destruct all_predictions as [|e l] eqn:E; [done|]. rewrite <- E in *.
    rewrite decide_False by (rewrite E; simpl; lia).
    unfold get_and_validate_batch_sizes.
    rewrite batch_sizes_of_empty_sources by done.
    rewrite all_batch_sizes_equal_replicate. cbn [negb].
    erewrite exec_bind_ok by reflexivity.
    rewrite E at 1. cbn [length replicate first].
    erewrite exec_bind_ok by reflexivity.
    apply exec_bind_raise. cbn [seq mapM].
    apply exec_bind_raise.
    destruct (batch_elements_of_empty_sources all_predictions Hall)
      as (bp & Hbp & Hc).
    erewrite exec_bind_ok by (by apply lift_ok).
    apply exec_bind_raise, resolve_batch_consensus_parent_raise.
    by apply get_parent_id_no_detection.
Qed.

Lemma C9_empty_sources_witness :
  run (resolve_batch_consensus [[]; []] 1 false (ratio 3 10) (ratio 3 10) None
         None AVERAGE AVERAGE AVERAGE) sample_uuids = Raise IndexError
  ∧ run (run_detections_consensus_step "consensus" [Flat []; Flat []]
           (MetaOne tt) 1 false (ratio 3 10) (ratio 3 10) None None AVERAGE
           AVERAGE AVERAGE) sample_uuids = Raise IndexError.
Proof.
  split.
  - by apply (C9_empty_sources_raise_index_error "consensus" [[]; []]
                [Flat []; Flat []] (MetaOne tt)).
  - apply (C9_empty_sources_raise_index_error "consensus" [[]; []]
             [Flat []; Flat []] (MetaOne tt)); [done|].
    repeat constructor.
Defined.

(** ** Presence verdict: class-aware mode without a per-class map *)

Lemma resolve_batch_consensus_presence_raise predictions required_votes
    class_aware iou_threshold confidence_threshold classes_to_consider
    required_objects m_presence m_confidence m_boxes s parent st s' e :
  get_parent_id_of_predictions_from_different_sources predictions = Ok parent →
  consensus_loop (filter_predictions predictions 0%Qc classes_to_consider)
    required_votes class_aware iou_threshold confidence_threshold
    m_confidence m_boxes s = Ok (st, s') →
  check_objects_presence_in_consensus_predictions (consensus_detections st)
    class_aware m_presence required_objects = Raise e →
  resolve_batch_consensus predictions required_votes class_aware iou_threshold
    confidence_threshold classes_to_consider required_objects
    m_presence m_confidence m_boxes s = Raise e.
Proof.
  intros Hp Hloop Hc. unfold resolve_batch_consensus.
  erewrite exec_bind_ok by (by apply lift_ok).
  erewrite exec_bind_ok by exact Hloop.
  apply exec_bind_raise. by apply lift_raise.
Qed.

Lemma check_objects_presence_class_aware_count
    (consensus : list detection) (mode : AggregationMode)
    (required_objects : option required_objects_value) :
  consensus ≠ [] →
  (∀ m, required_objects ≠ Some (RequiredPerClass m)) →
  check_objects_presence_in_consensus_predictions consensus true mode
    required_objects = Raise AttributeError.
Proof.
  intros Hne Hro. unfold check_objects_presence_in_consensus_predictions.
  rewrite decide_False by (by destruct consensus).
  destruct required_objects as [[n|m]|]; [done | by destruct (Hro m) | done].
Qed.

(** ** Which errors the consensus can raise *)

Lemma result_bind_raise_inv {A B : Type} (r : result A) (k : A → result B) e :
  r ≫= k = Raise e → r = Raise e ∨ ∃ a, r = Ok a ∧ k a = Raise e.
Proof. destruct r as [a|e']; simpl; intros H; [eauto | left; congruence]. Qed.

Lemma exec_bind_raise_inv {A B : Type} (c : exec A) (k : A → exec B) s e :
  (c ≫= k) s = Raise e → c s = Raise e ∨ ∃ a s', c s = Ok (a, s') ∧ k a s' = Raise e.
Proof.
  unfold mbind, exec_bind. destruct (c s) as [[a s']|e']; intros H;
    [eauto | left; congruence].
Qed.

Lemma lift_raise_inv {A : Type} (r : result A) s e : lift r s = Raise e → r = Raise e.
Proof. destruct r; simpl; congruence. Qed.

Lemma foldlM_result_raise {A B : Type} (f : A → B → result A) (l : list B)
    (a : A) e :
  foldlM f a l = Raise e → ∃ a' b, b ∈ l ∧ f a' b = Raise e.
Proof.
  revert a. induction l as [|b l IH]; intros a; simpl; [discriminate|].
  intros [H|(a' & _ & H)]%result_bind_raise_inv.
  - exists a, b. split; [left | done].
  - destruct (IH _ H) as (a'' & b' & ? & ?). exists a'', b'. split; [by right | done].
Qed.

Lemma foldlM_exec_raise {A B : Type} (f : A → B → exec A) (l : list B)
    (a : A) s e :
  foldlM f a l s = Raise e → ∃ a' b s', b ∈ l ∧ f a' b s' = Raise e.
Proof.
  revert a s. induction l as [|b l IH]; intros a s; simpl; [discriminate|].
  intros [H|(a' & s' & _ & H)]%exec_bind_raise_inv.
  - exists a, b, s. split; [left | done].
  - destruct (IH _ _ H) as (a'' & b' & s'' & ? & ?).
    exists a'', b', s''. split; [by right | done].
Qed.

Lemma mapM_result_raise {A B : Type} (f : A → result B) (l : list A) e :
  mapM f l = Raise e → ∃ a, a ∈ l ∧ f a = Raise e.
Proof.
  induction l as [|a l IH]; simpl; [discriminate|].
  intros [H|(b & _ & H)]%result_bind_raise_inv.
  - exists a. split; [left | done].
  - apply result_bind_raise_inv in H as [H|(bs & _ & H)]; [|discriminate].
    destruct (IH H) as (a' & ? & ?). exists a'. split; [by right | done].
Qed.

Lemma mapM_exec_raise {A B : Type} (f : A → exec B) (l : list A) s e :
  mapM f l s = Raise e → ∃ a s', a ∈ l ∧ f a s' = Raise e.
Proof.
  revert s. induction l as [|a l IH]; intros s; simpl; [discriminate|].
  intros [H|(b & s' & _ & H)]%exec_bind_raise_inv.
  - exists a, s. split; [left | done].
  - apply exec_bind_raise_inv in H as [H|(bs & s'' & _ & H)]; [|discriminate].
    destruct (IH _ H) as (a' & s3 & ? & ?). exists a', s3. split; [by right | done].
Qed.

Lemma calculate_iou_raise (a b : detection) e :
  calculate_iou a b = Raise e → e = ZeroDivisionError.
Proof.
  unfold calculate_iou.
  destruct (detection_to_xyxy a) as [[[??]?]?].
  destruct (detection_to_xyxy b) as [[[??]?]?].
  case_decide; congruence.
Qed.

Lemma max_overlap_raise (d : detection) (source : nat)
    (predictions : list (list detection)) (iou_threshold : Qc)
    (class_aware : bool) (considered : gset string) e :
  get_detections_from_different_sources_with_max_overlap d source predictions
    iou_threshold class_aware considered = Raise e →
  e = ZeroDivisionError.
Proof.
  unfold get_detections_from_different_sources_with_max_overlap.
  intros (cur & [k od] & _ & H)%foldlM_result_raise.
  unfold max_overlap_update in H.
  destruct (bool_decide (detection_id od ∈ considered)); [discriminate|].
  destruct (class_aware && bool_decide (class d ≠ class od)); [discriminate|].
  apply result_bind_raise_inv in H as [H|(v & _ & H)];
    [by apply calculate_iou_raise in H|].
  destruct (Qc_leb v iou_threshold); [discriminate|].
  destruct (dict_get k cur) as [best|] eqn:Hget.
  - rewrite Hget in H. by destruct (Qc_ltb best.2 v).
  - rewrite dict_get_set in H. by destruct (Qc_ltb _ v).
Qed.

Lemma consensus_iteration_raise (predictions : list (list detection))
    (required_votes : Z) (class_aware : bool)
    (iou_threshold confidence_threshold : Qc)
    (m_confidence m_boxes : AggregationMode) (st : consensus_state)
    (seed : nat * detection) (s : uuid_supply) e :
  consensus_iteration predictions required_votes class_aware iou_threshold
    confidence_threshold m_confidence m_boxes st seed s = Raise e →
  e = ZeroDivisionError.
Proof.
  destruct seed as [source_id d].
  destruct (get_detections_from_different_sources_with_max_overlap d source_id
              predictions iou_threshold class_aware
              (detections_already_considered st)) as [matches|e'] eqn:Hmatch.
  - destruct (consensus_iteration_spec predictions required_votes class_aware
                iou_threshold confidence_threshold m_confidence m_boxes st
                source_id d s matches Hmatch) as (merged & _ & ->).
    case_decide; [|discriminate]. by destruct (Qc_leb _ _).
  - unfold consensus_iteration. rewrite Hmatch.
    intros [= <-]. by eapply max_overlap_raise.
Qed.

Lemma consensus_loop_raise (predictions : list (list detection))
    (required_votes : Z) (class_aware : bool)
    (iou_threshold confidence_threshold : Qc)
    (m_confidence m_boxes : AggregationMode) (s : uuid_supply) e :
  consensus_loop predictions required_votes class_aware iou_threshold
    confidence_threshold m_confidence m_boxes s = Raise e →
  e = ZeroDivisionError.
Proof.
  unfold consensus_loop.
  intros (st & seed & s' & _ & H)%foldlM_exec_raise.
  by eapply consensus_iteration_raise.
Qed.

Lemma aggregate_field_values_raise (detections : list detection)
    (field : detection → Qc) (mode : AggregationMode) e :
  aggregate_field_values detections field mode = Raise e →
  e = ValueError ∨ e = StatisticsError.
Proof.
  unfold aggregate_field_values.
  destruct mode, detections; simpl; intros [= <-]; auto.
Qed.

Lemma check_objects_presence_raise (consensus : list detection)
    (class_aware : bool) (mode : AggregationMode)
    (required_objects : option required_objects_value) e :
  check_objects_presence_in_consensus_predictions consensus class_aware mode
    required_objects = Raise e →
  is_graph_error e = false.
Proof.
  unfold check_objects_presence_in_consensus_predictions.
  destruct (decide _); [discriminate|].
  destruct class_aware; cbn [negb mbind result_bind].
  - destruct (default (RequiredCount 0) required_objects) as [cnt|m];
      [by intros [= <-]|].
    destruct (check_required_classes _ _) as [c2d|]; [|discriminate].
    intros [Hr|(confs & _ & Hr)]%result_bind_raise_inv; [|discriminate].
    apply mapM_result_raise in Hr as ([cls ds] & _ & Hr).
    apply result_bind_raise_inv in Hr as [Hr|(c & _ & Hr)]; [|discriminate].
    by apply aggregate_field_values_raise in Hr as [-> | ->].
  - destruct (default (RequiredCount 0) required_objects) as [cnt|m].
    + destruct (bool_decide _); cbn [mbind result_bind]; [discriminate|].
      intros [Hr|(c & _ & Hr)]%result_bind_raise_inv; [|discriminate].
      by apply aggregate_field_values_raise in Hr as [-> | ->].
    + destruct (bool_decide _); cbn [mbind result_bind]; [discriminate|].
      intros [Hr|(c & _ & Hr)]%result_bind_raise_inv; [|discriminate].
      by apply aggregate_field_values_raise in Hr as [-> | ->].
Qed.

Lemma get_parent_id_raise (predictions : list (list detection)) e :
  get_parent_id_of_predictions_from_different_sources predictions = Raise e →
  e = parent_id_mismatch ∨ e = IndexError.
Proof.
  unfold get_parent_id_of_predictions_from_different_sources.
  destruct (decide _); [intros [= <-]; by left|].
  destruct (elements _); [intros [= <-]; by right | discriminate].
Qed.

Lemma resolve_batch_consensus_raise predictions required_votes class_aware
    iou_threshold confidence_threshold classes_to_consider required_objects
    m_presence m_confidence m_boxes s e :
  resolve_batch_consensus predictions required_votes class_aware iou_threshold
    confidence_threshold classes_to_consider required_objects
    m_presence m_confidence m_boxes s = Raise e →
  e = parent_id_mismatch ∨ is_graph_error e = false.
Proof.
  unfold resolve_batch_consensus.
  intros [H|(parent & s1 & _ & H)]%exec_bind_raise_inv.
  { apply lift_raise_inv, get_parent_id_raise in H as [->| ->]; auto. }
  apply exec_bind_raise_inv in H as [H|(st & s2 & _ & H)].
  { apply consensus_loop_raise in H as ->. by right. }
  apply exec_bind_raise_inv in H as [H|([present confs] & s3 & _ & H)];
    [|discriminate].
  right. by eapply check_objects_presence_raise, lift_raise_inv.
Qed.

(** ** Batch sizes of the sources *)

Lemma all_batch_sizes_equal_spec (batch_sizes : list nat) :
  all_batch_sizes_equal batch_sizes = true
  ↔ ∀ a b, a ∈ batch_sizes → b ∈ batch_sizes → a = b.
Proof.
  unfold all_batch_sizes_equal. destruct batch_sizes as [|reference l].
  { split; [|done]. by intros _ a b ?%elem_of_nil. }
  rewrite forallb_forall. split.
  - intros H a b Ha Hb.
    apply list_elem_of_In, H, bool_decide_eq_true in Ha.
    apply list_elem_of_In, H, bool_decide_eq_true in Hb. congruence.
  - intros H e He. apply bool_decide_eq_true, H; [by apply list_elem_of_In | left].
Qed.

Lemma first_raise {A : Type} (l : list A) e : first l = Raise e → e = IndexError.
Proof. destruct l; simpl; congruence. Qed.

Lemma batch_element_raise (batch_size batch_index : nat) (source : predictions_value) e :
  batch_element batch_size batch_index source = Raise e →
  is_graph_error e = false.
Proof.
  unfold batch_element.
  destruct (decide _), source as [l|[|? l]]; try destruct (_ !! _);
    by intros [= <-].
Qed.

Lemma batch_image_raise {I : Type} (batch_size batch_index : nat)
    (images_meta : meta_value I) e :
  batch_image batch_size batch_index images_meta = Raise e →
  is_graph_error e = false.
Proof.
  unfold batch_image.
  destruct (decide _), images_meta as [m|l]; try destruct (_ !! _);
    by intros [= <-].
Qed.

Lemma run_detections_consensus_step_raise {I : Type} (name : string)
    (all_predictions : list predictions_value) (images_meta : meta_value I)
    required_votes class_aware iou_threshold confidence_threshold
    classes_to_consider required_objects m_presence m_confidence m_boxes
    (s : uuid_supply) e :
  run_detections_consensus_step name all_predictions images_meta required_votes
    class_aware iou_threshold confidence_threshold classes_to_consider
    required_objects m_presence m_confidence m_boxes s = Raise e →
  e = no_source_of_predictions
  ∨ e = dimension_mismatch name
      ∧ all_batch_sizes_equal (get_predictions_batch_sizes all_predictions) = false
  ∨ e = parent_id_mismatch
  ∨ is_graph_error e = false.
Proof.
  unfold run_detections_consensus_step.
  destruct (decide _); [intros [= <-]; by left|].
  intros [H|(batch_sizes & s1 & _ & H)]%exec_bind_raise_inv.
  { right. left. apply lift_raise_inv in H.
    unfold get_and_validate_batch_sizes in H.
    destruct (all_batch_sizes_equal _); [discriminate|].
    by injection H as <-. }
  right. right.
  apply exec_bind_raise_inv in H as [H|(batch_size & s2 & _ & H)].
  { apply lift_raise_inv, first_raise in H as ->. by right. }
  apply exec_bind_raise_inv in H as [H|(results & s3 & _ & H)].
  - apply mapM_exec_raise in H as (batch_index & s4 & _ & H).
    apply exec_bind_raise_inv in H as [H|(batch_predictions & s5 & _ & H)].
    { apply lift_raise_inv, mapM_result_raise in H as (source & _ & H).
      right. by eapply batch_element_raise. }
    apply exec_bind_raise_inv in H as [H|([[[parent present] confs] consensus] & s6 & _ & H)].
    { by apply resolve_batch_consensus_raise in H. }
    apply exec_bind_raise_inv in H as [H|(img & s7 & _ & H)]; [|discriminate].
    right. by eapply batch_image_raise, lift_raise_inv.
  - right. destruct (decide _); [|discriminate].
    unfold fmap, exec_fmap in H.
    destruct (lift (first results) s3) as [[r s4]|e'] eqn:E; [discriminate|].
    injection H as <-. by apply lift_raise_inv, first_raise in E as ->.
Qed.

(** C6: when two sources have different batch sizes, the validation of the
    batch sizes and with it the consensus step raise [ExecutionGraphError]
    with the message that ends in the name of the step; when all batch sizes
    are equal the validation returns them and the step does not raise that
    error, for any step name. *)
Theorem C6_batch_size_mismatch_raises {I : Type} (name : string)
    (all_predictions : list predictions_value) (images_meta : meta_value I)
    required_votes class_aware iou_threshold confidence_threshold
    classes_to_consider required_objects m_presence m_confidence m_boxes
    (s : uuid_supply) :
  ((∃ a b, a ∈ get_predictions_batch_sizes all_predictions
           ∧ b ∈ get_predictions_batch_sizes all_predictions ∧ a ≠ b) →
   get_and_validate_batch_sizes all_predictions name
   = Raise (dimension_mismatch name)
   ∧ run (run_detections_consensus_step name all_predictions images_meta
            required_votes class_aware iou_threshold confidence_threshold
            classes_to_consider required_objects m_presence m_confidence
            m_boxes) s
     = Raise (dimension_mismatch name))
  ∧ ((∀ a b, a ∈ get_predictions_batch_sizes all_predictions →
             b ∈ get_predictions_batch_sizes all_predictions → a = b) →
     get_and_validate_batch_sizes all_predictions name
     = Ok (get_predictions_batch_sizes all_predictions)
     ∧ ∀ step_name,
         run (run_detections_consensus_step name all_predictions images_meta
                required_votes class_aware iou_threshold confidence_threshold
                classes_to_consider required_objects m_presence m_confidence
                m_boxes) s
         ≠ Raise (dimension_mismatch step_name)).
Proof.
  split.
  - intros (a & b & Ha & Hb & Hne).
    assert (Heq : all_batch_sizes_equal (get_predictions_batch_sizes all_predictions)
                  = false).
    { apply not_true_is_false. rewrite all_batch_sizes_equal_spec.
      intros H. by apply Hne, H. }
    assert (Hv : get_and_validate_batch_sizes all_predictions name
                 = Raise (dimension_mismatch name)).
    { unfold get_and_validate_batch_sizes. by rewrite Heq. }
    split; [done|]. apply run_raise. unfold run_detections_consensus_step.
    rewrite decide_False.
    + apply exec_bind_raise. by apply lift_raise.
    + destruct all_predictions; [by apply elem_of_nil in Ha | simpl; lia].
  - intros Hall. apply all_batch_sizes_equal_spec in Hall.
    split; [unfold get_and_validate_batch_sizes; by rewrite Hall|].
    intros step_name Hr%run_raise.
    apply run_detections_consensus_step_raise in Hr
      as [Hr|[[_ Hr]|[Hr|Hr]]]; try discriminate.
    congruence.
Qed.

Lemma C6_batch_size_mismatch_witness :
  run (run_detections_consensus_step "consensus"
         [Nested [[det_09]; [det_02]]; Nested [[det_07]; []; [det_far]]]
         (MetaMany [tt; tt]) 1 false (ratio 3 10) (ratio 3 10) None None
         AVERAGE AVERAGE AVERAGE) sample_uuids
  = Raise (ExecutionGraphError
             "Detected missmatch of input dimensions in step: consensus")
  ∧ get_and_validate_batch_sizes
      [Nested [[det_09]; [det_02]]; Nested [[det_07]; [det_far]]] "consensus"
    = Ok [2; 2]%nat.
Proof.
  split.
  - apply (C6_batch_size_mismatch_raises "consensus"
             [Nested [[det_09]; [det_02]]; Nested [[det_07]; []; [det_far]]]
             (MetaMany [tt; tt]) 1 false (ratio 3 10) (ratio 3 10) None None
             AVERAGE AVERAGE AVERAGE sample_uuids).
    exists 2%nat, 3%nat. repeat split; [left | right; left | lia].
  - apply (C6_batch_size_mismatch_raises "consensus"
             [Nested [[det_09]; [det_02]]; Nested [[det_07]; [det_far]]]
             (MetaMany [tt; tt]) 1 false (ratio 3 10) (ratio 3 10) None None
             AVERAGE AVERAGE AVERAGE sample_uuids).
    intros a b Ha Hb.
    apply elem_of_cons in Ha as [->|Ha]; [|apply list_elem_of_singleton in Ha as ->];
      (apply elem_of_cons in Hb as [->|Hb];
         [|apply list_elem_of_singleton in Hb as ->]); reflexivity.
Defined.

(** ** The pre-filter *)

Lemma List_filter_spec {A : Type} (f : A → bool) (P : A → Prop)
    `{!∀ x, Decision (P x)} (l : list A) :
  (∀ x, f x = true ↔ P x) → List.filter f l = filter P l.
Proof.
  intros Hf. induction l as [|x l IH]; [done|]. simpl.
  rewrite filter_cons, IH. destruct (f x) eqn:E.
  - rewrite decide_True; [done|]. by apply Hf.
  - rewrite decide_False; [done|]. rewrite <- Hf. congruence.
Qed.

(** [filter_predictions] is the pre-filter of the specification, at the
    threshold it is called with. *)
Lemma filter_predictions_spec (predictions : list (list detection))
    (threshold : Qc) (classes_to_consider : option (list string)) :
  filter_predictions predictions threshold classes_to_consider
  = spec_prefilter predictions threshold classes_to_consider.
Proof.
  unfold filter_predictions, spec_prefilter.
  apply list_fmap_ext. intros _ detections _.
  apply List_filter_spec. intros d. unfold spec_keeps.
  destruct classes_to_consider as [classes|].
  - unfold confidence_and_class_match, confidence_matches, Qc_ltb.
    rewrite andb_true_iff, !bool_decide_eq_true, elem_of_list_to_set. done.
  - unfold confidence_matches, Qc_ltb. rewrite bool_decide_eq_true. tauto.
Qed.

Lemma elem_of_spec_prefilter (predictions : list (list detection))
    (threshold : Qc) (classes_to_consider : option (list string))
    (i : nat) (d : detection) :
  (∃ detections,
     spec_prefilter predictions threshold classes_to_consider !! i
     = Some detections ∧ d ∈ detections)
  ↔ (∃ detections, predictions !! i = Some detections ∧ d ∈ detections)
    ∧ spec_keeps threshold classes_to_consider d.
Proof.
  unfold spec_prefilter. rewrite list_lookup_fmap. split.
  - intros (ds' & Hl & Hd).
    destruct (predictions !! i) as [ds|]; [|discriminate].
    injection Hl as <-. apply list_elem_of_filter in Hd as [? ?]. eauto.
  - intros [(ds & -> & Hd) Hk]. eexists. split; [done|].
    by apply list_elem_of_filter.
Qed.

(** C2, as the code has it: the consensus pre-filters every source with the
    fixed threshold [0.0], not with the configured confidence threshold. The
    detections it iterates over and matches against are exactly those of the
    input whose confidence is strictly greater than 0 and, when
    [classes_to_consider] is given, whose class is in it; the configured
    threshold only bounds the confidence of a merged detection. *)
Theorem C2_prefilter_keeps_positive_confidence
    (predictions : list (list detection)) (required_votes : Z)
    (class_aware : bool) (iou_threshold confidence_threshold : Qc)
    (classes_to_consider : option (list string))
    (required_objects : option required_objects_value)
    (m_presence m_confidence m_boxes : AggregationMode) (s : uuid_supply) :
  filter_predictions predictions 0%Qc classes_to_consider
  = spec_prefilter predictions 0%Qc classes_to_consider
  ∧ (∀ parent present confidences consensus,
       run (resolve_batch_consensus predictions required_votes class_aware
              iou_threshold confidence_threshold classes_to_consider
              required_objects m_presence m_confidence m_boxes) s
       = Ok (parent, present, confidences, consensus) →
       ∃ st s',
         consensus_loop (spec_prefilter predictions 0%Qc classes_to_consider)
           required_votes class_aware iou_threshold confidence_threshold
           m_confidence m_boxes s = Ok (st, s')
         ∧ consensus = consensus_detections st)
  ∧ (∀ source_id d,
       (source_id, d)
       ∈ enumerate_detections
           (filter_predictions predictions 0%Qc classes_to_consider) None
       ↔ (∃ detections, predictions !! source_id = Some detections
                        ∧ d ∈ detections)
         ∧ spec_keeps 0%Qc classes_to_consider d)
  ∧ (∀ source_id d considered matches other_source other_detection iou_value,
       get_detections_from_different_sources_with_max_overlap d source_id
         (filter_predictions predictions 0%Qc classes_to_consider)
         iou_threshold class_aware considered = Ok matches →
       (other_source, (other_detection, iou_value)) ∈ matches →
       (∃ detections, predictions !! other_source = Some detections
                      ∧ other_detection ∈ detections)
       ∧ spec_keeps 0%Qc classes_to_consider other_detection).
Proof.
  split; [apply filter_predictions_spec|]. split; [|split].
  - intros parent present confidences consensus [s' H]%run_ok.
    apply resolve_batch_consensus_ok_inv in H as (_ & st & Hloop & -> & _).
    rewrite filter_predictions_spec in Hloop. eauto.
  - intros source_id d.
    rewrite filter_predictions_spec, elem_of_enumerate_detections,
      elem_of_spec_prefilter.
    split; [by intros [_ ?] | done].
  - intros source_id d considered matches other_source other_detection
      iou_value [_ Hall]%max_overlap_ok Hin.
    eapply Forall_forall in Hall; [|done].
    destruct Hall as (_ & Hsrc & _). simpl in Hsrc.
    rewrite filter_predictions_spec in Hsrc.
    by apply elem_of_spec_prefilter in Hsrc.
Qed.

(** C2, the claim as it is stated fails: with the confidence threshold 0.3,
    the detection of confidence 0.2 is not filtered out; it is matched to the
    detection of confidence 0.9 of the other source and merged with it, the
    merged confidence being their mean 0.55, where the pre-filter of the
    specification leaves the 0.9 detection alone. *)
Lemma C2_detection_below_threshold_is_merged :
  (confidence det_02 ≤ ratio 3 10)%Qc
  ∧ spec_prefilter [[det_09]; [det_02]] (ratio 3 10) None = [[det_09]; []]
  ∧ filter_predictions [[det_09]; [det_02]] 0%Qc None = [[det_09]; [det_02]]
  ∧ matched_ids
      (get_detections_from_different_sources_with_max_overlap det_09 0
         (filter_predictions [[det_09]; [det_02]] 0%Qc None) (ratio 3 10)
         false ∅)
    = Ok [(1%nat, "b")]
  ∧ confidences_of
      (run (resolve_batch_consensus [[det_09]; [det_02]] 1 false (ratio 3 10)
              (ratio 3 10) None None AVERAGE AVERAGE AVERAGE) sample_uuids)
    = Ok [11 # 20]%Q
  ∧ confidences_of
      (run (resolve_batch_consensus
              (spec_prefilter [[det_09]; [det_02]] (ratio 3 10) None) 1 false
              (ratio 3 10) (ratio 3 10) None None AVERAGE AVERAGE AVERAGE)
         sample_uuids)
    = Ok [9 # 10]%Q.
Proof. repeat split; by vm_compute. Qed.

(** ** Detections that match nothing *)

Lemma foldlM_max_overlap_no_match (d : detection) (iou_threshold : Qc)
    (class_aware : bool) (considered : gset string)
    (others : list (nat * detection)) (current : list (nat * (detection * Qc))) :
  (∀ k od, (k, od) ∈ others →
     ∃ v, calculate_iou d od = Ok v ∧ (v ≤ iou_threshold)%Qc) →
  foldlM (max_overlap_update d iou_threshold class_aware considered) current others
  = Ok current.
Proof.
  induction others as [|[k od] others IH]; intros Hlow; [done|].
  cbn [foldlM]. destruct (Hlow k od) as (v & Hiou & Hv); [left|].
  rewrite (max_overlap_update_low_iou d iou_threshold class_aware considered
             current k od v Hiou Hv).
  cbn [mbind result_bind]. apply IH. intros k' od' Hin. apply (Hlow k'). by right.
Qed.

Lemma max_overlap_no_match (d : detection) (source : nat)
    (predictions : list (list detection)) (iou_threshold : Qc)
    (class_aware : bool) (considered : gset string) :
  (∀ k od, (k, od) ∈ enumerate_detections predictions (Some source) →
     ∃ v, calculate_iou d od = Ok v ∧ (v ≤ iou_threshold)%Qc) →
  get_detections_from_different_sources_with_max_overlap d source predictions
    iou_threshold class_aware considered = Ok [].
Proof. apply foldlM_max_overlap_no_match. Qed.

(** With one required vote and no overlap, every detection is a group of its
    own, accepted when its confidence clears the threshold. *)
Lemma consensus_fold_no_overlap (predictions : list (list detection))
    (required_votes : Z) (class_aware : bool)
    (iou_threshold confidence_threshold : Qc)
    (m_confidence m_boxes : AggregationMode)
    (seeds : list (nat * detection)) (st : consensus_state) (s : uuid_supply) :
  required_votes ≤ 1 →
  no_overlap predictions iou_threshold →
  (∀ seed, seed ∈ seeds → seed ∈ enumerate_detections predictions None) →
  ∃ st' s',
    foldlM (consensus_iteration predictions required_votes class_aware
              iou_threshold confidence_threshold m_confidence m_boxes)
      st seeds s = Ok (st', s')
    ∧ confidence <$> consensus_detections st'
      = (confidence <$> consensus_detections st)
        ++ filter (λ c, (confidence_threshold ≤ c)%Qc)
             ((λ seed, confidence seed.2) <$> seeds).
Proof.
  intros Hrv Hno. revert st s.
  induction seeds as [|[source_id d] seeds IH]; intros st s Hseeds.
  { exists st, s. split; [done|]. by rewrite app_nil_r. }
  assert (Hmatch : get_detections_from_different_sources_with_max_overlap d
                     source_id predictions iou_threshold class_aware
                     (detections_already_considered st) = Ok []).
  { apply max_overlap_no_match. intros k od Hin.
    apply elem_of_enumerate_detections in Hin as (Hk & ds_k & Hlk & Hod).
    assert (Hs : (source_id, d) ∈ enumerate_detections predictions None)
      by (apply Hseeds; left).
    apply elem_of_enumerate_detections in Hs as (_ & ds_i & Hli & Hd).
    eapply (Hno source_id k); [congruence|done..]. }
  destruct (consensus_iteration_spec predictions required_votes class_aware
              iou_threshold confidence_threshold m_confidence m_boxes st
              source_id d s [] Hmatch) as (merged & Hmerge & Hspec).
  change (fst <$> dict_values []) with (@nil detection) in Hmerge, Hspec.
  destruct (merge_detections_nonempty d [] m_confidence m_boxes s)
    as (merged' & Hmerge' & _ & _ & Hconf).
  rewrite Hmerge in Hmerge'. injection Hmerge' as <-.
  rewrite aggregate_field_values_singleton in Hconf. injection Hconf as Hconf.
  rewrite decide_True in Hspec by (simpl; lia).
  cbn [foldlM]. rewrite fmap_cons, filter_cons. cbn [snd].
  unfold Qc_leb in Hspec. rewrite <- Hconf in Hspec.
  destruct (decide (confidence_threshold ≤ confidence d)%Qc) as [Hc|Hc].
  - rewrite bool_decide_eq_true_2 in Hspec by done.
    erewrite exec_bind_ok by exact Hspec.
    destruct (IH (accept st d [] merged) (λ n, s (S n))) as (st' & s' & Hloop & Heq).
    { intros seed Hin. apply Hseeds. by right. }
    exists st', s'. split; [done|]. rewrite Heq.
    unfold accept. cbn [consensus_detections].
    rewrite fmap_app. cbn [fmap list_fmap]. rewrite <- Hconf.
    by rewrite <- app_assoc.
  - rewrite bool_decide_eq_false_2 in Hspec by done.
    erewrite exec_bind_ok by exact Hspec.
    destruct (IH st (λ n, s (S n))) as (st' & s' & Hloop & Heq).
    { intros seed Hin. apply Hseeds. by right. }
    exists st', s'. split; done.
Qed.

Lemma enumerate_detections_from_snd (k : nat) (predictions : list (list detection)) :
  snd <$> enumerate_detections_from k predictions None = concat predictions.
Proof.
  revert k. induction predictions as [|ds rest IH]; intros k; [done|].
  cbn [enumerate_detections_from concat].
  rewrite decide_False by done. rewrite fmap_app, IH. f_equal.
  rewrite <- list_fmap_compose. apply list_fmap_id.
Qed.

Lemma consensus_loop_no_overlap (predictions : list (list detection))
    (required_votes : Z) (class_aware : bool)
    (iou_threshold confidence_threshold : Qc)
    (m_confidence m_boxes : AggregationMode) (s : uuid_supply) :
  required_votes ≤ 1 →
  no_overlap predictions iou_threshold →
  ∃ st' s',
    consensus_loop predictions required_votes class_aware iou_threshold
      confidence_threshold m_confidence m_boxes s = Ok (st', s')
    ∧ confidence <$> consensus_detections st'
      = filter (λ c, (confidence_threshold ≤ c)%Qc)
          (confidence <$> concat predictions).
Proof.
  intros Hrv Hno. unfold consensus_loop.
  destruct (consensus_fold_no_overlap predictions required_votes class_aware
              iou_threshold confidence_threshold m_confidence m_boxes
              (enumerate_detections predictions None)
              {| detections_already_considered := ∅; consensus_detections := [] |}
              s Hrv Hno) as (st' & s' & Hloop & Heq); [done|].
  exists st', s'. split; [done|]. rewrite Heq. cbn [consensus_detections].
  rewrite <- (enumerate_detections_from_snd 0 predictions).
  by rewrite <- list_fmap_compose.
Qed.

(** ** The presence verdict when classes are ignored *)

Lemma check_objects_presence_class_unaware (consensus : list detection)
    (mode : AggregationMode) (required_objects : option required_objects_value) :
  ∃ verdict,
    check_objects_presence_in_consensus_predictions consensus false mode
      required_objects = Ok verdict.
Proof.
  unfold check_objects_presence_in_consensus_predictions.
  destruct (decide _) as [|Hne]; [eauto|].
  destruct consensus as [|d l]; [done|].
  destruct (aggregate_field_values_nonempty d l confidence mode) as [c Hc].
  cbn [negb].
  destruct (default (RequiredCount 0) required_objects) as [cnt|m];
    cbn [mbind result_bind]; destruct (bool_decide _); rewrite ?Hc; simpl; eauto.
Qed.

(** ** The end-to-end scenario *)

Lemma filter_predictions_all_kept (predictions : list (list detection))
    (threshold : Qc) :
  (∀ d, d ∈ concat predictions → (threshold < confidence d)%Qc) →
  filter_predictions predictions threshold None = predictions.
Proof.
  intros Hall. unfold filter_predictions.
  induction predictions as [|ds rest IH]; [done|].
  rewrite fmap_cons. f_equal.
  - assert (Hds : ∀ d, d ∈ ds → (threshold < confidence d)%Qc).
    { intros d Hd. apply Hall. simpl. apply elem_of_app. by left. }
    clear IH Hall. induction ds as [|d ds IHds]; [done|]. simpl.
    unfold confidence_matches, Qc_ltb at 1.
    rewrite bool_decide_eq_true_2 by (apply Hds; left).
    f_equal. apply IHds. intros d' Hd'. apply Hds. by right.
  - apply IH. intros d Hd. apply Hall. simpl. apply elem_of_app. by right.
Qed.

(** C4, as the code has it: both detections pass the pre-filter, whose
    threshold is 0.0. When the two detections of confidence 0.9 and 0.2 are all
    the input holds, carry one [parent_id] and are not matched to each other
    (they are in one source, or their IOU does not exceed the IOU threshold),
    then with the confidence threshold 0.3, [class_aware] false, one required
    vote and no [classes_to_consider] the consensus holds exactly one
    detection, of confidence 0.9. *)
Theorem C4_two_unmatched_detections_scenario
    (predictions : list (list detection)) (d1 d2 : detection)
    (iou_threshold : Qc) (required_objects : option required_objects_value)
    (m_presence m_confidence m_boxes : AggregationMode) (s : uuid_supply) :
  confidence d1 = ratio 9 10 →
  confidence d2 = ratio 2 10 →
  parent_id d1 = parent_id d2 →
  concat predictions = [d1; d2] ∨ concat predictions = [d2; d1] →
  no_overlap predictions iou_threshold →
  filter_predictions predictions 0%Qc None = predictions
  ∧ ∃ present confidences merged,
      run (resolve_batch_consensus predictions 1 false iou_threshold
             (ratio 3 10) None required_objects m_presence m_confidence
             m_boxes) s
      = Ok (parent_id d1, present, confidences, [merged])
      ∧ confidence merged = ratio 9 10.
Proof.
  intros Hc1 Hc2 Hparent Hconcat Hno.
  assert (Hin : ∀ d, d ∈ concat predictions → d = d1 ∨ d = d2).
  { intros d Hd. destruct Hconcat as [Heq|Heq]; rewrite Heq in Hd;
      apply elem_of_cons in Hd as [->|Hd]; auto;
      apply list_elem_of_singleton in Hd as ->; auto. }
  assert (Hfilter : filter_predictions predictions 0%Qc None = predictions).
  { apply filter_predictions_all_kept. intros d [-> | ->]%Hin.
    - rewrite Hc1. by vm_compute.
    - rewrite Hc2. by vm_compute. }
  split; [done|].
  assert (Hp : get_parent_id_of_predictions_from_different_sources predictions
               = Ok (parent_id d1)).
  { apply get_parent_id_shared.
    - by destruct Hconcat as [-> | ->].
    - intros d [-> | ->]%Hin; congruence. }
  destruct (consensus_loop_no_overlap predictions 1 false iou_threshold
              (ratio 3 10) m_confidence m_boxes s) as (st & s' & Hloop & Hconf);
    [lia | done |].
  assert (Hone : confidence <$> consensus_detections st = [ratio 9 10]).
  { rewrite Hconf. destruct Hconcat as [-> | ->]; rewrite !fmap_cons, Hc1, Hc2.
    - rewrite filter_cons, decide_True by by vm_compute.
      rewrite filter_cons, decide_False by by vm_compute. done.
    - rewrite filter_cons, decide_False by by vm_compute.
      rewrite filter_cons, decide_True by by vm_compute. done. }
  destruct (consensus_detections st) as [|merged [|? ?]] eqn:Hcons;
    [discriminate | | discriminate].
  injection Hone as Hone.
  destruct (check_objects_presence_class_unaware [merged] m_presence
              required_objects) as [[present confidences] Hcheck].
  exists present, confidences, merged. split; [|done].
  apply run_ok. exists s'. rewrite <- Hcons.
  apply resolve_batch_consensus_ok_intro; [done | by rewrite Hfilter |].
  by rewrite Hcons.
Qed.

Lemma C4_two_unmatched_detections_witness :
  ∃ present confidences merged,
    run (resolve_batch_consensus [[det_09]; [det_far]] 1 false (ratio 3 10)
           (ratio 3 10) None None AVERAGE AVERAGE AVERAGE) sample_uuids
    = Ok ("img", present, confidences, [merged])
    ∧ confidence merged = ratio 9 10.
Proof.
  apply (C4_two_unmatched_detections_scenario [[det_09]; [det_far]] det_09
           det_far (ratio 3 10) None AVERAGE AVERAGE AVERAGE sample_uuids).
  - reflexivity.
  - reflexivity.
  - reflexivity.
  - left. reflexivity.
  - intros i j ds_i ds_j a b Hij Hi Ha Hj Hb.
    destruct i as [|[|i]], j as [|[|j]]; try done;
      injection Hi as <-; injection Hj as <-;
      apply list_elem_of_singleton in Ha as ->;
      apply list_elem_of_singleton in Hb as ->;
      (destruct (calculate_iou _ _) as [v|e] eqn:E; vm_compute in E;
         [injection E as <-; eexists; split; [reflexivity | by vm_compute]
         |discriminate]).
Defined.

(** C4, the claim as it is stated fails: when the two detections are in
    different sources and overlap, the 0.2 detection is merged with the 0.9
    one. With the two confidences averaged the only consensus detection has
    confidence 0.55; with their minimum taken the merge is rejected and the
    consensus is empty. *)
Lemma C4_overlapping_detections_are_merged :
  confidences_of
    (run (resolve_batch_consensus [[det_09]; [det_02]] 1 false (ratio 3 10)
            (ratio 3 10) None None AVERAGE AVERAGE AVERAGE) sample_uuids)
  = Ok [11 # 20]%Q
  ∧ confidences_of
      (run (resolve_batch_consensus [[det_09]; [det_02]] 1 false (ratio 3 10)
              (ratio 3 10) None None AVERAGE MIN AVERAGE) sample_uuids)
    = Ok [].
Proof. split; by vm_compute. Qed.

(** ** A consumed detection still seeds a group *)

(** A detection matched to a seed was not marked as considered before. *)
Lemma matched_detection_not_considered (d : detection) (source : nat)
    (predictions : list (list detection)) (iou_threshold : Qc)
    (class_aware : bool) (considered : gset string)
    (matches : list (nat * (detection * Qc))) (entry : nat * (detection * Qc)) :
  get_detections_from_different_sources_with_max_overlap d source predictions
    iou_threshold class_aware considered = Ok matches →
  entry ∈ matches →
  detection_id (fst (snd entry)) ∉ considered.
Proof.
  intros [_ Hall]%max_overlap_ok Hin.
  eapply Forall_forall in Hall; [|done]. by destruct Hall as (_ & _ & ? & _).
Qed.

(** C1, the code at the failing input: three detections of one box, [a] and
    [c] in the first source, [b] in the second, two required votes. The loop
    visits [a], [c], [b]. The seed [a] is matched to [b] and the group is
    accepted, which marks [a] and [b] as considered; the seed [c] finds no
    match left. The loop then takes [b] as a seed although it is marked, [b]
    is matched to [c], and this second group is accepted too: the consensus
    holds two detections, and [b] is behind both. *)
Theorem C1_consumed_detection_seeds_a_later_group :
  let predictions := [[det_09; det_07]; [det_02]] in
  let iteration :=
    consensus_iteration predictions 2 false (ratio 3 10) (ratio 1 10)
      AVERAGE AVERAGE in
  let st0 := {| detections_already_considered := ∅; consensus_detections := [] |} in
  enumerate_detections predictions None
  = [(0%nat, det_09); (0%nat, det_07); (1%nat, det_02)]
  ∧ matched_ids
      (get_detections_from_different_sources_with_max_overlap det_09 0
         predictions (ratio 3 10) false ∅)
    = Ok [(1%nat, "b")]
  ∧ state_of (foldlM iteration st0 [(0%nat, det_09)] sample_uuids)
    = Ok (["a"; "b"], [11 # 20]%Q)
  ∧ state_of (foldlM iteration st0 [(0%nat, det_09); (0%nat, det_07)]
                sample_uuids)
    = Ok (["a"; "b"], [11 # 20]%Q)
  ∧ matched_ids
      (get_detections_from_different_sources_with_max_overlap det_02 1
         predictions (ratio 3 10) false (list_to_set ["a"; "b"]))
    = Ok [(0%nat, "c")]
  ∧ state_of (foldlM iteration st0
                [(0%nat, det_09); (0%nat, det_07); (1%nat, det_02)]
                sample_uuids)
    = Ok (["c"; "a"; "b"], [11 # 20; 9 # 20]%Q)
  ∧ confidences_of
      (run (resolve_batch_consensus predictions 2 false (ratio 3 10)
              (ratio 1 10) None None AVERAGE AVERAGE AVERAGE) sample_uuids)
    = Ok [11 # 20; 9 # 20]%Q.
Proof. repeat split; by vm_compute. Qed.

(** ** Presence verdict: per-class minimum counts of at least one *)

Lemma group_by_class_from_lookup (detections : list detection)
    (acc : gmap string (list detection)) (c : string) :
  foldl (λ class2detections d,
           <[class d := default [] (class2detections !! class d) ++ [d]]>
             class2detections) acc detections !! c
  = match acc !! c, of_class c detections with
    | None, [] => None
    | o, extra => Some (default [] o ++ extra)
    end.
Proof.
  revert acc. induction detections as [|d l IH]; intros acc.
  - simpl. unfold of_class. rewrite filter_nil.
    destruct (acc !! c); simpl; by rewrite ?app_nil_r.
  - cbn [foldl]. rewrite IH. unfold of_class. rewrite filter_cons.
    destruct (decide (class d = c)) as [<-|Hne].
    + rewrite lookup_insert_eq. cbn [from_option id].
      destruct (acc !! class d) as [ds|]; simpl.
      * destruct (filter _ l); by rewrite <- app_assoc.
      * by destruct (filter _ l).
    + by rewrite lookup_insert_ne.
Qed.

Lemma group_by_class_lookup (detections : list detection) (c : string) :
  group_by_class detections !! c
  = match of_class c detections with
    | [] => None
    | ds => Some ds
    end.
Proof.
  unfold group_by_class. rewrite group_by_class_from_lookup, lookup_empty.
  by destruct (of_class c detections).
Qed.

Lemma check_required_classes_positive (items : list (string * Z))
    (class2detections : gmap string (list detection)) :
  Forall (λ item, 1 ≤ snd item) items →
  check_required_classes items class2detections
  = if decide (Forall (λ item : string * Z,
                         snd item
                         ≤ Z.of_nat (length (default []
                                               (class2detections !! fst item))))
                 items)
    then Some class2detections else None.
Proof.
  induction 1 as [|[c n] items Hn Hpos IH].
  { cbn [check_required_classes]. by rewrite decide_True. }
  cbn [check_required_classes]. cbn [snd] in Hn.
  destruct (class2detections !! c) as [ds|] eqn:Hc.
  - rewrite Hc. cbn [from_option id].
    destruct (decide (Z.of_nat (length ds) < n)) as [Hlt|Hge].
    + rewrite decide_False; [done|]. intros [H _]%Forall_cons.
      cbn [fst snd] in H. rewrite Hc in H. simpl in H. lia.
    + rewrite IH. destruct (decide _) as [Hall|Hnot].
      * rewrite decide_True; [done|]. apply Forall_cons. split; [|done].
        cbn [fst snd]. rewrite Hc. simpl. lia.
      * rewrite decide_False; [done|]. by intros [_ H]%Forall_cons.
  - rewrite lookup_insert_eq. cbn [from_option id length].
    rewrite decide_True by lia. rewrite decide_False; [done|].
    intros [H _]%Forall_cons. cbn [fst snd] in H. rewrite Hc in H. simpl in H. lia.
Qed.

Lemma mapM_aggregate_nonempty (mode : AggregationMode)
    (entries : list (string * list detection)) :
  (∀ entry, entry ∈ entries → entry.2 ≠ []) →
  ∃ confidences,
    mapM (M := result)
      (λ entry : string * list detection,
         c ← aggregate_field_values entry.2 confidence mode; Ok (entry.1, c))
      entries = Ok confidences.
Proof.
  induction entries as [|[c ds] entries IH]; intros Hne; [by eexists|].
  destruct IH as [confidences IH]; [intros e He; apply Hne; by right|].
  destruct ds as [|d ds]; [by destruct (Hne (c, []) ltac:(left))|].
  destruct (aggregate_field_values_nonempty d ds confidence mode) as [v Hv].
  cbn [mapM snd fst]. rewrite Hv. cbn [mbind result_bind]. rewrite IH.
  by eexists.
Qed.

(** When every required minimum is at least 1, the class-aware check returns
    a verdict: present exactly when every named class has at least its minimum
    of consensus detections, and otherwise not present with no confidence. *)
Lemma check_objects_presence_per_class (consensus : list detection)
    (mode : AggregationMode) (required : gmap string Z) :
  consensus ≠ [] →
  (∀ c n, required !! c = Some n → 1 ≤ n) →
  ∃ present confidences,
    check_objects_presence_in_consensus_predictions consensus true mode
      (Some (RequiredPerClass required)) = Ok (present, confidences)
    ∧ (present = true
       ↔ ∀ c n, required !! c = Some n →
                n ≤ Z.of_nat (length (of_class c consensus)))
    ∧ (present = false → confidences = ∅).
Proof.
  intros Hne Hpos. unfold check_objects_presence_in_consensus_predictions.
  rewrite decide_False by (by destruct consensus).
  cbn [from_option id negb mbind result_bind].
  rewrite check_required_classes_positive.
  2:{ apply Forall_forall. intros [c n] Hin%elem_of_map_to_list.
      by eapply Hpos. }
  assert (Hlen : ∀ c, default [] (group_by_class consensus !! c)
                      = of_class c consensus).
  { intros c. rewrite group_by_class_lookup. by destruct (of_class c consensus). }
  destruct (decide _) as [Hall|Hnot].
  - destruct (mapM_aggregate_nonempty mode (map_to_list (group_by_class consensus)))
      as [confidences Hc].
    { intros [c ds] Hin%elem_of_map_to_list. rewrite group_by_class_lookup in Hin.
      simpl. destruct (of_class c consensus); by simplify_eq. }
    rewrite Hc. cbn [mbind result_bind]. eexists _, _. split; [done|].
    split; [|done]. split; [|done]. intros _ c n Hcn.
    rewrite <- Hlen.
    eapply Forall_forall in Hall; [|by apply elem_of_map_to_list]. done.
  - eexists _, _. split; [done|]. split; [|done]. split; [done|].
    intros H. exfalso. apply Hnot. apply Forall_forall.
    intros [c n] Hin%elem_of_map_to_list. cbn [fst snd].
    rewrite Hlen. by apply H.
Qed.

(** ** Presence verdict: a required class with no detection *)

(** C8, the code at the failing input: the consensus holds one detection of
    class [cat] and [required_objects] asks for at least 0 detections of class
    [dog]. Every named class reaches its minimum, but reading the class in
    [class2detections] stored an empty list under it, and the aggregation of
    the confidences of that list raises. With a minimum of 1 for [cat] the
    verdict is present, with a minimum of 2 it is not. *)
Theorem C8_required_class_without_detection_raises :
  check_objects_presence_in_consensus_predictions [det_09] true MAX
    (Some (RequiredPerClass {["dog" := 0]})) = Raise ValueError
  ∧ check_objects_presence_in_consensus_predictions [det_09] true AVERAGE
      (Some (RequiredPerClass {["dog" := 0]})) = Raise StatisticsError
  ∧ fst <$> check_objects_presence_in_consensus_predictions [det_09] true
              AVERAGE (Some (RequiredPerClass {["cat" := 1]})) = Ok true
  ∧ check_objects_presence_in_consensus_predictions [det_09] true AVERAGE
      (Some (RequiredPerClass {["cat" := 2]})) = Ok (false, ∅)
  ∧ check_objects_presence_in_consensus_predictions [] true AVERAGE
      (Some (RequiredPerClass {["cat" := 1]})) = Ok (false, ∅).
Proof. repeat split; by vm_compute. Qed.

(** ** The step on the sources of a single image *)

Lemma batch_sizes_of_flat_sources (predictions : list (list detection)) :
  get_predictions_batch_sizes (Flat <$> predictions)
  = replicate (length predictions) 1%nat.
Proof.
  unfold get_predictions_batch_sizes.
  induction predictions as [|ds rest IH]; [done|].
  rewrite !fmap_cons, IH. reflexivity.
Qed.

Lemma batch_elements_of_flat_sources (predictions : list (list detection)) :
  mapM (M := result) (batch_element 1 0) (Flat <$> predictions) = Ok predictions.
Proof.
  induction predictions as [|ds rest IH]; [done|].
  rewrite fmap_cons. cbn [mapM]. rewrite IH. reflexivity.
Qed.

(** Given one list of detections per source, the step is
    [resolve_batch_consensus] on these lists, its result stored as it is. *)
Lemma run_detections_consensus_step_flat {I : Type} (name : string)
    (predictions : list (list detection)) (images_meta : meta_value I)
    required_votes class_aware iou_threshold confidence_threshold
    classes_to_consider required_objects m_presence m_confidence m_boxes
    (s : uuid_supply) :
  predictions ≠ [] →
  run_detections_consensus_step name (Flat <$> predictions) images_meta
    required_votes class_aware iou_threshold confidence_threshold
    classes_to_consider required_objects m_presence m_confidence m_boxes s
  = match resolve_batch_consensus predictions required_votes class_aware
            iou_threshold confidence_threshold classes_to_consider
            required_objects m_presence m_confidence m_boxes s with
    | Ok (parent, present, confidences, consensus, s') =>
        Ok (SingleResult
              (mk_consensus_result consensus parent present confidences
                 images_meta), s')
    | Raise e => Raise e
    end.
Proof.
  intros Hne. unfold run_detections_consensus_step.
  destruct predictions as [|ds rest] eqn:E; [done|]. rewrite <- E in *.
  rewrite decide_False by (rewrite E; simpl; lia).
  unfold get_and_validate_batch_sizes.
  rewrite batch_sizes_of_flat_sources, all_batch_sizes_equal_replicate.
  cbn [negb]. erewrite exec_bind_ok by reflexivity.
  rewrite E at 1. cbn [length replicate first].
  erewrite exec_bind_ok by reflexivity.
  cbn [seq mapM].
  unfold mbind at 1, exec_bind at 1. unfold mbind at 1, exec_bind at 1.
  unfold mbind at 1, exec_bind at 1.
  rewrite batch_elements_of_flat_sources. cbn [lift].
  unfold mbind at 1, exec_bind at 1.
  destruct (resolve_batch_consensus predictions _ _ _ _ _ _ _ _ _ s)
    as [[[[[parent present] confidences] consensus] s']|e]; [|done].
  reflexivity.
Qed.

(** ** One parent identifier, at the level of the step *)

(** C5: when two detections of the sources of one batch element carry
    different [parent_id]s, the parent check raises [ExecutionGraphError], and
    so do the consensus of that element and the step run on these sources;
    when there is a detection and all detections carry the [parent_id] [p],
    the check returns [p], and [p] is the [parent_id] of every consensus
    result and of every result the step stores. *)
Theorem C5_one_parent_id_or_execution_graph_error {I : Type} (name : string)
    (predictions : list (list detection)) (images_meta : meta_value I)
    required_votes class_aware iou_threshold confidence_threshold
    classes_to_consider required_objects m_presence m_confidence m_boxes
    (s : uuid_supply) :
  (∀ d1 d2, d1 ∈ concat predictions → d2 ∈ concat predictions →
     parent_id d1 ≠ parent_id d2 →
     ∃ msg,
       get_parent_id_of_predictions_from_different_sources predictions
       = Raise (ExecutionGraphError msg)
       ∧ run (resolve_batch_consensus predictions required_votes class_aware
                iou_threshold confidence_threshold classes_to_consider
                required_objects m_presence m_confidence m_boxes) s
         = Raise (ExecutionGraphError msg)
       ∧ run (run_detections_consensus_step name (Flat <$> predictions)
                images_meta required_votes class_aware iou_threshold
                confidence_threshold classes_to_consider required_objects
                m_presence m_confidence m_boxes) s
         = Raise (ExecutionGraphError msg))
  ∧ (∀ p, concat predictions ≠ [] →
       (∀ d, d ∈ concat predictions → parent_id d = p) →
       get_parent_id_of_predictions_from_different_sources predictions = Ok p
       ∧ (∀ parent present confidences consensus,
            run (resolve_batch_consensus predictions required_votes class_aware
                   iou_threshold confidence_threshold classes_to_consider
                   required_objects m_presence m_confidence m_boxes) s
            = Ok (parent, present, confidences, consensus) →
            parent = p)
       ∧ (∀ r,
            run (run_detections_consensus_step name (Flat <$> predictions)
                   images_meta required_votes class_aware iou_threshold
                   confidence_threshold classes_to_consider required_objects
                   m_presence m_confidence m_boxes) s
            = Ok (SingleResult r) →
            res_parent_id r = p)).
Proof.
  split.
  - intros d1 d2 H1 H2 Hne.
    pose proof (get_parent_id_mismatch _ _ _ H1 H2 Hne) as Hg.
    eexists. split; [exact Hg|].
    assert (Hr : resolve_batch_consensus predictions required_votes class_aware
                   iou_threshold confidence_threshold classes_to_consider
                   required_objects m_presence m_confidence m_boxes s
                 = Raise parent_id_mismatch)
      by (by apply resolve_batch_consensus_parent_raise).
    split; [by apply run_raise|].
    apply run_raise. rewrite run_detections_consensus_step_flat.
    + by rewrite Hr.
    + intros ->. by apply elem_of_nil in H1.
  - intros p Hne Hall.
    pose proof (get_parent_id_shared _ _ Hne Hall) as Hg.
    split; [exact Hg|]. split.
    + intros parent present confidences consensus [s' H]%run_ok.
      apply resolve_batch_consensus_parent_ok in H. congruence.
    + intros r [s' H]%run_ok.
      rewrite run_detections_consensus_step_flat in H by (by intros ->).
      destruct (resolve_batch_consensus predictions _ _ _ _ _ _ _ _ _ s)
        as [[[[[parent present] confidences] consensus] s'']|e] eqn:Hr;
        [|discriminate].
      apply resolve_batch_consensus_parent_ok in Hr.
      injection H as <- _. simpl. congruence.
Qed.

Lemma C5_one_parent_id_witness :
  (∃ msg,
     run (run_detections_consensus_step "consensus"
            [Flat [det_09]; Flat [det_on_crop]] (MetaOne tt) 1 false
            (ratio 3 10) (ratio 3 10) None None AVERAGE AVERAGE AVERAGE)
       sample_uuids
     = Raise (ExecutionGraphError msg))
  ∧ get_parent_id_of_predictions_from_different_sources [[det_09]; [det_02]]
    = Ok "img".
Proof.
  split.
  - destruct (C5_one_parent_id_or_execution_graph_error "consensus"
                [[det_09]; [det_on_crop]] (MetaOne tt) 1 false (ratio 3 10)
                (ratio 3 10) None None AVERAGE AVERAGE AVERAGE sample_uuids)
      as [H _].
    destruct (H det_09 det_on_crop) as (msg & _ & _ & Hr).
    + simpl. left.
    + simpl. right. left.
    + discriminate.
    + exists msg. exact Hr.
  - apply (C5_one_parent_id_or_execution_graph_error "consensus"
             [[det_09]; [det_02]] (MetaOne tt) 1 false (ratio 3 10)
             (ratio 3 10) None None AVERAGE AVERAGE AVERAGE sample_uuids).
    + discriminate.
    + simpl. intros d Hd.
      apply elem_of_cons in Hd as [->|Hd]; [reflexivity|].
      apply elem_of_cons in Hd as [->|Hd]; [reflexivity|].
      by apply elem_of_nil in Hd.
Defined.

(** ** Class-aware presence without a per-class map, at the level of the step *)

(** C10: in class-aware mode, with at least one consensus detection and
    [required_objects] left out, the presence check raises [AttributeError];
    so do the consensus of a batch element whose loop produced these
    detections, and the step run on its sources; when the check returns a
    verdict there, [required_objects] is a map from classes to counts. *)
Theorem C10_class_aware_presence_needs_a_mapping {I : Type} (name : string)
    (consensus : list detection) (mode : AggregationMode)
    (predictions : list (list detection)) (images_meta : meta_value I)
    required_votes iou_threshold confidence_threshold classes_to_consider
    m_confidence m_boxes (s : uuid_supply) :
  consensus ≠ [] →
  check_objects_presence_in_consensus_predictions consensus true mode None
  = Raise AttributeError
  ∧ (∀ required_objects verdict,
       check_objects_presence_in_consensus_predictions consensus true mode
         required_objects = Ok verdict →
       ∃ m, required_objects = Some (RequiredPerClass m))
  ∧ (∀ parent st s',
       get_parent_id_of_predictions_from_different_sources predictions
       = Ok parent →
       consensus_loop (filter_predictions predictions 0%Qc classes_to_consider)
         required_votes true iou_threshold confidence_threshold
         m_confidence m_boxes s = Ok (st, s') →
       consensus_detections st = consensus →
       run (resolve_batch_consensus predictions required_votes true
              iou_threshold confidence_threshold classes_to_consider None
              mode m_confidence m_boxes) s
       = Raise AttributeError
       ∧ run (run_detections_consensus_step name (Flat <$> predictions)
                images_meta required_votes true iou_threshold
                confidence_threshold classes_to_consider None mode
                m_confidence m_boxes) s
         = Raise AttributeError).
Proof.
  intros Hne. split; [|split].
  - by apply check_objects_presence_class_aware_count.
  - intros required_objects verdict H.
    destruct required_objects as [[n|m]|]; [|by exists m|].
    + by rewrite check_objects_presence_class_aware_count in H.
    + by rewrite check_objects_presence_class_aware_count in H.
  - intros parent st s' Hp Hloop <-.
    assert (Hr : resolve_batch_consensus predictions required_votes true
                   iou_threshold confidence_threshold classes_to_consider None
                   mode m_confidence m_boxes s = Raise AttributeError).
    { eapply resolve_batch_consensus_presence_raise; [done..|].
      by apply check_objects_presence_class_aware_count. }
    split; [by apply run_raise|].
    apply run_raise. rewrite run_detections_consensus_step_flat.
    + by rewrite Hr.
    + intros ->. discriminate.
Qed.

Lemma C10_class_aware_presence_witness :
  check_objects_presence_in_consensus_predictions [det_09] true AVERAGE None
  = Raise AttributeError
  ∧ run (run_detections_consensus_step "consensus" [Flat [det_09]; Flat [det_07]]
           (MetaOne tt) 2 true (ratio 3 10) (ratio 3 10) None None AVERAGE
           AVERAGE AVERAGE) sample_uuids
    = Raise AttributeError.
Proof.
  split.
  - by apply (C10_class_aware_presence_needs_a_mapping "consensus" [det_09]
                AVERAGE [[det_09]; [det_07]] (MetaOne tt) 2 (ratio 3 10)
                (ratio 3 10) None AVERAGE AVERAGE sample_uuids).
  - destruct (consensus_loop (filter_predictions [[det_09]; [det_07]] 0%Qc None)
                2 true (ratio 3 10) (ratio 3 10) AVERAGE AVERAGE sample_uuids)
      as [[st s']|e] eqn:Hloop; [|vm_compute in Hloop; discriminate].
    assert (Hne : consensus_detections st ≠ []).
    { vm_compute in Hloop. by injection Hloop as <- _. }
    destruct (C10_class_aware_presence_needs_a_mapping "consensus"
                (consensus_detections st) AVERAGE [[det_09]; [det_07]]
                (MetaOne tt) 2 (ratio 3 10) (ratio 3 10) None AVERAGE AVERAGE
                sample_uuids Hne) as (_ & _ & H).
    apply (H "img" st s'); [vm_compute; reflexivity | exact Hloop | reflexivity].
Defined.

(** * Further properties of the consensus code *)

(** ** The IOU of two boxes *)

Lemma Zc_quotient (i u : Z) :
  (this (Zc i / Zc u)%Qc == inject_Z i / inject_Z u)%Q.
Proof.
  unfold Zc, Qcdiv, Qcmult, Qcinv, Q2Qc, this.
  rewrite !Qred_correct. reflexivity.
Qed.

Lemma Zc_quotient_bounds (i u : Z) :
  0 ≤ i → i ≤ u → 0 < u → (0 ≤ Zc i / Zc u)%Qc ∧ (Zc i / Zc u ≤ 1)%Qc.
Proof.
  intros Hi Hiu Hu.
  assert (Hupos : (0 < inject_Z u)%Q).
  { unfold Qlt, inject_Z. simpl. lia. }
  unfold Qcle. rewrite !Zc_quotient. split.
  - apply Qle_shift_div_l; [done|]. rewrite Qmult_0_l.
    unfold Qle, inject_Z. simpl. lia.
  - apply Qle_shift_div_r; [done|].
    change (this 1%Qc) with 1%Q. rewrite Qmult_1_l.
    unfold Qle, inject_Z. simpl. lia.
Qed.

Lemma Zc_quotient_self (u : Z) : u ≠ 0 → (Zc u / Zc u)%Qc = 1%Qc.
Proof.
  intros Hu. apply Qc_is_canon. rewrite Zc_quotient.
  apply Qmult_inv_r. unfold Qeq, inject_Z. simpl. lia.
Qed.

(** X1: the IOU does not depend on the order of its two arguments, errors
    included. *)
Theorem X1_calculate_iou_symmetric (a b : detection) :
  calculate_iou a b = calculate_iou b a.
Proof.
  unfold calculate_iou.
  destruct (detection_to_xyxy a) as [[[a0 a1] a2] a3].
  destruct (detection_to_xyxy b) as [[[b0 b1] b2] b3].
  rewrite (Z.max_comm b0 a0), (Z.max_comm b1 a1),
    (Z.min_comm b2 a2), (Z.min_comm b3 a3).
  rewrite (Z.add_comm ((b2 - b0 + 1) * (b3 - b1 + 1))).
  reflexivity.
Qed.

(** X2: for two boxes of non-negative width and height the IOU is defined
    and lies between 0 and 1. *)
Theorem X2_calculate_iou_range (a b : detection) :
  nonnegative_extent a → nonnegative_extent b →
  ∃ v, calculate_iou a b = Ok v ∧ (0 ≤ v)%Qc ∧ (v ≤ 1)%Qc.
Proof.
  intros Ha Hb. unfold calculate_iou.
  destruct (detection_to_xyxy a) as [[[a0 a1] a2] a3] eqn:Ea.
  destruct (detection_to_xyxy b) as [[[b0 b1] b2] b3] eqn:Eb.
  destruct (detection_to_xyxy_ordered _ _ _ _ _ Ha Ea) as [Hax Hay].
  destruct (detection_to_xyxy_ordered _ _ _ _ _ Hb Eb) as [Hbx Hby].
  cbv zeta.
  set (i := Z.max 0 (Z.min a2 b2 - Z.max a0 b0 + 1)
            * Z.max 0 (Z.min a3 b3 - Z.max a1 b1 + 1)).
  assert (Hi0 : 0 ≤ i) by (apply Z.mul_nonneg_nonneg; lia).
  assert (Hia : i ≤ (a2 - a0 + 1) * (a3 - a1 + 1)).
  { apply Z.mul_le_mono_nonneg; lia. }
  assert (Hib : i ≤ (b2 - b0 + 1) * (b3 - b1 + 1)).
  { apply Z.mul_le_mono_nonneg; lia. }
  assert (Hbpos : 0 < (b2 - b0 + 1) * (b3 - b1 + 1))
    by (apply Z.mul_pos_pos; lia).
  clearbody i.
  destruct (decide _) as [Hz|_]; [lia|].
  eexists. split; [done|].
  apply Zc_quotient_bounds; lia.
Qed.

Lemma X2_calculate_iou_range_witness :
  ∃ v, calculate_iou det_09 det_far = Ok v ∧ (0 ≤ v)%Qc ∧ (v ≤ 1)%Qc.
Proof.
  apply X2_calculate_iou_range; split; by vm_compute.
Defined.

(** X3: two boxes of non-negative extent with the same centre, width and
    height have IOU exactly 1, whatever their other fields. *)
Theorem X3_calculate_iou_same_box (a b : detection) :
  nonnegative_extent a →
  det_x a = det_x b → det_y a = det_y b →
  width a = width b → height a = height b →
  calculate_iou a b = Ok 1%Qc.
Proof.
  intros Ha Hx Hy Hw Hh. unfold calculate_iou.
  assert (Eab : detection_to_xyxy b = detection_to_xyxy a).
  { unfold detection_to_xyxy. by rewrite Hx, Hy, Hw, Hh. }
  rewrite Eab.
  destruct (detection_to_xyxy a) as [[[a0 a1] a2] a3] eqn:Ea.
  destruct (detection_to_xyxy_ordered _ _ _ _ _ Ha Ea) as [Hax Hay].
  cbv zeta. rewrite !Z.max_id, !Z.min_id.
  rewrite !(Z.max_r 0) by lia.
  assert (Hpos : 0 < (a2 - a0 + 1) * (a3 - a1 + 1))
    by (apply Z.mul_pos_pos; lia).
  rewrite decide_False by lia.
  f_equal.
  replace ((a2 - a0 + 1) * (a3 - a1 + 1) + (a2 - a0 + 1) * (a3 - a1 + 1)
           - (a2 - a0 + 1) * (a3 - a1 + 1))
    with ((a2 - a0 + 1) * (a3 - a1 + 1)) by lia.
  apply Zc_quotient_self. lia.
Qed.

Lemma X3_calculate_iou_same_box_witness :
  calculate_iou det_09 det_02 = Ok 1%Qc.
Proof.
  apply X3_calculate_iou_same_box; try reflexivity. split; by vm_compute.
Defined.

(** ** The matches of a detection in the other sources *)

Lemma sample_iou_same_box : calculate_iou det_09 det_02 = Ok 1%Qc.
Proof. vm_compute. f_equal. by apply Qc_is_canon. Qed.

Lemma sample_matches :
  get_detections_from_different_sources_with_max_overlap det_09 0
    [[det_09]; [det_02]] (ratio 3 10) true ∅
  = Ok [(1%nat, (det_02, 1%Qc))].
Proof.
  unfold get_detections_from_different_sources_with_max_overlap.
  change (enumerate_detections [[det_09]; [det_02]] (Some 0%nat))
    with [(1%nat, det_02)].
  cbn [foldlM].
  rewrite (max_overlap_update_first_match _ _ _ _ _ _ _ 1%Qc);
    [reflexivity | set_solver | done | apply sample_iou_same_box
    | by vm_compute | reflexivity].
Qed.

Lemma dict_get_set_ne {K V : Type} `{EqDecision K} (k k' : K) (v : V)
    (d : list (K * V)) :
  k ≠ k' → dict_get k (dict_set k' v d) = dict_get k d.
Proof.
  intros Hne. induction d as [|[k0 v0] d IH]; simpl.
  - by rewrite decide_False.
  - destruct (decide (k' = k0)) as [->|Hk0]; simpl.
    + by rewrite !decide_False.
    + destruct (decide (k = k0)); [done | apply IH].
Qed.

(** One step of the matching loop never lowers the IOU kept for a source. *)
Lemma max_overlap_update_monotone (d : detection) (iou_threshold : Qc)
    (class_aware : bool) (considered : gset string)
    (current current' : list (nat * (detection * Qc))) (other : nat * detection)
    (k : nat) (best : detection) (w : Qc) :
  max_overlap_update d iou_threshold class_aware considered current other
  = Ok current' →
  dict_get k current = Some (best, w) →
  ∃ best' w', dict_get k current' = Some (best', w') ∧ (w ≤ w')%Qc.
Proof.
  destruct other as [k' od]. unfold max_overlap_update.
  intros Hstep Hget.
  assert (Hsame : ∃ best' w', dict_get k current = Some (best', w') ∧ (w ≤ w')%Qc).
  { exists best, w. split; [done | apply Qcle_refl]. }
  case_bool_decide; [by injection Hstep as <-|].
  destruct (class_aware && _); [by injection Hstep as <-|].
  apply result_bind_inv in Hstep as (v & _ & Hstep).
  destruct (Qc_leb v iou_threshold); [by injection Hstep as <-|].
  destruct (dict_get k' current) as [[b0 w0]|] eqn:Hk'.
  - rewrite Hk' in Hstep. cbn [snd] in Hstep.
    unfold Qc_ltb in Hstep. case_bool_decide as Hlt;
      injection Hstep as <-; [|done].
    destruct (decide (k = k')) as [->|Hne].
    + rewrite dict_get_set. exists od, v. split; [done|].
      rewrite Hk' in Hget. injection Hget as _ <-. by apply Qclt_le_weak.
    + by rewrite dict_get_set_ne.
  - assert (Hne : k ≠ k') by (intros ->; congruence).
    rewrite dict_get_set in Hstep. cbn [snd] in Hstep.
    unfold Qc_ltb in Hstep. case_bool_decide as Hlt; injection Hstep as <-.
    + by rewrite !dict_get_set_ne.
    + by rewrite dict_get_set_ne.
Qed.

(** After the step for an eligible detection, its source has an entry of at
    least the IOU of that detection. *)
Lemma max_overlap_update_covers (d : detection) (iou_threshold : Qc)
    (class_aware : bool) (considered : gset string)
    (current current' : list (nat * (detection * Qc))) (k : nat)
    (od : detection) (v : Qc) :
  max_overlap_update d iou_threshold class_aware considered current (k, od)
  = Ok current' →
  detection_id od ∉ considered →
  (class_aware = true → class d = class od) →
  calculate_iou d od = Ok v →
  (iou_threshold < v)%Qc →
  ∃ best w, dict_get k current' = Some (best, w) ∧ (v ≤ w)%Qc.
Proof.
  unfold max_overlap_update. intros Hstep Hcons Hclass Hiou Hv.
  rewrite bool_decide_eq_false_2 in Hstep by done.
  assert (Hc : class_aware && bool_decide (class d ≠ class od) = false).
  { destruct class_aware; [|done]. simpl.
    apply bool_decide_eq_false_2. intros Hne. by apply Hne, Hclass. }
  rewrite Hc, Hiou in Hstep. clear Hc. cbn [mbind result_bind] in Hstep.
  unfold Qc_leb in Hstep.
  rewrite bool_decide_eq_false_2 in Hstep by (by apply Qclt_not_le).
  destruct (dict_get k current) as [[b0 w0]|] eqn:Hk.
  - rewrite Hk in Hstep. cbn [snd] in Hstep.
    unfold Qc_ltb in Hstep. case_bool_decide as Hlt; injection Hstep as <-.
    + rewrite dict_get_set. exists od, v. split; [done | apply Qcle_refl].
    + exists b0, w0. split; [done|]. by apply Qcnot_lt_le.
  - rewrite dict_get_set in Hstep. cbn [snd] in Hstep.
    unfold Qc_ltb in Hstep. case_bool_decide as Hlt; injection Hstep as <-.
    + exfalso. revert Hlt. apply Qcle_not_lt, Qcle_refl.
    + rewrite dict_get_set. exists od, v. split; [done | apply Qcle_refl].
Qed.

Lemma foldlM_max_overlap_maximal (d : detection) (iou_threshold : Qc)
    (class_aware : bool) (considered : gset string)
    (others : list (nat * detection))
    (current matches : list (nat * (detection * Qc))) :
  foldlM (max_overlap_update d iou_threshold class_aware considered)
    current others = Ok matches →
  (∀ k best w, dict_get k current = Some (best, w) →
     ∃ best' w', dict_get k matches = Some (best', w') ∧ (w ≤ w')%Qc)
  ∧ (∀ k od v, (k, od) ∈ others →
       detection_id od ∉ considered →
       (class_aware = true → class d = class od) →
       calculate_iou d od = Ok v →
       (iou_threshold < v)%Qc →
       ∃ best w, dict_get k matches = Some (best, w) ∧ (v ≤ w)%Qc).
Proof.
  revert current. induction others as [|other others IH]; intros current Hfold.
  - injection Hfold as <-. split.
    + intros k best w Hget. exists best, w. split; [done | apply Qcle_refl].
    + intros k od v Hin. by apply elem_of_nil in Hin.
  - cbn [foldlM] in Hfold.
    apply result_bind_inv in Hfold as (current' & Hstep & Hfold).
    destruct (IH _ Hfold) as [IHmono IHcov]. split.
    + intros k best w Hget.
      destruct (max_overlap_update_monotone _ _ _ _ _ _ _ _ _ _ Hstep Hget)
        as (b1 & w1 & Hget1 & Hle1).
      destruct (IHmono _ _ _ Hget1) as (b2 & w2 & Hget2 & Hle2).
      exists b2, w2. split; [done | by eapply Qcle_trans].
    + intros k od v Hin Hcons Hclass Hiou Hv.
      apply elem_of_cons in Hin as [<-|Hin]; [|by eapply IHcov].
      destruct (max_overlap_update_covers _ _ _ _ _ _ _ _ _ Hstep Hcons Hclass
                  Hiou Hv) as (b1 & w1 & Hget1 & Hle1).
      destruct (IHmono _ _ _ Hget1) as (b2 & w2 & Hget2 & Hle2).
      exists b2, w2. split; [done | by eapply Qcle_trans].
Qed.

(** X4: what the matching returns for a detection of one source is sound:
    at most one entry per other source, none for the detection's own
    source, and every entry is a detection of that other source that is not
    consumed yet, has the same class when the consensus is class aware, and
    overlaps the detection by more than the IOU threshold. *)
Theorem X4_matches_are_sound (d : detection) (source : nat)
    (predictions : list (list detection)) (iou_threshold : Qc)
    (class_aware : bool) (considered : gset string)
    (matches : list (nat * (detection * Qc))) :
  (source < length predictions)%nat →
  get_detections_from_different_sources_with_max_overlap d source predictions
    iou_threshold class_aware considered = Ok matches →
  NoDup (fst <$> matches)
  ∧ (length matches ≤ length predictions - 1)%nat
  ∧ Forall (overlap_entry_ok d source predictions iou_threshold class_aware
              considered) matches.
Proof.
  intros Hsrc Hm. destruct (max_overlap_ok _ _ _ _ _ _ _ Hm) as [Hnd Hall].
  split; [done|]. split; [by eapply max_overlap_length | done].
Qed.

Lemma X4_matches_are_sound_witness :
  NoDup (fst <$> [(1%nat, (det_02, 1%Qc))])
  ∧ (length [(1%nat, (det_02, 1%Qc))] ≤ length [[det_09]; [det_02]] - 1)%nat
  ∧ Forall (overlap_entry_ok det_09 0 [[det_09]; [det_02]] (ratio 3 10) true ∅)
      [(1%nat, (det_02, 1%Qc))].
Proof.
  apply X4_matches_are_sound; [simpl; lia | apply sample_matches].
Defined.

(** X5: the matching is maximal. Whenever another source holds a detection
    that is not consumed, is class compatible and overlaps the given one by
    more than the threshold, the result has an entry for that source, and
    the IOU of the entry is at least the IOU of that detection. *)
Theorem X5_matches_are_maximal (d : detection) (source : nat)
    (predictions : list (list detection)) (iou_threshold : Qc)
    (class_aware : bool) (considered : gset string)
    (matches : list (nat * (detection * Qc)))
    (k : nat) (detections : list detection) (od : detection) (v : Qc) :
  get_detections_from_different_sources_with_max_overlap d source predictions
    iou_threshold class_aware considered = Ok matches →
  k ≠ source →
  predictions !! k = Some detections →
  od ∈ detections →
  detection_id od ∉ considered →
  (class_aware = true → class d = class od) →
  calculate_iou d od = Ok v →
  (iou_threshold < v)%Qc →
  ∃ best w, dict_get k matches = Some (best, w) ∧ (v ≤ w)%Qc.
Proof.
  intros Hm Hk Hl Hin Hcons Hclass Hiou Hv.
  unfold get_detections_from_different_sources_with_max_overlap in Hm.
  apply foldlM_max_overlap_maximal in Hm as [_ Hcov].
  apply (Hcov k od v); try done.
  apply elem_of_enumerate_detections. split; [congruence | eauto].
Qed.

Lemma X5_matches_are_maximal_witness :
  ∃ best w, dict_get 1%nat [(1%nat, (det_02, 1%Qc))] = Some (best, w)
            ∧ (1 ≤ w)%Qc.
Proof.
  apply (X5_matches_are_maximal det_09 0 [[det_09]; [det_02]] (ratio 3 10) true ∅
           _ 1 [det_02] det_02 1%Qc);
    [apply sample_matches | done | reflexivity | set_solver | set_solver
    | done | apply sample_iou_same_box | by vm_compute].
Defined.

(** ** What a merged detection is made of *)

(** The element [max] keeps is not below any element of the list, for an
    order [lt] that is transitive on its complement and asymmetric. *)
Lemma foldl_pick_upper {A : Type} (lt : A → A → bool) (v : A) (vs : list A) :
  (∀ a b c, lt a b = false → lt b c = false → lt a c = false) →
  (∀ a b, lt a b = true → lt b a = false) →
  (∀ a, lt a a = false) →
  ∀ x, x ∈ v :: vs → lt (foldl (λ m e, if lt m e then e else m) v vs) x = false.
Proof.
  intros Htrans Hasym Hirr. revert v.
  induction vs as [|w vs IH]; intros v x Hx; simpl.
  - apply list_elem_of_singleton in Hx as ->. apply Hirr.
  - destruct (lt v w) eqn:Hvw.
    + apply elem_of_cons in Hx as [->|Hx]; [|by apply IH].
      apply (Htrans _ w); [apply IH; left | by apply Hasym].
    + apply elem_of_cons in Hx as [->|Hx]; [apply IH; left|].
      apply elem_of_cons in Hx as [->|Hx]; [|apply IH; by right].
      apply (Htrans _ v); [apply IH; left | done].
Qed.

Lemma Qc_ltb_false (a b : Qc) : Qc_ltb a b = false ↔ (b ≤ a)%Qc.
Proof.
  unfold Qc_ltb. rewrite bool_decide_eq_false. split.
  - apply Qcnot_lt_le.
  - apply Qcle_not_lt.
Qed.

Lemma py_max_upper (v : Qc) (vs : list Qc) (m : Qc) :
  py_max Qc_ltb (v :: vs) = Ok m → m ∈ v :: vs ∧ ∀ x, x ∈ v :: vs → (x ≤ m)%Qc.
Proof.
  intros [= <-]. split; [apply foldl_pick_elem|].
  intros x Hx. apply Qc_ltb_false. revert x Hx. apply foldl_pick_upper.
  - intros a b c Hab%Qc_ltb_false Hbc%Qc_ltb_false. apply Qc_ltb_false.
    by apply Qcle_trans with b.
  - intros a b Hab. apply Qc_ltb_false. apply Qclt_le_weak.
    by apply bool_decide_eq_true in Hab.
  - intros a. apply Qc_ltb_false, Qcle_refl.
Qed.

Lemma py_min_lower (v : Qc) (vs : list Qc) (m : Qc) :
  py_min Qc_ltb (v :: vs) = Ok m → m ∈ v :: vs ∧ ∀ x, x ∈ v :: vs → (m ≤ x)%Qc.
Proof.
  intros [= <-]. split; [apply (foldl_pick_elem (λ m e, Qc_ltb e m))|].
  intros x Hx. apply Qc_ltb_false. revert x Hx.
  apply (foldl_pick_upper (λ a b, Qc_ltb b a)).
  - intros a b c Hab%Qc_ltb_false Hbc%Qc_ltb_false. apply Qc_ltb_false.
    by apply Qcle_trans with b.
  - intros a b Hab. apply Qc_ltb_false. apply Qclt_le_weak.
    by apply bool_decide_eq_true in Hab.
  - intros a. apply Qc_ltb_false, Qcle_refl.
Qed.

Lemma Zc_add (a b : Z) : Zc (a + b) = (Zc a + Zc b)%Qc.
Proof.
  apply Qc_is_canon. unfold Zc, Qcplus, Q2Qc, this.
  rewrite !Qred_correct. rewrite inject_Z_plus. reflexivity.
Qed.

Lemma Zc_positive (n : Z) : 0 < n → (0 < Zc n)%Qc.
Proof.
  intros Hn. unfold Qclt, Zc, Q2Qc, this. rewrite !Qred_correct.
  unfold Qlt, inject_Z. simpl. lia.
Qed.

Lemma sum_bounds (lo hi : Qc) (l : list Qc) :
  Forall (λ x, (lo ≤ x)%Qc ∧ (x ≤ hi)%Qc) l →
  (Zc (Z.of_nat (length l)) * lo ≤ foldr Qcplus 0%Qc l)%Qc
  ∧ (foldr Qcplus 0%Qc l ≤ Zc (Z.of_nat (length l)) * hi)%Qc.
Proof.
  induction 1 as [|x l [Hlo Hhi] _ [IHlo IHhi]].
  - cbn [length foldr]. change (Z.of_nat 0) with 0.
    replace (Zc 0) with 0%Qc by (by apply Qc_is_canon).
    split; [replace (0 * lo)%Qc with 0%Qc by ring
           | replace (0 * hi)%Qc with 0%Qc by ring]; apply Qcle_refl.
  - cbn [length foldr]. rewrite Nat2Z.inj_succ, <- Z.add_1_l, Zc_add.
    replace (Zc 1) with 1%Qc by (by apply Qc_is_canon). split.
    + replace ((1 + Zc (Z.of_nat (length l))) * lo)%Qc
        with (lo + Zc (Z.of_nat (length l)) * lo)%Qc by ring.
      by apply Qcplus_le_compat.
    + replace ((1 + Zc (Z.of_nat (length l))) * hi)%Qc
        with (hi + Zc (Z.of_nat (length l)) * hi)%Qc by ring.
      by apply Qcplus_le_compat.
Qed.

Lemma mean_bounds (lo hi : Qc) (l : list Qc) (m : Qc) :
  Forall (λ x, (lo ≤ x)%Qc ∧ (x ≤ hi)%Qc) l →
  mean l = Ok m → (lo ≤ m)%Qc ∧ (m ≤ hi)%Qc.
Proof.
  intros Hall Hm. destruct l as [|v vs]; [discriminate|].
  injection Hm as <-.
  set (n := Zc (Z.of_nat (length (v :: vs)))).
  assert (Hn : (0 < n)%Qc) by (apply Zc_positive; simpl; lia).
  assert (Hn0 : n ≠ 0%Qc).
  { intros E. rewrite E in Hn. revert Hn. apply Qcle_not_lt, Qcle_refl. }
  destruct (sum_bounds lo hi _ Hall) as [Hlo Hhi]. fold n in Hlo, Hhi.
  split; apply (Qcmult_lt_0_le_reg_r _ _ n Hn); rewrite test_field by done.
  - by rewrite Qcmult_comm.
  - by rewrite Qcmult_comm.
Qed.

(** The parts [merge_detections] assembles, for a non-empty group. *)
Lemma merge_detections_parts (d : detection) (l : list detection)
    (m_confidence m_boxes : AggregationMode) (s : uuid_supply) :
  ∃ m, merge_detections (d :: l) m_confidence m_boxes s = Ok (m, λ n, s (S n))
       ∧ AGGREGATION_MODE2CLASS_SELECTOR m_confidence (d :: l)
         = Ok (class m, class_id m)
       ∧ AGGREGATION_MODE2BOXES_AGGREGATOR m_boxes (d :: l)
         = Ok (det_x m, det_y m, width m, height m)
       ∧ aggregate_field_values (d :: l) confidence m_confidence
         = Ok (confidence m).
Proof.
  unfold merge_detections.
  destruct (class_selector_nonempty m_confidence d l) as ([cn cid] & Hc).
  destruct (boxes_aggregator_nonempty m_boxes d l) as ([[[x y] w] h] & Hb).
  destruct (aggregate_field_values_nonempty d l confidence m_confidence)
    as (c & Ha).
  erewrite exec_bind_ok by (by apply lift_ok). simpl.
  erewrite exec_bind_ok by (by apply lift_ok). simpl.
  erewrite exec_bind_ok by (by apply lift_ok).
  erewrite exec_bind_ok by reflexivity.
  erewrite exec_bind_ok by (by apply lift_ok).
  eexists. split; [reflexivity|]. by rewrite Hc, Hb, Ha.
Qed.

Lemma aggregate_field_values_bounds (group : list detection)
    (field : detection → Qc) (mode : AggregationMode) (v : Qc) :
  aggregate_field_values group field mode = Ok v →
  (∃ lo hi, lo ∈ group ∧ hi ∈ group ∧ (field lo ≤ v)%Qc ∧ (v ≤ field hi)%Qc)
  ∧ (mode = MAX → ∀ x, x ∈ group → (field x ≤ v)%Qc)
  ∧ (mode = MIN → ∀ x, x ∈ group → (v ≤ field x)%Qc).
Proof.
  unfold aggregate_field_values. intros Hv.
  destruct group as [|d l]; [by destruct mode|].
  rewrite fmap_cons in Hv.
  destruct (py_max_upper (field d) (field <$> l) _ eq_refl) as [Hmax_in Hmax].
  destruct (py_min_lower (field d) (field <$> l) _ eq_refl) as [Hmin_in Hmin].
  rewrite <- fmap_cons in Hmax_in, Hmax, Hmin_in, Hmin.
  apply list_elem_of_fmap in Hmax_in as (hi & Ehi & Hhi).
  apply list_elem_of_fmap in Hmin_in as (lo & Elo & Hlo).
  rewrite Ehi in Hmax. rewrite Elo in Hmin.
  assert (Hup : ∀ x, x ∈ d :: l → (field x ≤ field hi)%Qc).
  { intros x Hx. apply Hmax, list_elem_of_fmap. eauto. }
  assert (Hdown : ∀ x, x ∈ d :: l → (field lo ≤ field x)%Qc).
  { intros x Hx. apply Hmin, list_elem_of_fmap. eauto. }
  destruct mode; cbn [AGGREGATION_MODE2FIELD_AGGREGATOR] in Hv.
  - injection Hv as <-. rewrite Ehi. split; [|split; [done | discriminate]].
    exists hi, hi. repeat split; try done; apply Qcle_refl.
  - injection Hv as <-. rewrite Elo. split; [|split; [discriminate | done]].
    exists lo, lo. repeat split; try done; apply Qcle_refl.
  - split; [|split; discriminate]. exists lo, hi. split; [done|]. split; [done|].
    rewrite <- fmap_cons in Hv.
    apply (mean_bounds (field lo) (field hi) (field <$> d :: l)); [|done].
    apply Forall_fmap, Forall_forall. intros x Hx. split; [by apply Hdown | by apply Hup].
Qed.

(** X6: merging a non-empty group succeeds and draws one identifier. The
    merged confidence lies between the confidences of two members of the
    group; in mode MAX no member is more confident than the merged
    detection, in mode MIN none is less confident. *)
Theorem X6_merged_confidence_is_bounded (d : detection) (l : list detection)
    (m_confidence m_boxes : AggregationMode) (s : uuid_supply) :
  ∃ m, merge_detections (d :: l) m_confidence m_boxes s = Ok (m, λ n, s (S n))
       ∧ (∃ lo hi, lo ∈ d :: l ∧ hi ∈ d :: l
                   ∧ (confidence lo ≤ confidence m)%Qc
                   ∧ (confidence m ≤ confidence hi)%Qc)
       ∧ (m_confidence = MAX → ∀ x, x ∈ d :: l → (confidence x ≤ confidence m)%Qc)
       ∧ (m_confidence = MIN → ∀ x, x ∈ d :: l → (confidence m ≤ confidence x)%Qc).
Proof.
  destruct (merge_detections_parts d l m_confidence m_boxes s)
    as (m & Hm & _ & _ & Hc).
  exists m. split; [done|]. by apply aggregate_field_values_bounds in Hc.
Qed.

Lemma first_filter_inv {A : Type} (f : A → bool) (l : list A) (y : A) :
  first (List.filter f l) = Ok y → y ∈ l ∧ f y = true.
Proof.
  intros Hy. destruct (List.filter f l) as [|y' l'] eqn:E; [discriminate|].
  injection Hy as ->.
  assert (Hin : In y (List.filter f l)) by (rewrite E; by left).
  apply filter_In in Hin as [Hin ?]. by rewrite <- list_elem_of_In in Hin.
Qed.

(** The number of times [c] occurs in [classes]. *)
Lemma Counter_count_from (classes : list string) (counts : list (string * nat))
    (c : string) :
  default 0%nat
    (dict_get c
       (foldl (λ counts c, dict_set c (S (default 0%nat (dict_get c counts))) counts)
          counts classes))
  = (default 0%nat (dict_get c counts) + count_occ String.string_dec classes c)%nat.
Proof.
  revert counts. induction classes as [|c' classes IH]; intros counts.
  - simpl. lia.
  - cbn [foldl count_occ]. rewrite IH.
    destruct (String.string_dec c' c) as [->|Hne].
    + rewrite dict_get_set. cbn [default from_option id]. lia.
    + rewrite dict_get_set_ne by done. lia.
Qed.

Lemma Counter_NoDup_from (classes : list string) (counts : list (string * nat)) :
  NoDup (fst <$> counts) →
  NoDup (fst <$>
    foldl (λ counts c, dict_set c (S (default 0%nat (dict_get c counts))) counts)
      counts classes).
Proof.
  revert counts. induction classes as [|c classes IH]; intros counts Hnd; simpl.
  - done.
  - by apply IH, dict_set_keys_NoDup.
Qed.

Lemma dict_get_of_elem {K V : Type} `{EqDecision K} (k : K) (v : V)
    (d : list (K * V)) :
  NoDup (fst <$> d) → (k, v) ∈ d → dict_get k d = Some v.
Proof.
  induction d as [|[k' v'] d IH]; intros Hnd Hin.
  - by apply elem_of_nil in Hin.
  - rewrite fmap_cons in Hnd. apply NoDup_cons in Hnd as [Hk' Hnd]. simpl.
    apply elem_of_cons in Hin as [[= <- <-]|Hin].
    + by rewrite decide_True.
    + rewrite decide_False; [by apply IH|].
      intros <-. apply Hk', list_elem_of_fmap. by exists (k, v).
Qed.

(** An entry of [Counter(classes)] holds the number of occurrences of its
    class. *)
Lemma Counter_elem (classes : list string) (c : string) (n : nat) :
  (c, n) ∈ Counter classes → n = count_occ String.string_dec classes c.
Proof.
  intros Hin. unfold Counter in *.
  pose proof (Counter_count_from classes [] c) as Hcount.
  rewrite (dict_get_of_elem c n) in Hcount;
    [done | apply Counter_NoDup_from, NoDup_nil_2 | done].
Qed.

Lemma Counter_lookup (classes : list string) (c : string) :
  c ∈ classes → (c, count_occ String.string_dec classes c) ∈ Counter classes.
Proof.
  intros Hin. pose proof (Counter_count_from classes [] c) as Hcount.
  fold (Counter classes) in Hcount. simpl in Hcount.
  assert (Hpos : (0 < count_occ String.string_dec classes c)%nat).
  { apply count_occ_In. by apply list_elem_of_In. }
  destruct (dict_get c (Counter classes)) as [n|] eqn:E.
  - simpl in Hcount. subst n. by apply dict_get_elem.
  - simpl in Hcount. lia.
Qed.

Lemma get_majority_class_inv (group : list detection) (cn : string) (cid : Z) :
  get_majority_class group = Ok (cn, cid) →
  (∃ x, x ∈ group ∧ class x = cn ∧ class_id x = cid)
  ∧ ∀ c, (count_occ String.string_dec (class <$> group) c
          ≤ count_occ String.string_dec (class <$> group) cn)%nat.
Proof.
  unfold get_majority_class. intros H.
  apply result_bind_inv in H as ([mc mn] & Hmost & H).
  apply result_bind_inv in H as (cid' & Hcid & [= <- <-]).
  cbn [fst] in *. split.
  - rewrite <- (list_fmap_id (List.filter _ group)) in Hcid.
    destruct (List.filter (λ d, bool_decide (class d = mc)) group) as [|x xs] eqn:E;
      [discriminate|].
    injection Hcid as <-.
    destruct (first_filter_inv (λ d, bool_decide (class d = mc)) group x)
      as [Hx Hcx]; [by rewrite E|].
    exists x. split; [done|]. split; [by apply bool_decide_eq_true in Hcx | done].
  - intros c.
    destruct (Counter (class <$> group)) as [|e counts] eqn:E; [discriminate|].
    cbn [py_max first] in Hmost. injection Hmost as Hmost.
    assert (Hin : (mc, mn) ∈ Counter (class <$> group)).
    { rewrite E, <- Hmost. apply foldl_pick_elem. }
    apply Counter_elem in Hin as Hmn.
    destruct (decide (c ∈ class <$> group)) as [Hc|Hc].
    + apply Counter_lookup in Hc. rewrite E in Hc.
      assert (Hle : (λ a b : string * nat, bool_decide (a.2 < b.2)%nat) (mc, mn)
                      (c, count_occ String.string_dec (class <$> group) c)
                    = false).
      { rewrite <- Hmost.
        apply (foldl_pick_upper
                 (λ a b : string * nat, bool_decide (a.2 < b.2)%nat) e counts);
          [| | |done].
        - intros a b c0 Hab%bool_decide_eq_false Hbc%bool_decide_eq_false.
          apply bool_decide_eq_false. lia.
        - intros a b Hab%bool_decide_eq_true. apply bool_decide_eq_false. lia.
        - intros a. apply bool_decide_eq_false. lia. }
      apply bool_decide_eq_false in Hle. simpl in Hle. lia.
    + assert (count_occ String.string_dec (class <$> group) c = 0%nat) as ->; [|lia].
      apply count_occ_not_In. by rewrite <- list_elem_of_In.
Qed.

(** The class selectors MAX and MIN return the class of a member whose
    confidence is the aggregated one. *)
Lemma get_class_of_extreme_detection_inv (mode : AggregationMode)
    (group : list detection) (cn : string) (cid : Z) :
  (max_confidence ← aggregate_field_values group confidence mode;
   most_confident_prediction ← first
     (List.filter (λ d, bool_decide (confidence d = max_confidence)) group);
   Ok (class most_confident_prediction, class_id most_confident_prediction))
  = Ok (cn, cid) →
  ∃ x, x ∈ group ∧ class x = cn ∧ class_id x = cid
       ∧ aggregate_field_values group confidence mode = Ok (confidence x).
Proof.
  intros H. apply result_bind_inv in H as (c & Hc & H).
  apply result_bind_inv in H as (x & Hx & [= <- <-]).
  apply first_filter_inv in Hx as [Hx Hcx]. apply bool_decide_eq_true in Hcx.
  exists x. repeat split; try done. by rewrite Hcx.
Qed.

(** X7: the class name and the class id of a merged detection are those of
    one member of the group. With the confidence modes MAX and MIN that
    member is one whose confidence is the merged confidence; with AVERAGE
    its class is a most frequent class of the group. *)
Theorem X7_merged_class_comes_from_a_member (d : detection) (l : list detection)
    (m_confidence m_boxes : AggregationMode) (s : uuid_supply) :
  ∃ m x, merge_detections (d :: l) m_confidence m_boxes s = Ok (m, λ n, s (S n))
         ∧ x ∈ d :: l ∧ class m = class x ∧ class_id m = class_id x
         ∧ (m_confidence ≠ AVERAGE → confidence x = confidence m)
         ∧ (m_confidence = AVERAGE →
              ∀ c, (count_occ String.string_dec (class <$> d :: l) c
                    ≤ count_occ String.string_dec (class <$> d :: l) (class m))%nat).
Proof.
  destruct (merge_detections_parts d l m_confidence m_boxes s)
    as (m & Hm & Hsel & _ & Hc).
  exists m. destruct m_confidence; cbn [AGGREGATION_MODE2CLASS_SELECTOR] in Hsel.
  - apply (get_class_of_extreme_detection_inv MAX) in Hsel
      as (x & Hx & Hcn & Hcid & Hagg).
    exists x. repeat split; try done. intros _. congruence.
  - apply (get_class_of_extreme_detection_inv MIN) in Hsel
      as (x & Hx & Hcn & Hcid & Hagg).
    exists x. repeat split; try done. intros _. congruence.
  - apply get_majority_class_inv in Hsel as [(x & Hx & Hcn & Hcid) Hmaj].
    exists x. repeat split; try done.
Qed.



(** ** What the consensus of one image returns *)

(** The two outcomes of one iteration of the consensus loop: the state is
    kept, or one merged detection is accepted. *)
Lemma consensus_iteration_cases (predictions : list (list detection))
    (required_votes : Z) (class_aware : bool)
    (iou_threshold confidence_threshold : Qc)
    (m_confidence m_boxes : AggregationMode) (st st' : consensus_state)
    (source_id : nat) (d : detection) (s1 s2 : uuid_supply) :
  consensus_iteration predictions required_votes class_aware iou_threshold
    confidence_threshold m_confidence m_boxes st (source_id, d) s1 = Ok (st', s2) →
  (st' = st ∧ (s2 = s1 ∨ s2 = λ n, s1 (S n)))
  ∨ ∃ matched merged,
      st' = accept st d matched merged
      ∧ s2 = (λ n, s1 (S n))
      ∧ detection_id merged = s1 0%nat
      ∧ parent_id merged = parent_id d
      ∧ (confidence_threshold ≤ confidence merged)%Qc.
Proof.
  intros Hit.
  destruct (consensus_iteration_ok_inv _ _ _ _ _ _ _ _ _ _ _ _ _ Hit)
    as [matches Hm].
  destruct (consensus_iteration_spec predictions required_votes class_aware
              iou_threshold confidence_threshold m_confidence m_boxes st
              source_id d s1 matches Hm) as (merged & Hmerge & Heq).
  rewrite Hit in Heq.
  destruct (merge_detections_nonempty d (fst <$> dict_values matches)
              m_confidence m_boxes s1) as (m' & Hmerge' & Hid & Hparent & _).
  rewrite Hmerge in Hmerge'. injection Hmerge' as <-.
  destruct (decide _); [|injection Heq as -> ->; left; eauto].
  unfold Qc_leb in Heq. case_bool_decide as Hc; injection Heq as -> ->.
  - right. by exists (fst <$> dict_values matches), merged.
  - left. eauto.
Qed.

Lemma foldlM_exec_measure {A B : Type} (measure : A → nat)
    (f : A → B → exec A) (l : list B) (a r : A) (s s' : uuid_supply) :
  (∀ a b a' s1 s2, f a b s1 = Ok (a', s2) → (measure a' ≤ S (measure a))%nat) →
  foldlM f a l s = Ok (r, s') → (measure r ≤ measure a + length l)%nat.
Proof.
  intros Hstep. revert a s. induction l as [|b l IH]; intros a s Hfold.
  - injection Hfold as <- _. simpl. lia.
  - cbn [foldlM] in Hfold.
    apply exec_bind_inv in Hfold as (a' & s1 & Hf & Hfold).
    apply Hstep in Hf. apply IH in Hfold. simpl. lia.
Qed.

Lemma length_enumerate_detections_from (k : nat)
    (predictions : list (list detection)) :
  length (enumerate_detections_from k predictions None)
  = length (concat predictions).
Proof.
  revert k. induction predictions as [|ds rest IH]; intros k; [done|].
  cbn [enumerate_detections_from concat].
  rewrite decide_False by done.
  by rewrite !length_app, length_fmap, IH.
Qed.

Lemma length_concat_filter_predictions (predictions : list (list detection))
    (threshold : Qc) (classes_to_consider : option (list string)) :
  (length (concat (filter_predictions predictions threshold classes_to_consider))
   ≤ length (concat predictions))%nat.
Proof.
  unfold filter_predictions.
  induction predictions as [|ds rest IH]; [done|].
  rewrite fmap_cons. cbn [concat]. rewrite !length_app.
  pose proof (List.filter_length_le
                match classes_to_consider with
                | Some classes =>
                    λ d, confidence_and_class_match d threshold (list_to_set classes)
                | None => λ d, confidence_matches d threshold
                end ds).
  lia.
Qed.

(** The parent identifier the consensus reports is the one of every input
    detection. *)
Lemma get_parent_id_ok_inv (predictions : list (list detection)) (p : string)
    (d : detection) :
  get_parent_id_of_predictions_from_different_sources predictions = Ok p →
  d ∈ concat predictions → parent_id d = p.
Proof.
  unfold get_parent_id_of_predictions_from_different_sources.
  set (ids := list_to_set (parent_id <$> concat predictions) : gset string).
  intros Hp Hd. destruct (decide (1 < size ids)%nat) as [|Hsize]; [discriminate|].
  assert (Hin : parent_id d ∈ elements ids).
  { apply elem_of_elements, elem_of_list_to_set, list_elem_of_fmap. eauto. }
  unfold size, set_size in Hsize. simpl in Hsize.
  destruct (elements ids) as [|p' [|p'' rest]]; [discriminate| |simpl in Hsize; lia].
  injection Hp as <-. by apply list_elem_of_singleton in Hin.
Qed.

(** X9: the consensus detections returned for one image all carry the parent
    identifier that is reported, which is the parent identifier of every
    input detection; each has a confidence of at least the confidence
    threshold; there are no more of them than input detections; and objects
    are never reported present with an empty consensus. *)
Theorem X9_consensus_output_invariants predictions required_votes class_aware
    iou_threshold confidence_threshold classes_to_consider required_objects
    m_presence m_confidence m_boxes s parent present confidences consensus s' :
  resolve_batch_consensus predictions required_votes class_aware iou_threshold
    confidence_threshold classes_to_consider required_objects
    m_presence m_confidence m_boxes s
  = Ok (parent, present, confidences, consensus, s') →
  (∀ d, d ∈ concat predictions → parent_id d = parent)
  ∧ Forall (λ m, parent_id m = parent
                 ∧ (confidence_threshold ≤ confidence m)%Qc) consensus
  ∧ (length consensus ≤ length (concat predictions))%nat
  ∧ (present = true → consensus ≠ []).
Proof.
  intros Hres.
  apply resolve_batch_consensus_ok_inv in Hres
    as (Hparent & st & Hloop & -> & Hpresence).
  split; [intros d; by apply get_parent_id_ok_inv|].
  split; [|split].
  - revert Hloop. unfold consensus_loop.
    apply (foldlM_exec_invariant
             (λ st _, Forall (λ m, parent_id m = parent
                                   ∧ (confidence_threshold ≤ confidence m)%Qc)
                        (consensus_detections st))).
    + apply Forall_nil_2.
    + intros st1 [source_id d] st2 s1 s2 Hinv Hin Hit.
      apply consensus_iteration_cases in Hit
        as [[-> _]|(matched & merged & -> & _ & _ & Hp & Hc)]; [done|].
      cbn [accept consensus_detections]. apply Forall_app. split; [done|].
      apply Forall_singleton. split; [|done]. rewrite Hp.
      apply (get_parent_id_ok_inv predictions); [done|].
      apply (filter_predictions_concat _ 0%Qc classes_to_consider).
      apply elem_of_enumerate_detections in Hin as (_ & ds & Hl & Hd).
      apply elem_of_concat. exists ds. split; [|done].
      by eapply list_elem_of_lookup_2.
  - unfold consensus_loop in Hloop.
    apply (foldlM_exec_measure (λ st, length (consensus_detections st))) in Hloop.
    + cbn [consensus_detections length] in Hloop.
      unfold enumerate_detections in Hloop.
      rewrite length_enumerate_detections_from in Hloop.
      pose proof (length_concat_filter_predictions predictions 0%Qc
                    classes_to_consider). lia.
    + intros st1 [source_id d] st2 s1 s2 Hit.
      apply consensus_iteration_cases in Hit
        as [[-> _]|(matched & merged & -> & _)]; [lia|].
      cbn [accept consensus_detections]. rewrite length_app. simpl. lia.
  - intros -> Hnil. rewrite Hnil in Hpresence.
    unfold check_objects_presence_in_consensus_predictions in Hpresence.
    rewrite decide_True in Hpresence by done. discriminate.
Qed.

Lemma sample_consensus :
  ∃ present confidences merged,
    resolve_batch_consensus [[det_09]; [det_02]] 2 false (ratio 3 10) (ratio 3 10)
      None None AVERAGE AVERAGE AVERAGE sample_uuids
    = Ok ("img", present, confidences, [merged], λ n, sample_uuids (S n)).
Proof.
  assert (Hagg : aggregate_field_values [det_09; det_02] confidence AVERAGE
                 = Ok (ratio 55 100)).
  { vm_compute. f_equal. by apply Qc_is_canon. }
  destruct (consensus_loop_two_agreeing_sources det_09 det_02 false (ratio 3 10)
              (ratio 3 10) 1%Qc (ratio 55 100) AVERAGE AVERAGE sample_uuids)
    as (merged & _ & _ & Hloop);
    [apply sample_iou_same_box | by vm_compute | done | exact Hagg
    | by vm_compute|].
  destruct (check_objects_presence_class_unaware [merged] AVERAGE None)
    as ([present confidences] & Hpresence).
  exists present, confidences, merged.
  apply (resolve_batch_consensus_ok_intro _ _ _ _ _ _ _ _ _ _ _ _ _ _
           (accept {| detections_already_considered := ∅;
                      consensus_detections := [] |} det_09 [det_02] merged)).
  - apply get_parent_id_shared; [done|].
    intros d Hd. cbn [concat app] in Hd.
    apply elem_of_cons in Hd as [->|Hd]; [done|].
    by apply list_elem_of_singleton in Hd as ->.
  - rewrite filter_predictions_all_kept; [exact Hloop|].
    intros d Hd. cbn [concat app] in Hd.
    apply elem_of_cons in Hd as [->|Hd]; [by vm_compute|].
    apply list_elem_of_singleton in Hd as ->. by vm_compute.
  - exact Hpresence.
Qed.

Lemma X9_consensus_output_invariants_witness :
  ∃ present consensus,
    (∀ d, d ∈ concat [[det_09]; [det_02]] → parent_id d = "img")
    ∧ Forall (λ m, parent_id m = "img" ∧ (ratio 3 10 ≤ confidence m)%Qc) consensus
    ∧ (length consensus ≤ length (concat [[det_09]; [det_02]]))%nat
    ∧ (present = true → consensus ≠ []).
Proof.
  destruct sample_consensus as (present & confidences & merged & Hres).
  exists present, [merged].
  exact (X9_consensus_output_invariants _ _ _ _ _ _ _ _ _ _ _ _ _ _ _ _ Hres).
Defined.

Lemma StronglySorted_lt_NoDup (l : list nat) : StronglySorted lt l → NoDup l.
Proof.
  induction 1 as [|x l _ IH Hx]; [apply NoDup_nil_2|].
  apply NoDup_cons. split; [|done].
  intros Hin. rewrite Forall_forall in Hx. specialize (Hx _ Hin). lia.
Qed.

(** X10: the identifiers of the consensus detections of one image are
    identifiers drawn from the supply of [uuid4], at strictly increasing
    positions, and the supply handed back is the given one without the
    identifiers drawn; so the identifiers are pairwise distinct when
    [uuid4] never repeats itself. *)
Theorem X10_consensus_identifiers_are_fresh predictions required_votes
    class_aware iou_threshold confidence_threshold classes_to_consider
    required_objects m_presence m_confidence m_boxes s parent present
    confidences consensus s' :
  resolve_batch_consensus predictions required_votes class_aware iou_threshold
    confidence_threshold classes_to_consider required_objects
    m_presence m_confidence m_boxes s
  = Ok (parent, present, confidences, consensus, s') →
  ∃ (positions : list nat) (drawn : nat),
    detection_id <$> consensus = s <$> positions
    ∧ StronglySorted lt positions
    ∧ Forall (λ i, (i < drawn)%nat) positions
    ∧ (∀ n, s' n = s (drawn + n)%nat)
    ∧ (Inj (=) (=) s → NoDup (detection_id <$> consensus)).
Proof.
  intros Hres.
  apply resolve_batch_consensus_ok_inv in Hres as (_ & st & Hloop & -> & _).
  assert (Hinv : ∃ (positions : list nat) (drawn : nat),
             detection_id <$> consensus_detections st = s <$> positions
             ∧ StronglySorted lt positions
             ∧ Forall (λ i, (i < drawn)%nat) positions
             ∧ (∀ n, s' n = s (drawn + n)%nat)).
  { revert Hloop. unfold consensus_loop.
    apply (foldlM_exec_invariant
             (λ st s1, ∃ (positions : list nat) (drawn : nat),
                detection_id <$> consensus_detections st = s <$> positions
                ∧ StronglySorted lt positions
                ∧ Forall (λ i, (i < drawn)%nat) positions
                ∧ (∀ n, s1 n = s (drawn + n)%nat))).
    - exists [], 0%nat. repeat split; [constructor | constructor].
    - intros st1 [source_id d] st2 s1 s2
        (positions & drawn & Hids & Hsorted & Hbound & Hs1) _ Hit.
      apply consensus_iteration_cases in Hit
        as [[-> [->| ->]]|(matched & merged & -> & -> & Hid & _)].
      + by exists positions, drawn.
      + exists positions, (S drawn). split; [done|]. split; [done|]. split.
        * eapply Forall_impl; [done|]. simpl. lia.
        * intros n. rewrite Hs1. f_equal. lia.
      + exists (positions ++ [drawn]), (S drawn).
        cbn [accept consensus_detections]. split; [|split; [|split]].
        * rewrite !fmap_app, Hids. simpl. rewrite Hid, Hs1. do 3 f_equal. lia.
        * apply StronglySorted_app_2; [|done|repeat constructor].
          intros i j Hi ->%list_elem_of_singleton.
          rewrite Forall_forall in Hbound. by apply Hbound.
        * apply Forall_app. split.
          -- eapply Forall_impl; [done|]. simpl. lia.
          -- apply Forall_singleton. lia.
        * intros n. rewrite Hs1. f_equal. lia. }
  destruct Hinv as (positions & drawn & Hids & Hsorted & Hbound & Hs').
  exists positions, drawn. repeat split; try done.
  intros Hinj. rewrite Hids.
  apply (NoDup_fmap_2 s), StronglySorted_lt_NoDup, Hsorted.
Qed.

Lemma sample_uuids_inj : Inj (=) (=) sample_uuids.
Proof.
  intros i j Hij. unfold sample_uuids in Hij.
  apply (inj (String.app "uuid-")) in Hij. by apply (inj pretty) in Hij.
Qed.

Lemma X10_consensus_identifiers_are_fresh_witness :
  ∃ consensus (positions : list nat) (drawn : nat),
    detection_id <$> consensus = sample_uuids <$> positions
    ∧ StronglySorted lt positions
    ∧ Forall (λ i, (i < drawn)%nat) positions
    ∧ (∀ n, sample_uuids (S n) = sample_uuids (drawn + n)%nat)
    ∧ (Inj (=) (=) sample_uuids → NoDup (detection_id <$> consensus)).
Proof.
  destruct sample_consensus as (present & confidences & merged & Hres).
  exists [merged].
  exact (X10_consensus_identifiers_are_fresh _ _ _ _ _ _ _ _ _ _ _ _ _ _ _ _
           Hres).
Defined.

(** ** When the consensus of one image returns *)

Lemma foldlM_exec_defined {A B : Type} (f : A → B → exec A) (l : list B)
    (a : A) (s : uuid_supply) :
  (∀ a b s, b ∈ l → ∃ a' s', f a b s = Ok (a', s')) →
  ∃ r s', foldlM f a l s = Ok (r, s').
Proof.
  revert a s. induction l as [|b l IH]; intros a s Hdef.
  - by eexists _, _.
  - destruct (Hdef a b s) as (a' & s1 & Hf); [left|].
    destruct (IH a' s1) as (r & s' & Hr); [intros; apply Hdef; by right|].
    exists r, s'. cbn [foldlM]. by erewrite exec_bind_ok.
Qed.

Lemma consensus_loop_defined (predictions : list (list detection))
    (required_votes : Z) (class_aware : bool)
    (iou_threshold confidence_threshold : Qc)
    (m_confidence m_boxes : AggregationMode) (s : uuid_supply) :
  (∀ d, d ∈ concat predictions → nonnegative_extent d) →
  ∃ st s',
    consensus_loop predictions required_votes class_aware iou_threshold
      confidence_threshold m_confidence m_boxes s = Ok (st, s').
Proof.
  intros Hext. unfold consensus_loop. apply foldlM_exec_defined.
  intros st [source_id d] s1 Hin.
  apply elem_of_enumerate_detections in Hin as (_ & ds & Hl & Hd).
  assert (Hdext : nonnegative_extent d).
  { apply Hext, elem_of_concat. exists ds. split; [|done].
    by eapply list_elem_of_lookup_2. }
  destruct (max_overlap_defined d source_id predictions iou_threshold class_aware
              (detections_already_considered st) Hdext Hext) as [matches Hm].
  destruct (consensus_iteration_spec predictions required_votes class_aware
              iou_threshold confidence_threshold m_confidence m_boxes st
              source_id d s1 matches Hm) as (merged & _ & ->).
  destruct (decide _); [destruct (Qc_leb _ _)|]; by eexists _, _.
Qed.

(** X11: the consensus of one image returns a result, and reports the shared
    parent identifier, whenever the sources hold at least one detection, all
    detections have the same parent identifier and a box of non-negative
    width and height, and, for a class-aware consensus, [required_objects]
    maps classes to minimum counts of at least 1. *)
Theorem X11_consensus_returns (predictions : list (list detection)) (p : string)
    required_votes class_aware iou_threshold confidence_threshold
    classes_to_consider required_objects m_presence m_confidence m_boxes
    (s : uuid_supply) :
  concat predictions ≠ [] →
  (∀ d, d ∈ concat predictions → parent_id d = p ∧ nonnegative_extent d) →
  (class_aware = true →
   ∃ m, required_objects = Some (RequiredPerClass m)
        ∧ ∀ c n, m !! c = Some n → 1 ≤ n) →
  ∃ present confidences consensus s',
    resolve_batch_consensus predictions required_votes class_aware iou_threshold
      confidence_threshold classes_to_consider required_objects
      m_presence m_confidence m_boxes s
    = Ok (p, present, confidences, consensus, s').
Proof.
  intros Hne Hall Hreq.
  destruct (consensus_loop_defined
              (filter_predictions predictions 0%Qc classes_to_consider)
              required_votes class_aware iou_threshold confidence_threshold
              m_confidence m_boxes s) as (st & s' & Hloop).
  { intros d Hd%filter_predictions_concat. by apply Hall. }
  assert (∃ present confidences,
            check_objects_presence_in_consensus_predictions
              (consensus_detections st) class_aware m_presence required_objects
            = Ok (present, confidences)) as (present & confidences & Hp).
  { destruct class_aware.
    - destruct Hreq as (m & -> & Hpos); [done|].
      destruct (decide (consensus_detections st = [])) as [->|Hst].
      + by eexists _, _.
      + destruct (check_objects_presence_per_class _ m_presence m Hst Hpos)
          as (present & confidences & Hp & _).
        by exists present, confidences.
    - destruct (check_objects_presence_class_unaware (consensus_detections st)
                  m_presence required_objects) as ([present confidences] & Hp).
      by exists present, confidences. }
  exists present, confidences, (consensus_detections st), s'.
  apply resolve_batch_consensus_ok_intro; [|done|done].
  apply get_parent_id_shared; [done|]. intros d Hd. by apply Hall.
Qed.

Lemma X11_consensus_returns_witness :
  ∃ present confidences consensus s',
    resolve_batch_consensus [[det_09]; [det_02; det_far]] 2 true (ratio 3 10)
      (ratio 3 10) None (Some (RequiredPerClass {["cat" := 1]}))
      AVERAGE AVERAGE AVERAGE sample_uuids
    = Ok ("img", present, confidences, consensus, s').
Proof.
  apply X11_consensus_returns.
  - done.
  - intros d Hd. cbn [concat app] in Hd.
    repeat (apply elem_of_cons in Hd as [->|Hd];
            [split; [done | split; by vm_compute]|]).
    by apply elem_of_nil in Hd.
  - intros _. exists {["cat" := 1]}. split; [done|].
    intros c n [<- <-]%lookup_singleton_Some. done.
Defined.

(** ** The presence verdict *)

(** X12: a class-unaware presence check always returns. Objects are present
    exactly when the consensus is not empty and holds at least the required
    number of detections - the given count, the sum of the minima of a
    per-class requirement, or 0 without a requirement. When present, the one
    confidence, under the key any_object, is the aggregate of the confidences
    of all consensus detections; when not, no confidence is reported. *)
Theorem X12_class_unaware_presence (consensus : list detection)
    (mode : AggregationMode) (required_objects : option required_objects_value) :
  ∃ present confidences,
    check_objects_presence_in_consensus_predictions consensus false mode
      required_objects = Ok (present, confidences)
    ∧ (present = true
       ↔ consensus ≠ []
         ∧ required_total required_objects ≤ Z.of_nat (length consensus))
    ∧ (present = true →
       ∃ v, aggregate_field_values consensus confidence mode = Ok v
            ∧ confidences = {["any_object" := v]})
    ∧ (present = false → confidences = ∅).
Proof.
  unfold check_objects_presence_in_consensus_predictions.
  destruct (decide _) as [Hnil|Hne].
  { exists false, ∅. split; [done|]. split; [|done].
    split; [done|]. intros [Hc _]. by destruct consensus. }
  destruct consensus as [|d l]; [done|].
  destruct (aggregate_field_values_nonempty d l confidence mode) as [v Hv].
  cbn [negb].
  set (n := required_total required_objects).
  assert (Hbelow :
    (match match default (RequiredCount 0) required_objects with
           | RequiredCount _ => default (RequiredCount 0) required_objects
           | RequiredPerClass m => RequiredCount (map_fold (λ _ v acc, v + acc) 0 m)
           end with
     | RequiredCount k => Ok (bool_decide (Z.of_nat (length (d :: l)) < k))
     | RequiredPerClass _ => Raise TypeError
     end) = Ok (bool_decide (Z.of_nat (length (d :: l)) < n))).
  { subst n. by destruct required_objects as [[k|m]|]. }
  rewrite Hbelow. cbn [mbind result_bind].
  case_bool_decide as Hlt.
  - exists false, ∅. split; [done|]. split; [|done]. split; [done|].
    intros [_ Hle]. lia.
  - rewrite Hv. cbn [mbind result_bind]. eexists true, _. split; [done|].
    split; [|split; [eauto | done]]. split; [|done]. intros _. split; [done | lia].
Qed.

(** The confidences the class-aware verdict reports, entry by entry. *)
Lemma mapM_aggregate_inv (mode : AggregationMode)
    (entries : list (string * list detection)) (confidences : list (string * Qc)) :
  mapM (M := result)
    (λ entry : string * list detection,
       c ← aggregate_field_values entry.2 confidence mode; Ok (entry.1, c))
    entries = Ok confidences →
  fst <$> confidences = fst <$> entries
  ∧ ∀ c v, (c, v) ∈ confidences
           ↔ ∃ ds, (c, ds) ∈ entries
                   ∧ aggregate_field_values ds confidence mode = Ok v.
Proof.
  revert confidences. induction entries as [|[c0 ds0] entries IH];
    intros confidences Hm.
  - injection Hm as <-. split; [done|]. intros c v. split.
    + by intros ?%elem_of_nil.
    + by intros (ds & ?%elem_of_nil & _).
  - cbn [mapM] in Hm.
    apply result_bind_inv in Hm as ([c1 v1] & Hhead & Hm).
    apply result_bind_inv in Hhead as (v0 & Hv0 & [= <- <-]).
    apply result_bind_inv in Hm as (rest & Hrest & [= <-]).
    destruct (IH _ Hrest) as [Hkeys Helem]. split.
    + by rewrite !fmap_cons, Hkeys.
    + intros c v. rewrite elem_of_cons, Helem. split.
      * intros [[= -> ->]|(ds & Hin & Hv)].
        -- exists ds0. split; [left | done].
        -- exists ds. split; [by right | done].
      * intros (ds & [[= -> ->]|Hin]%elem_of_cons & Hv).
        -- left. cbn [snd] in Hv0. congruence.
        -- right. eauto.
Qed.

(** X13: a class-aware presence check against per-class minimum counts that
    are all at least 1, on a consensus that is not empty, returns. Objects
    are present exactly when every named class has at least its minimum of
    consensus detections. When present, a confidence is reported for exactly
    the classes of the consensus detections, and it is the aggregate of the
    confidences of the consensus detections of that class; when not, no
    confidence is reported. *)
Theorem X13_class_aware_presence (consensus : list detection)
    (mode : AggregationMode) (required : gmap string Z) :
  consensus ≠ [] →
  (∀ c n, required !! c = Some n → 1 ≤ n) →
  ∃ present confidences,
    check_objects_presence_in_consensus_predictions consensus true mode
      (Some (RequiredPerClass required)) = Ok (present, confidences)
    ∧ (present = true
       ↔ ∀ c n, required !! c = Some n →
                n ≤ Z.of_nat (length (of_class c consensus)))
    ∧ (present = true →
       ∀ c v, confidences !! c = Some v
              ↔ of_class c consensus ≠ []
                ∧ aggregate_field_values (of_class c consensus) confidence mode
                  = Ok v)
    ∧ (present = false → confidences = ∅).
Proof.
  intros Hne Hpos.
  destruct (check_objects_presence_per_class consensus mode required Hne Hpos)
    as (present & confidences & Hcheck & Hiff & Hempty).
  exists present, confidences. split; [done|]. split; [done|]. split; [|done].
  intros ->. revert Hcheck.
  unfold check_objects_presence_in_consensus_predictions.
  rewrite decide_False by (by destruct consensus).
  cbn [from_option id negb mbind result_bind].
  rewrite check_required_classes_positive.
  2:{ apply Forall_forall. intros [c n] Hin%elem_of_map_to_list.
      by eapply Hpos. }
  destruct (decide _) as [_|_]; [|discriminate].
  intros Hcheck. apply result_bind_inv in Hcheck as (l & Hl & [= <-]).
  apply mapM_aggregate_inv in Hl as [Hkeys Helem].
  intros c v. rewrite <- elem_of_list_to_map.
  2:{ rewrite Hkeys. apply NoDup_fst_map_to_list. }
  rewrite Helem. split.
  - intros (ds & Hin%elem_of_map_to_list & Hv).
    rewrite group_by_class_lookup in Hin.
    destruct (of_class c consensus) as [|x xs] eqn:E; [done|].
    injection Hin as <-. done.
  - intros [Hc Hv]. exists (of_class c consensus). split; [|done].
    apply elem_of_map_to_list. rewrite group_by_class_lookup.
    by destruct (of_class c consensus).
Qed.

Lemma X13_class_aware_presence_witness :
  ∃ present confidences,
    check_objects_presence_in_consensus_predictions [det_09; det_02] true MAX
      (Some (RequiredPerClass {["cat" := 2]})) = Ok (present, confidences)
    ∧ (present = true
       ↔ ∀ c n, ({["cat" := 2]} : gmap string Z) !! c = Some n →
                n ≤ Z.of_nat (length (of_class c [det_09; det_02])))
    ∧ (present = true →
       ∀ c v, confidences !! c = Some v
              ↔ of_class c [det_09; det_02] ≠ []
                ∧ aggregate_field_values (of_class c [det_09; det_02])
                    confidence MAX = Ok v)
    ∧ (present = false → confidences = ∅).
Proof.
  apply X13_class_aware_presence; [done|].
  intros c n [<- <-]%lookup_singleton_Some. done.
Defined.

(** ** The consensus step on a batch of images *)

Lemma mapM_result_inv {A B : Type} (f : A → result B) (l : list A) (rs : list B) :
  mapM f l = Ok rs → Forall2 (λ a r, f a = Ok r) l rs.
Proof.
  revert rs. induction l as [|a l IH]; intros rs Hm.
  - injection Hm as <-. constructor.
  - cbn [mapM] in Hm. apply result_bind_inv in Hm as (r & Hr & Hm).
    apply result_bind_inv in Hm as (rs' & Hrs & [= <-]).
    constructor; [done | by apply IH].
Qed.

Lemma mapM_exec_inv {A B : Type} (f : A → exec B) (l : list A) (rs : list B)
    (s s' : uuid_supply) :
  mapM f l s = Ok (rs, s') → Forall2 (λ a r, ∃ s1 s2, f a s1 = Ok (r, s2)) l rs.
Proof.
  revert rs s. induction l as [|a l IH]; intros rs s Hm.
  - injection Hm as <- _. constructor.
  - cbn [mapM] in Hm. apply exec_bind_inv in Hm as (r & s1 & Hr & Hm).
    apply exec_bind_inv in Hm as (rs' & s2 & Hrs & Hret).
    injection Hret as <- <-.
    constructor; [eauto | by eapply IH].
Qed.

(** With batch size 1 the sources are taken as they are: a source that is a
    list of lists of detections cannot be read. *)
Lemma batch_elements_of_one_image_batch (all_predictions : list predictions_value)
    (ds : list detection) (rest : list (list detection)) :
  Nested (ds :: rest) ∈ all_predictions →
  mapM (M := result) (batch_element 1 0) all_predictions = Raise TypeError.
Proof.
  induction all_predictions as [|e l IH]; intros Hin.
  - by apply elem_of_nil in Hin.
  - cbn [mapM]. apply elem_of_cons in Hin as [<-|Hin]; [done|].
    destruct e as [fl|[|ds' rest']]; cbn; [| |done].
    + by rewrite IH.
    + by rewrite IH.
Qed.

(** X14: a batch of exactly one image cannot be passed in batch form. When
    every source has batch size 1 and one of them is a list holding the list
    of detections of one image, the step raises [TypeError], whatever the
    detections and the parameters. *)
Theorem X14_one_image_in_batch_form_raises {I : Type} (name : string)
    (all_predictions : list predictions_value) (images_meta : meta_value I)
    (ds : list detection)
    required_votes class_aware iou_threshold confidence_threshold
    classes_to_consider required_objects m_presence m_confidence m_boxes
    (s : uuid_supply) :
  Forall (λ e, get_batch_size e = 1%nat) all_predictions →
  Nested [ds] ∈ all_predictions →
  run_detections_consensus_step name all_predictions images_meta required_votes
    class_aware iou_threshold confidence_threshold classes_to_consider
    required_objects m_presence m_confidence m_boxes s
  = Raise TypeError.
Proof.
  intros Hsizes Hin. unfold run_detections_consensus_step.
  assert (Hb : get_predictions_batch_sizes all_predictions
               = replicate (length all_predictions) 1%nat).
  { clear Hin. unfold get_predictions_batch_sizes.
    induction Hsizes as [|e l He _ IH]; [done|].
    rewrite fmap_cons, He. cbn [length replicate]. by f_equal. }
  destruct all_predictions as [|e l] eqn:E; [by apply elem_of_nil in Hin|].
  rewrite <- E in *.
  rewrite decide_False by (rewrite E; simpl; lia).
  unfold get_and_validate_batch_sizes.
  rewrite Hb, all_batch_sizes_equal_replicate.
  cbn [negb]. erewrite exec_bind_ok by reflexivity.
  rewrite E at 1. cbn [length replicate first].
  erewrite exec_bind_ok by reflexivity.
  cbn [seq mapM].
  unfold mbind at 1, exec_bind at 1. unfold mbind at 1, exec_bind at 1.
  unfold mbind at 1, exec_bind at 1.
  by rewrite (batch_elements_of_one_image_batch _ ds []).
Qed.

Lemma X14_one_image_in_batch_form_raises_witness :
  run_detections_consensus_step "consensus" [Flat [det_09]; Nested [[det_02]]]
    (MetaOne tt) 2 false (ratio 3 10) (ratio 3 10) None None
    AVERAGE AVERAGE AVERAGE sample_uuids
  = Raise TypeError.
Proof.
  apply (X14_one_image_in_batch_form_raises _ _ _ [det_02]).
  - repeat constructor.
  - right. left.
Defined.

(** X15: on a batch of two or more images the step returns one result per
    image, in the order of the images. The result at position [i] is the
    consensus of the [i]-th list of detections of every source, and carries
    the [i]-th entry of the image metadata; every source holds as many
    lists as there are results. *)
Theorem X15_one_result_per_image {I : Type} (name : string)
    (sources : list (list (list detection))) (first_source : list (list detection))
    (images_meta : meta_value I)
    required_votes class_aware iou_threshold confidence_threshold
    classes_to_consider required_objects m_presence m_confidence m_boxes
    (s s' : uuid_supply) (out : step_output I) :
  head sources = Some first_source →
  (2 ≤ length first_source)%nat →
  run_detections_consensus_step name (Nested <$> sources) images_meta
    required_votes class_aware iou_threshold confidence_threshold
    classes_to_consider required_objects m_presence m_confidence m_boxes s
  = Ok (out, s') →
  ∃ results,
    out = BatchResults results
    ∧ Forall (λ source, length source = length results) sources
    ∧ ∀ i r, results !! i = Some r →
        ∃ batch_predictions metas m s1 s2,
          Forall2 (λ source detections, source !! i = Some detections)
            sources batch_predictions
          ∧ resolve_batch_consensus batch_predictions required_votes class_aware
              iou_threshold confidence_threshold classes_to_consider
              required_objects m_presence m_confidence m_boxes s1
            = Ok (res_parent_id r, res_object_present r,
                  res_presence_confidence r, res_predictions r, s2)
          ∧ images_meta = MetaMany metas
          ∧ metas !! i = Some m
          ∧ res_image r = MetaOne m.
Proof.
  intros Hhead Hlen. unfold run_detections_consensus_step.
  destruct (decide _); [discriminate|]. intros Hstep.
  apply exec_bind_inv in Hstep as (batch_sizes & s0 & Hsizes & Hstep).
  apply lift_inv in Hsizes as [Hsizes ->].
  apply exec_bind_inv in Hstep as (batch_size & s0 & Hfirst & Hstep).
  apply lift_inv in Hfirst as [Hfirst ->].
  apply exec_bind_inv in Hstep as (results & s0 & Hresults & Hstep).
  unfold get_and_validate_batch_sizes in Hsizes.
  destruct (all_batch_sizes_equal _) eqn:Hequal; [|discriminate].
  injection Hsizes as <-.
  destruct sources as [|source0 rest]; [discriminate|].
  injection Hhead as ->.
  assert (Hbs : batch_size = length first_source).
  { unfold get_predictions_batch_sizes in Hfirst. rewrite !fmap_cons in Hfirst.
    injection Hfirst as <-. destruct first_source as [|? [|? ?]]; simpl in *; [lia|lia|done]. }
  assert (Hall : Forall (λ source, length source = batch_size)
                   (first_source :: rest)).
  { apply Forall_forall. intros source Hin.
    apply all_batch_sizes_equal_spec with
      (a := get_batch_size (Nested source))
      (b := get_batch_size (Nested first_source)) in Hequal.
    - rewrite Hbs. revert Hequal.
      destruct source as [|? ?], first_source as [|? [|? ?]]; simpl in *; lia.
    - unfold get_predictions_batch_sizes. rewrite <- list_fmap_compose.
      by apply (list_elem_of_fmap_2 (get_batch_size ∘ Nested)).
    - unfold get_predictions_batch_sizes. rewrite !fmap_cons. left. }
  rewrite decide_False in Hstep by lia. injection Hstep as <- _.
  exists results.
  apply mapM_exec_inv in Hresults.
  assert (Hrl : length results = batch_size).
  { apply Forall2_length in Hresults. by rewrite length_seq in Hresults. }
  split; [done|]. split; [by rewrite Hrl|].
  intros i r Hr.
  assert (Hi : seq 0 batch_size !! i = Some i).
  { apply lookup_seq. split; [done|]. apply lookup_lt_Some in Hr. lia. }
  destruct (Forall2_lookup_lr _ _ _ _ _ _ Hresults Hi Hr) as (s1 & s2 & Hbody).
  apply exec_bind_inv in Hbody as (batch_predictions & s3 & Hbp & Hbody).
  apply lift_inv in Hbp as [Hbp ->].
  apply exec_bind_inv in Hbody
    as ([[[parent present] confidences] consensus] & s4 & Hres & Hbody).
  apply exec_bind_inv in Hbody as (img & s5 & Himg & Hbody).
  apply lift_inv in Himg as [Himg ->]. injection Hbody as <- <-.
  unfold batch_image in Himg. rewrite decide_False in Himg by lia.
  destruct images_meta as [?|metas]; [discriminate|].
  destruct (metas !! i) as [m|] eqn:Hm; [|discriminate]. injection Himg as <-.
  exists batch_predictions, metas, m, s1, s4.
  split; [|by repeat split].
  apply mapM_result_inv in Hbp. apply Forall2_fmap_l in Hbp.
  eapply Forall2_impl; [exact Hbp|].
  intros source detections Hel. unfold compose, batch_element in Hel.
  rewrite decide_False in Hel by lia.
  by destruct (source !! i); simplify_eq.
Qed.

Lemma sample_batch_returns :
  ∃ out s',
    run_detections_consensus_step "consensus"
      (Nested <$> [[[det_09]; [det_07]]; [[det_02]; [det_far]]])
      (MetaMany [1%nat; 2%nat]) 1 false (ratio 3 10) (ratio 3 10) None None
      AVERAGE AVERAGE AVERAGE sample_uuids
    = Ok (out, s').
Proof.
  destruct (run_detections_consensus_step _ _ _ _ _ _ _ _ _ _ _ _ _)
    as [[out s']|e] eqn:E; [by eexists _, _|].
  exfalso.
  assert (H : match run_detections_consensus_step "consensus"
                      (Nested <$> [[[det_09]; [det_07]]; [[det_02]; [det_far]]])
                      (MetaMany [1%nat; 2%nat]) 1 false (ratio 3 10) (ratio 3 10)
                      None None AVERAGE AVERAGE AVERAGE sample_uuids with
              | Ok _ => true
              | Raise _ => false
              end = true) by (vm_compute; reflexivity).
  by rewrite E in H.
Qed.

Lemma X15_one_result_per_image_witness :
  ∃ results : list (consensus_result nat),
    Forall (λ source, length source = length results)
      [[[det_09]; [det_07]]; [[det_02]; [det_far]]]
    ∧ ∀ i r, results !! i = Some r →
        ∃ batch_predictions metas m s1 s2,
          Forall2 (λ source detections, source !! i = Some detections)
            [[[det_09]; [det_07]]; [[det_02]; [det_far]]] batch_predictions
          ∧ resolve_batch_consensus batch_predictions 1 false (ratio 3 10)
              (ratio 3 10) None None AVERAGE AVERAGE AVERAGE s1
            = Ok (res_parent_id r, res_object_present r,
                  res_presence_confidence r, res_predictions r, s2)
          ∧ MetaMany [1%nat; 2%nat] = MetaMany metas
          ∧ metas !! i = Some m
          ∧ res_image r = MetaOne m.
Proof.
  destruct sample_batch_returns as (out & s' & Hstep).
  destruct (X15_one_result_per_image _
              [[[det_09]; [det_07]]; [[det_02]; [det_far]]] [[det_09]; [det_07]]
              _ _ _ _ _ _ _ _ _ _ _ _ _ eq_refl ltac:(simpl; lia) Hstep)
    as (results & _ & H).
  by exists results.
Defined.

(** * Properties of the steps that rewrite predictions *)

(** ** DetectionOffset step *)

Lemma mapM_offset_detection (l : list detection) (offset_x offset_y : Qc)
    (s : uuid_supply) :
  mapM (M := exec) (λ d, offset_detection d offset_x offset_y) l s
  = Ok (offset_all l offset_x offset_y s, λ n, s (length l + n)%nat).
Proof.
  unfold offset_all.
  revert s. induction l as [|d l IH]; intros s; [reflexivity|].
  cbn [mapM]. erewrite exec_bind_ok by apply offset_detection_spec.
  erewrite exec_bind_ok by apply IH. reflexivity.
Qed.

Lemma parent_id_offset_all (l : list detection) (offset_x offset_y : Qc)
    (ids : nat → string) :
  parent_id <$> offset_all l offset_x offset_y ids = detection_id <$> l.
Proof.
  unfold offset_all. revert ids. induction l as [|d l IH]; intros ids; [done|].
  cbn [imap fmap list_fmap]. f_equal. apply (IH (ids ∘ S)).
Qed.

Lemma detection_id_offset_all (l : list detection) (offset_x offset_y : Qc)
    (ids : nat → string) :
  detection_id <$> offset_all l offset_x offset_y ids = ids <$> seq 0 (length l).
Proof.
  unfold offset_all. revert ids. induction l as [|d l IH]; intros ids; [done|].
  cbn [imap fmap list_fmap length seq]. f_equal.
  rewrite <- fmap_S_seq, <- list_fmap_compose. apply (IH (ids ∘ S)).
Qed.

Lemma mapM_offset_item_flat (l : list detection) (offset_x offset_y : Qc)
    (s : uuid_supply) :
  mapM (M := exec) (offset_item offset_x offset_y) (One <$> l) s
  = Ok (imap (λ i d, (One (offset_as d offset_x offset_y (s i)),
                      One (parent_id d))) l,
        λ n, s (length l + n)%nat).
Proof.
  revert s. induction l as [|d l IH]; intros s; [reflexivity|].
  rewrite fmap_cons. cbn [mapM offset_item].
  erewrite exec_bind_ok; [|erewrite exec_bind_ok by apply offset_detection_spec;
                            reflexivity].
  erewrite exec_bind_ok by apply IH. reflexivity.
Qed.

(** X16: on a flat list of detections the DetectionOffset step never raises
    and keeps the order. The detection stored at position [i] is the input
    detection with the [i]-th fresh identifier, its width and height grown
    by the rounded offsets, and the input detection's identifier as
    [parent_id]; yet the [parent_id] list stored next to the predictions
    holds the parent identifiers the input detections came with, not those
    of the stored predictions. The image metadata is passed on as it is. *)
Theorem X16_offset_step_on_flat_predictions {I K : Type} (keys : I → list K)
    (l : list detection) (images_meta : meta_value I) (offset_x offset_y : Qc)
    (s : uuid_supply) :
  run_detection_offset_step keys (One <$> l) images_meta offset_x offset_y s
  = Ok (FlatValue (One <$> offset_all l offset_x offset_y s)
          (One <$> (parent_id <$> l)) images_meta,
        λ n, s (length l + n)%nat)
  ∧ parent_id <$> offset_all l offset_x offset_y s = detection_id <$> l
  ∧ detection_id <$> offset_all l offset_x offset_y s = s <$> seq 0 (length l).
Proof.
  split; [|split].
  - unfold run_detection_offset_step.
    erewrite exec_bind_ok by apply mapM_offset_item_flat.
    assert (Hflat : existsb is_list (One <$> l) = false).
    { induction l as [|d l' IH]; [done|]. by rewrite fmap_cons. }
    rewrite Hflat. unfold store_results, mret, exec_ret. do 2 f_equal.
    f_equal.
    + unfold offset_all. generalize s. clear.
      induction l as [|d l IH]; intros s; [done|].
      cbn [imap fmap list_fmap]. f_equal. apply (IH (s ∘ S)).
    + generalize s. clear.
      induction l as [|d l IH]; intros s; [done|].
      cbn [imap fmap list_fmap]. f_equal. apply (IH (s ∘ S)).
  - apply parent_id_offset_all.
  - apply detection_id_offset_all.
Qed.

Lemma offset_all_ext (l : list detection) (offset_x offset_y : Qc)
    (ids ids' : nat → string) :
  (∀ j, ids j = ids' j) →
  offset_all l offset_x offset_y ids = offset_all l offset_x offset_y ids'.
Proof.
  intros Hext. unfold offset_all. apply imap_ext. intros j d _. simpl.
  by rewrite Hext.
Qed.

Lemma mapM_offset_item_nested (lss : list (list detection))
    (offset_x offset_y : Qc) (s : uuid_supply) :
  ∃ results s',
    mapM (M := exec) (offset_item offset_x offset_y) (Many <$> lss) s
    = Ok (results, s')
    ∧ (∀ n, s' n = s (length (concat lss) + n)%nat)
    ∧ length results = length lss
    ∧ ∀ i ls, lss !! i = Some ls →
        results !! i
        = Some (Many (offset_all ls offset_x offset_y
                        (λ j, s (length (concat (take i lss)) + j)%nat)),
                Many (detection_id <$> ls)).
Proof.
  revert s. induction lss as [|ls0 lss IH]; intros s.
  - exists [], s. repeat split; try done.
  - destruct (IH (λ n, s (length ls0 + n)%nat))
      as (results & s' & Hm & Hs' & Hlen & Hlookup).
    eexists _, s'. split; [|split; [|split]].
    + rewrite fmap_cons. cbn [mapM offset_item].
      erewrite exec_bind_ok;
        [|erewrite exec_bind_ok by apply mapM_offset_detection; reflexivity].
      erewrite exec_bind_ok by exact Hm. reflexivity.
    + intros n. rewrite Hs'. cbn [concat]. rewrite length_app. f_equal. lia.
    + simpl. by rewrite Hlen.
    + intros [|i] ls Hl.
      * injection Hl as ->. rewrite lookup_cons. cbn [take concat length].
        by rewrite parent_id_offset_all.
      * rewrite lookup_cons in Hl. rewrite lookup_cons, (Hlookup i ls Hl).
        do 3 f_equal. apply offset_all_ext. intros j.
        cbn [take concat]. rewrite length_app. f_equal. lia.
Qed.

(** X17: on a batch (a list of lists of detections, with a list of image
    metadata) the DetectionOffset step never raises and stores one entry per
    image, in order, as many as there are both lists of detections and
    metadata entries. The entry of image [i] holds the offset detections of
    the [i]-th list, with identifiers drawn in order after those of the
    earlier images, the identifiers of the input detections as parent
    identifiers, and the [i]-th metadata entry. *)
Theorem X17_offset_step_on_batches {I K : Type} (keys : I → list K)
    (lss : list (list detection)) (metas : list I) (offset_x offset_y : Qc)
    (s : uuid_supply) :
  lss ≠ [] →
  ∃ entries s',
    run_detection_offset_step keys (Many <$> lss) (MetaMany metas)
      offset_x offset_y s = Ok (NestedValue entries, s')
    ∧ (∀ n, s' n = s (length (concat lss) + n)%nat)
    ∧ length entries = (length lss `min` length metas)%nat
    ∧ ∀ i ls m, lss !! i = Some ls → metas !! i = Some m →
        entries !! i
        = Some (mk_image_entry
                  (Many (offset_all ls offset_x offset_y
                           (λ j, s (length (concat (take i lss)) + j)%nat)))
                  (Many (detection_id <$> ls)) (inl m)).
Proof.
  intros Hne.
  destruct (mapM_offset_item_nested lss offset_x offset_y s)
    as (results & s' & Hm & Hs' & Hlen & Hlookup).
  eexists _, s'. split; [|split; [done|split]].
  - unfold run_detection_offset_step. erewrite exec_bind_ok by exact Hm.
    assert (Hnested : existsb is_list (Many <$> lss) = true).
    { destruct lss; [done|]. by rewrite fmap_cons. }
    rewrite Hnested. reflexivity.
  - cbn [iterate_meta]. rewrite length_fmap, !length_zip_with, !length_fmap, Hlen. lia.
  - intros i ls m Hl Hmeta.
    rewrite list_lookup_fmap, !lookup_zip_with. cbn [iterate_meta].
    rewrite !list_lookup_fmap, (Hlookup i ls Hl), Hmeta. reflexivity.
Qed.

Lemma X17_offset_step_on_batches_witness :
  ∃ entries s',
    run_detection_offset_step (λ _ : nat, @nil string)
      (Many <$> [[det_09; det_02]; [det_far]]) (MetaMany [1%nat; 2%nat])
      (Zc 4) (Zc 2) sample_uuids = Ok (NestedValue entries, s')
    ∧ (∀ n, s' n
            = sample_uuids
                (length (concat [[det_09; det_02]; [det_far]]) + n)%nat)
    ∧ length entries
      = (length [[det_09; det_02]; [det_far]] `min` length [1%nat; 2%nat])%nat
    ∧ ∀ i ls m, [[det_09; det_02]; [det_far]] !! i = Some ls →
        [1%nat; 2%nat] !! i = Some m →
        entries !! i
        = Some (mk_image_entry
                  (Many (offset_all ls (Zc 4) (Zc 2)
                           (λ j, sample_uuids
                                   (length (concat (take i [[det_09; det_02];
                                                            [det_far]])) + j)%nat)))
                  (Many (detection_id <$> ls)) (inl m)).
Proof. by apply X17_offset_step_on_batches. Defined.

(** ** DetectionFilter step *)

Lemma build_filter_callable_first_unknown {V : Type} `{!Comparisons V}
    (definition : filter_definition V) :
  match first_unknown definition with
  | None => ∃ filter_callable, build_filter_callable definition = Ok filter_callable
  | Some type =>
      build_filter_callable definition
      = Raise (if decide (type = "CompoundDetectionFilterDefinition"
                          ∨ type = "DetectionFilterDefinition")
               then AttributeError else unknown_filter_definition type)
  end.
Proof.
  induction definition as [field operator reference|l IHl operator r IHr|type];
    cbn [first_unknown build_filter_callable].
  - by eexists.
  - destruct (first_unknown l) as [type|].
    + by rewrite IHl.
    + destruct IHl as [fl ->]. cbn [mbind result_bind].
      destruct (first_unknown r) as [type|].
      * by rewrite IHr.
      * destruct IHr as [fr ->]. by eexists.
  - by destruct (decide _).
Qed.

(** X18: a filter definition is checked when the callable is built, before
    any prediction is looked at. If, reading the definition from the left,
    the first object that is of neither class has a [type] other than the
    two class names, the step raises the [ExecutionGraphError] that names
    this type, for every input - also for an empty list of predictions; a
    definition made of the two classes only always yields a callable. *)
Theorem X18_filter_definition_is_checked_first {V I K : Type} `{!Comparisons V}
    (PARENT_ID_KEY : string) (keys : I → list K)
    (definition : filter_definition V) :
  (∀ type, first_unknown definition = Some type →
     type ≠ "CompoundDetectionFilterDefinition" →
     type ≠ "DetectionFilterDefinition" →
     ∀ predictions (images_meta : meta_value I),
       run_detection_filter PARENT_ID_KEY keys predictions images_meta definition
       = Raise (unknown_filter_definition type))
  ∧ (first_unknown definition = None →
     ∃ filter_callable,
       build_filter_callable definition = Ok filter_callable
       ∧ ∀ images_meta : meta_value I,
           run_detection_filter PARENT_ID_KEY keys [] images_meta definition
           = Ok (FlatValue [] [] images_meta)).
Proof.
  pose proof (build_filter_callable_first_unknown definition) as Hbuild.
  split.
  - intros type Htype Hc Hd predictions images_meta.
    rewrite Htype in Hbuild. unfold run_detection_filter. rewrite Hbuild.
    rewrite decide_False; [done|]. by intros [?|?].
  - intros Hnone. rewrite Hnone in Hbuild. destruct Hbuild as [f Hf].
    exists f. split; [done|]. intros images_meta.
    unfold run_detection_filter. by rewrite Hf.
Qed.

(** X19: a compound filter evaluates both operands on every prediction, the
    left one first: it raises what the left operand raises, else what the
    right operand raises, else it returns the conjunction or the disjunction
    of the two results. In particular [AND] with a false left operand, and
    [OR] with a true one, still raise when the right operand raises. *)
Theorem X19_compound_filter_evaluates_both_operands {V : Type} `{!Comparisons V}
    (left_definition right_definition : filter_definition V)
    (operator : BinaryOperator)
    (left_callable right_callable : gmap string V → result bool) :
  build_filter_callable left_definition = Ok left_callable →
  build_filter_callable right_definition = Ok right_callable →
  ∃ filter_callable,
    build_filter_callable
      (CompoundDetectionFilterDefinition left_definition operator right_definition)
    = Ok filter_callable
    ∧ (∀ e, filter_callable e
            = both_operands operator (left_callable e) (right_callable e))
    ∧ (∀ e a err, left_callable e = Ok a → right_callable e = Raise err →
                  filter_callable e = Raise err).
Proof.
  intros Hl Hr. cbn [build_filter_callable]. rewrite Hl, Hr.
  cbn [mbind result_bind]. eexists. split; [reflexivity|]. split.
  - intros e. unfold both_operands.
    destruct (left_callable e) as [a|err]; [|done].
    by destruct (right_callable e).
  - intros e a err -> ->. done.
Qed.

Lemma X19_compound_filter_evaluates_both_operands_witness :
  ∃ filter_callable,
    build_filter_callable
      (CompoundDetectionFilterDefinition (confidence_above (ratio 5 10)) AND
         (DetectionFilterDefinition "area" GREATER_THAN (Zc 4)))
    = Ok filter_callable
    ∧ (∀ e, filter_callable e
            = both_operands AND
                (v ← getitem e "confidence"; OPERATORS GREATER_THAN v (ratio 5 10))
                (v ← getitem e "area"; OPERATORS GREATER_THAN v (Zc 4)))
    ∧ (∀ e a err,
         (v ← getitem e "confidence"; OPERATORS GREATER_THAN v (ratio 5 10))
         = Ok a →
         (v ← getitem e "area"; OPERATORS GREATER_THAN v (Zc 4)) = Raise err →
         filter_callable e = Raise err).
Proof.
  by apply (X19_compound_filter_evaluates_both_operands
              (confidence_above (ratio 5 10))
              (DetectionFilterDefinition "area" GREATER_THAN (Zc 4)) AND).
Defined.

Lemma X18_filter_definition_is_checked_first_witness :
  run_detection_filter "parent_id" (λ _ : nat, @nil string)
    [One (sample_prediction (ratio 9 10) 1)] (MetaOne 1%nat)
    (CompoundDetectionFilterDefinition (confidence_above (ratio 5 10)) AND
       (OtherDefinition "ClassFilterDefinition"))
  = Raise (unknown_filter_definition "ClassFilterDefinition").
Proof.
  by apply (proj1 (X18_filter_definition_is_checked_first "parent_id"
                     (λ _ : nat, @nil string)
                     (CompoundDetectionFilterDefinition
                        (confidence_above (ratio 5 10)) AND
                        (OtherDefinition "ClassFilterDefinition")))
              "ClassFilterDefinition").
Defined.

Lemma comprehension_if_total {A : Type} (condition : A → result bool)
    (l : list A) :
  Forall (λ p, ∃ keep, condition p = Ok keep) l →
  comprehension_if condition l = Ok (List.filter (passes condition) l).
Proof.
  induction 1 as [|p l [keep Hp] _ IH]; [done|].
  cbn [comprehension_if List.filter]. unfold passes at 1.
  rewrite Hp, IH. cbn [mbind result_bind]. by destruct keep.
Qed.

Lemma mapM_getitem_total {V : Type} (key : string) (l : list (gmap string V)) :
  Forall (λ p, ∃ v, p !! key = Some v) l →
  ∃ values,
    mapM (M := result) (λ p, getitem p key) l = Ok values
    ∧ Forall2 (λ p v, p !! key = Some v) l values.
Proof.
  induction 1 as [|p l [v Hp] _ (values & IH & Hall)].
  - exists []. split; [done | constructor].
  - exists (v :: values). split; [|by constructor].
    assert (Hg : getitem p key = Ok v) by (unfold getitem; by rewrite Hp).
    cbn [mapM]. by rewrite Hg, IH.
Qed.

Lemma Forall_filter_passes {A : Type} (condition : A → result bool)
    (P : A → Prop) (l : list A) :
  Forall (λ p, passes condition p = true → P p) l →
  Forall P (List.filter (passes condition) l).
Proof.
  induction 1 as [|p l Hp _ IH]; [constructor|].
  cbn [List.filter]. destruct (passes condition p); [|done].
  constructor; [by apply Hp | done].
Qed.

Lemma mapM_filter_item_flat {V : Type} (PARENT_ID_KEY : string)
    (filter_callable : gmap string V → result bool) (ps : list (gmap string V)) :
  Forall (λ p, ∃ keep, filter_callable p = Ok keep) ps →
  Forall (λ p, passes filter_callable p = true →
               ∃ v, p !! PARENT_ID_KEY = Some v) ps →
  ∃ results parents,
    mapM (M := result) (filter_item PARENT_ID_KEY filter_callable) (One <$> ps)
    = Ok results
    ∧ fst <$> omap id results
      = One <$> List.filter (passes filter_callable) ps
    ∧ snd <$> omap id results = One <$> parents
    ∧ Forall2 (λ p v, p !! PARENT_ID_KEY = Some v)
        (List.filter (passes filter_callable) ps) parents.
Proof.
  induction 1 as [|p ps [keep Hp] _ IH]; intros Hkey.
  - exists [], []. repeat split; constructor.
  - apply Forall_cons in Hkey as [Hkp Hkey].
    destruct (IH Hkey) as (results & parents & Hm & Hfst & Hsnd & Hall).
    rewrite fmap_cons. cbn [mapM filter_item List.filter].
    assert (Hpass : passes filter_callable p = keep)
      by (unfold passes; by rewrite Hp).
    rewrite Hpass in Hkp |- *. rewrite Hp.
    cbn [mbind result_bind]. destruct keep.
    + destruct (Hkp eq_refl) as [v Hv].
      assert (Hg : getitem p PARENT_ID_KEY = Ok v)
        by (unfold getitem; by rewrite Hv).
      rewrite Hg, Hm. cbn [mbind result_bind].
      eexists _, (v :: parents). split; [reflexivity|].
      cbn [omap list_omap id fmap list_fmap]. rewrite <- Hfst, <- Hsnd.
      repeat split. by constructor.
    + rewrite Hm. cbn [mbind result_bind].
      eexists _, parents. split; [reflexivity|].
      cbn [omap list_omap id]. by repeat split.
Qed.

(** X20: on a flat list of predictions on which the filter raises nothing,
    and whose kept predictions all hold the parent identifier key, the
    DetectionFilter step stores exactly the predictions that pass the
    filter, in their order, next to the list of their parent identifiers,
    position by position, and passes the image metadata on as it is. *)
Theorem X20_filter_step_on_flat_predictions {V I K : Type} `{!Comparisons V}
    (PARENT_ID_KEY : string) (keys : I → list K) (ps : list (gmap string V))
    (images_meta : meta_value I) (definition : filter_definition V)
    (filter_callable : gmap string V → result bool) :
  build_filter_callable definition = Ok filter_callable →
  Forall (λ p, ∃ keep, filter_callable p = Ok keep) ps →
  Forall (λ p, passes filter_callable p = true →
               ∃ v, p !! PARENT_ID_KEY = Some v) ps →
  ∃ parents,
    run_detection_filter PARENT_ID_KEY keys (One <$> ps) images_meta definition
    = Ok (FlatValue (One <$> List.filter (passes filter_callable) ps)
            (One <$> parents) images_meta)
    ∧ Forall2 (λ p v, p !! PARENT_ID_KEY = Some v)
        (List.filter (passes filter_callable) ps) parents.
Proof.
  intros Hbuild Htotal Hkey.
  destruct (mapM_filter_item_flat PARENT_ID_KEY filter_callable ps Htotal Hkey)
    as (results & parents & Hm & Hfst & Hsnd & Hall).
  exists parents. split; [|done].
  unfold run_detection_filter. rewrite Hbuild. cbn [mbind result_bind].
  rewrite Hm. cbn [mbind result_bind].
  assert (Hflat : existsb is_list (One <$> ps) = false).
  { clear. induction ps as [|p ps IH]; [done|]. by rewrite fmap_cons. }
  rewrite Hflat. unfold store_results. by rewrite Hfst, Hsnd.
Qed.

Lemma X20_filter_step_on_flat_predictions_witness :
  ∃ parents,
    run_detection_filter "parent_id" (λ _ : nat, @nil string)
      (One <$> [sample_prediction (ratio 9 10) 1; sample_prediction (ratio 2 10) 2])
      (MetaOne 7%nat) (confidence_above (ratio 5 10))
    = Ok (FlatValue
            (One <$> List.filter
                       (passes (λ e, v ← getitem e "confidence";
                                     OPERATORS GREATER_THAN v (ratio 5 10)))
                       [sample_prediction (ratio 9 10) 1;
                        sample_prediction (ratio 2 10) 2])
            (One <$> parents) (MetaOne 7%nat))
    ∧ Forall2 (λ p v, p !! "parent_id" = Some v)
        (List.filter
           (passes (λ e, v ← getitem e "confidence";
                         OPERATORS GREATER_THAN v (ratio 5 10)))
           [sample_prediction (ratio 9 10) 1; sample_prediction (ratio 2 10) 2])
        parents.
Proof.
  apply X20_filter_step_on_flat_predictions.
  - reflexivity.
  - repeat constructor.
    + exists true. by vm_compute.
    + exists false. by vm_compute.
  - repeat constructor.
    + intros _. exists 1%Qc. reflexivity.
    + intros _. exists (Zc 2). reflexivity.
Defined.

Lemma mapM_filter_item_nested {V : Type} (PARENT_ID_KEY : string)
    (filter_callable : gmap string V → result bool)
    (lss : list (list (gmap string V))) :
  Forall (λ p, ∃ keep, filter_callable p = Ok keep) (concat lss) →
  Forall (λ p, passes filter_callable p = true →
               ∃ v, p !! PARENT_ID_KEY = Some v) (concat lss) →
  ∃ results,
    mapM (M := result) (filter_item PARENT_ID_KEY filter_callable) (Many <$> lss)
    = Ok results
    ∧ length (omap id results) = length lss
    ∧ ∀ i ls, lss !! i = Some ls →
        ∃ parents,
          omap id results !! i
          = Some (Many (List.filter (passes filter_callable) ls), Many parents)
          ∧ Forall2 (λ p v, p !! PARENT_ID_KEY = Some v)
              (List.filter (passes filter_callable) ls) parents.
Proof.
  induction lss as [|ls0 lss IH]; intros Htotal Hkey.
  - exists []. repeat split. intros i ls Hl. by rewrite lookup_nil in Hl.
  - cbn [concat] in Htotal, Hkey.
    apply Forall_app in Htotal as [Htotal0 Htotal].
    apply Forall_app in Hkey as [Hkey0 Hkey].
    destruct (IH Htotal Hkey) as (results & Hm & Hlen & Hlookup).
    destruct (mapM_getitem_total PARENT_ID_KEY
                (List.filter (passes filter_callable) ls0))
      as (parents0 & Hparents0 & Hall0).
    { by apply Forall_filter_passes. }
    rewrite fmap_cons. cbn [mapM filter_item].
    rewrite (comprehension_if_total _ _ Htotal0). cbn [mbind result_bind].
    rewrite Hparents0. cbn [mbind result_bind]. rewrite Hm.
    cbn [mbind result_bind]. eexists. split; [reflexivity|].
    cbn [omap list_omap id]. split; [simpl; by rewrite Hlen|].
    intros [|i] ls Hl.
    + injection Hl as ->. exists parents0. by rewrite lookup_cons.
    + rewrite lookup_cons in Hl. rewrite lookup_cons. by apply Hlookup.
Qed.

(** X21: on a batch (a list of lists of predictions, with a list of image
    metadata) on which the filter raises nothing, the DetectionFilter step
    stores one entry per image, in order, as many as there are both lists of
    predictions and metadata entries. The entry of image [i] holds the
    predictions of the [i]-th list that pass the filter, in their order,
    their parent identifiers position by position, and the [i]-th metadata
    entry; an image none of whose predictions pass keeps its entry, with
    empty lists. *)
Theorem X21_filter_step_on_batches {V I K : Type} `{!Comparisons V}
    (PARENT_ID_KEY : string) (keys : I → list K)
    (lss : list (list (gmap string V))) (metas : list I)
    (definition : filter_definition V)
    (filter_callable : gmap string V → result bool) :
  build_filter_callable definition = Ok filter_callable →
  lss ≠ [] →
  Forall (λ p, ∃ keep, filter_callable p = Ok keep) (concat lss) →
  Forall (λ p, passes filter_callable p = true →
               ∃ v, p !! PARENT_ID_KEY = Some v) (concat lss) →
  ∃ entries,
    run_detection_filter PARENT_ID_KEY keys (Many <$> lss) (MetaMany metas)
      definition = Ok (NestedValue entries)
    ∧ length entries = (length lss `min` length metas)%nat
    ∧ ∀ i ls m, lss !! i = Some ls → metas !! i = Some m →
        ∃ parents,
          entries !! i
          = Some (mk_image_entry
                    (Many (List.filter (passes filter_callable) ls))
                    (Many parents) (inl m))
          ∧ Forall2 (λ p v, p !! PARENT_ID_KEY = Some v)
              (List.filter (passes filter_callable) ls) parents.
Proof.
  intros Hbuild Hne Htotal Hkey.
  destruct (mapM_filter_item_nested PARENT_ID_KEY filter_callable lss Htotal Hkey)
    as (results & Hm & Hlen & Hlookup).
  eexists. split; [|split].
  - unfold run_detection_filter. rewrite Hbuild. cbn [mbind result_bind].
    rewrite Hm. cbn [mbind result_bind].
    assert (Hnested : existsb is_list (Many <$> lss) = true).
    { destruct lss; [done|]. by rewrite fmap_cons. }
    rewrite Hnested. reflexivity.
  - cbn [iterate_meta].
    rewrite length_fmap, !length_zip_with, !length_fmap, Hlen. lia.
  - intros i ls m Hl Hmeta.
    destruct (Hlookup i ls Hl) as (parents & Hres & Hall).
    exists parents. split; [|done].
    rewrite list_lookup_fmap, !lookup_zip_with. cbn [iterate_meta].
    rewrite !list_lookup_fmap, Hres, Hmeta. reflexivity.
Qed.

Lemma X21_filter_step_on_batches_witness :
  ∃ entries,
    run_detection_filter "parent_id" (λ _ : nat, @nil string)
      (Many <$> [[sample_prediction (ratio 9 10) 1]; [sample_prediction (ratio 2 10) 2]])
      (MetaMany [7%nat; 8%nat]) (confidence_above (ratio 5 10))
    = Ok (NestedValue entries)
    ∧ length entries
      = (length [[sample_prediction (ratio 9 10) 1];
                 [sample_prediction (ratio 2 10) 2]]
         `min` length [7%nat; 8%nat])%nat
    ∧ ∀ i ls m,
        [[sample_prediction (ratio 9 10) 1]; [sample_prediction (ratio 2 10) 2]]
        !! i = Some ls →
        [7%nat; 8%nat] !! i = Some m →
        ∃ parents,
          entries !! i
          = Some (mk_image_entry
                    (Many (List.filter
                             (passes (λ e, v ← getitem e "confidence";
                                           OPERATORS GREATER_THAN v (ratio 5 10)))
                             ls))
                    (Many parents) (inl m))
          ∧ Forall2 (λ p v, p !! "parent_id" = Some v)
              (List.filter
                 (passes (λ e, v ← getitem e "confidence";
                               OPERATORS GREATER_THAN v (ratio 5 10)))
                 ls) parents.
Proof.
  apply X21_filter_step_on_batches.
  - reflexivity.
  - done.
  - repeat constructor.
    + exists true. by vm_compute.
    + exists false. by vm_compute.
  - repeat constructor.
    + intros _. exists 1%Qc. reflexivity.
    + intros _. exists (Zc 2). reflexivity.
Defined.

Lemma mapM_filter_item_raise {V : Type} (PARENT_ID_KEY : string)
    (filter_callable : gmap string V → result bool)
    (before after : list (gmap string V)) (p : gmap string V) (err : error) :
  Forall (λ q, ∃ keep, filter_callable q = Ok keep) before →
  Forall (λ q, passes filter_callable q = true →
               ∃ v, q !! PARENT_ID_KEY = Some v) before →
  filter_item PARENT_ID_KEY filter_callable (One p) = Raise err →
  mapM (M := result) (filter_item PARENT_ID_KEY filter_callable)
    (One <$> (before ++ p :: after))
  = Raise err.
Proof.
  intros Htotal Hkey Hp. induction Htotal as [|q before [keep Hq] _ IH].
  - rewrite app_nil_l, fmap_cons. cbn [mapM]. by rewrite Hp.
  - apply Forall_cons in Hkey as [Hkq Hkey].
    rewrite <- app_comm_cons, fmap_cons. cbn [mapM]. rewrite (IH Hkey).
    cbn [filter_item]. rewrite Hq. cbn [mbind result_bind].
    destruct keep; [|done].
    destruct Hkq as [v Hv]; [unfold passes; by rewrite Hq|].
    unfold getitem. by rewrite Hv.
Qed.

(** X22: one prediction fails the whole DetectionFilter step. On a flat list
    of predictions, when the filter raises on a prediction and on none
    before it, the step raises that error, and stores nothing; so does a
    prediction that passes the filter but holds no parent identifier, with
    [KeyError]. *)
Theorem X22_filter_step_stops_at_the_first_error {V I K : Type}
    `{!Comparisons V} (PARENT_ID_KEY : string) (keys : I → list K)
    (before after : list (gmap string V)) (p : gmap string V)
    (images_meta : meta_value I) (definition : filter_definition V)
    (filter_callable : gmap string V → result bool) (err : error) :
  build_filter_callable definition = Ok filter_callable →
  Forall (λ q, ∃ keep, filter_callable q = Ok keep) before →
  Forall (λ q, passes filter_callable q = true →
               ∃ v, q !! PARENT_ID_KEY = Some v) before →
  filter_callable p = Raise err
  ∨ filter_callable p = Ok true ∧ p !! PARENT_ID_KEY = None ∧ err = KeyError →
  run_detection_filter PARENT_ID_KEY keys (One <$> (before ++ p :: after))
    images_meta definition
  = Raise err.
Proof.
  intros Hbuild Htotal Hkey Hp.
  unfold run_detection_filter. rewrite Hbuild. cbn [mbind result_bind].
  rewrite (mapM_filter_item_raise PARENT_ID_KEY filter_callable before after p err);
    try done.
  cbn [filter_item]. destruct Hp as [->|(-> & Hnone & ->)]; [done|].
  cbn [mbind result_bind]. unfold getitem. by rewrite Hnone.
Qed.

Lemma X22_filter_step_stops_at_the_first_error_witness :
  run_detection_filter "parent_id" (λ _ : nat, @nil string)
    (One <$> ([sample_prediction (ratio 9 10) 1]
              ++ {["parent_id" := Zc 2]} :: [sample_prediction (ratio 7 10) (Zc 3)]))
    (MetaOne 7%nat) (confidence_above (ratio 5 10))
  = Raise KeyError.
Proof.
  apply (X22_filter_step_stops_at_the_first_error _ _ _ _ _ _ _
           (λ e, v ← getitem e "confidence";
                 OPERATORS GREATER_THAN v (ratio 5 10))).
  - reflexivity.
  - repeat constructor. exists true. by vm_compute.
  - repeat constructor. intros _. exists 1%Qc. reflexivity.
  - left. reflexivity.
Defined.

(** * Properties of the crop steps *)

(** ** Slices and crops of detections *)

Lemma py_slice_inside {A : Type} (l : list A) (lo hi : Z) :
  0 ≤ lo → lo ≤ hi → hi ≤ Z.of_nat (length l) →
  py_slice l lo hi = take (Z.to_nat (hi - lo)) (drop (Z.to_nat lo) l).
Proof.
  intros Hlo Hhi Hn. unfold py_slice.
  rewrite !decide_False by lia. by rewrite !Z.min_l by lia.
Qed.

Lemma py_slice_wraps_to_nothing {A : Type} (l : list A) (lo hi : Z) :
  - Z.of_nat (length l) ≤ lo → lo < 0 → 0 ≤ hi →
  hi ≤ Z.of_nat (length l) + lo →
  py_slice l lo hi = [].
Proof.
  intros Hn Hlo Hhi Hle. unfold py_slice.
  rewrite decide_False by lia. rewrite decide_True by lia.
  replace (Z.to_nat _) with 0%nat by lia. done.
Qed.

Lemma crop_image_lookup {P S : Type} (i : image P) (detections : list detection)
    (origin : S) (k : nat) (d : detection) (x_min y_min x_max y_max : Z) :
  detections !! k = Some d →
  detection_to_xyxy d = (x_min, y_min, x_max, y_max) →
  crop_image i detections origin !! k
  = Some (mk_crop NUMPY_OBJECT (image_slice i y_min y_max x_min x_max)
            (detection_id d)
            (mk_origin_coordinates (det_x d) (det_y d) origin)).
Proof.
  intros Hk Hbox. unfold crop_image. rewrite list_lookup_fmap, Hk.
  cbn [fmap option_fmap option_map]. by rewrite Hbox.
Qed.

Lemma image_slice_inside {P : Type} (i : image P) (W : nat)
    (x_min y_min x_max y_max : Z) :
  Forall (λ row, length row = W) i →
  0 ≤ x_min → x_min ≤ x_max → x_max ≤ Z.of_nat W →
  0 ≤ y_min → y_min ≤ y_max → y_max ≤ Z.of_nat (length i) →
  length (image_slice i y_min y_max x_min x_max) = Z.to_nat (y_max - y_min)
  ∧ Forall (λ row, length row = Z.to_nat (x_max - x_min))
      (image_slice i y_min y_max x_min x_max)
  ∧ ∀ r c, (r < Z.to_nat (y_max - y_min))%nat →
           (c < Z.to_nat (x_max - x_min))%nat →
           pixel (image_slice i y_min y_max x_min x_max) r c
           = pixel i (Z.to_nat y_min + r) (Z.to_nat x_min + c).
Proof.
  intros Hrect Hx0 Hx Hxw Hy0 Hy Hyh. unfold image_slice.
  rewrite (py_slice_inside i) by done.
  assert (Hrows : Forall (λ row, length row = W)
                    (take (Z.to_nat (y_max - y_min)) (drop (Z.to_nat y_min) i))).
  { by apply Forall_take, Forall_drop. }
  split; [|split].
  - rewrite length_fmap, length_take, length_drop. lia.
  - apply Forall_fmap. eapply Forall_impl; [exact Hrows|].
    intros row Hrow. simpl in Hrow |- *. rewrite py_slice_inside by lia.
    rewrite length_take, length_drop. lia.
  - intros r c Hr Hc. unfold pixel, image in *.
    rewrite list_lookup_fmap. rewrite lookup_take_lt by done.
    rewrite lookup_drop.
    destruct (i !! (Z.to_nat y_min + r)%nat) as [row|] eqn:Hrow; [|done].
    simpl. assert (Hlen : length row = W).
    { eapply Forall_forall in Hrect; [done|]. by eapply list_elem_of_lookup_2. }
    rewrite py_slice_inside by lia.
    rewrite lookup_take_lt by done. by rewrite lookup_drop.
Qed.

(** X23: the crop made for a detection whose box lies inside the image holds
    exactly the pixels of the box: it has [y_max - y_min] rows of
    [x_max - x_min] pixels, and its pixel at row [r] and column [c] is the
    pixel of the image at row [y_min + r] and column [x_min + c]. The crops
    come in the order of the detections, each with the identifier of its
    detection as parent identifier and the centre of its detection and the
    given origin size as origin coordinates. *)
Theorem X23_crop_holds_the_pixels_of_the_box {P S : Type} (i : image P)
    (W : nat) (detections : list detection) (origin : S) (k : nat)
    (d : detection) (x_min y_min x_max y_max : Z) :
  Forall (λ row, length row = W) i →
  detections !! k = Some d →
  detection_to_xyxy d = (x_min, y_min, x_max, y_max) →
  0 ≤ x_min → x_min ≤ x_max → x_max ≤ Z.of_nat W →
  0 ≤ y_min → y_min ≤ y_max → y_max ≤ Z.of_nat (length i) →
  ∃ c, crop_image i detections origin !! k = Some c
       ∧ crop_parent_id c = detection_id d
       ∧ crop_origin_coordinates c
         = mk_origin_coordinates (det_x d) (det_y d) origin
       ∧ length (crop_value c) = Z.to_nat (y_max - y_min)
       ∧ Forall (λ row, length row = Z.to_nat (x_max - x_min)) (crop_value c)
       ∧ ∀ r col, (r < Z.to_nat (y_max - y_min))%nat →
                  (col < Z.to_nat (x_max - x_min))%nat →
                  pixel (crop_value c) r col
                  = pixel i (Z.to_nat y_min + r) (Z.to_nat x_min + col).
Proof.
  intros Hrect Hk Hbox Hx0 Hx Hxw Hy0 Hy Hyh.
  eexists. split; [by apply crop_image_lookup|].
  split; [done|]. split; [done|]. cbn [crop_value].
  by apply (image_slice_inside i W).
Qed.

Lemma X23_crop_holds_the_pixels_of_the_box_witness :
  ∃ c, crop_image sample_image [det_on_crop] tt !! 0%nat = Some c
       ∧ crop_parent_id c = detection_id det_on_crop
       ∧ crop_origin_coordinates c
         = mk_origin_coordinates (det_x det_on_crop) (det_y det_on_crop) tt
       ∧ length (crop_value c) = Z.to_nat (2 - 0)
       ∧ Forall (λ row, length row = Z.to_nat (2 - 0)) (crop_value c)
       ∧ ∀ r col, (r < Z.to_nat (2 - 0))%nat → (col < Z.to_nat (2 - 0))%nat →
                  pixel (crop_value c) r col
                  = pixel sample_image (Z.to_nat 0 + r) (Z.to_nat 0 + col).
Proof.
  apply (X23_crop_holds_the_pixels_of_the_box sample_image 3 [det_on_crop] tt 0
           det_on_crop 0 0 2 2);
    [by repeat constructor | reflexivity | by vm_compute
    | lia | lia | simpl; lia | lia | lia | simpl; lia].
Defined.

(** X24: a box that starts left of the image, or above it, is not clipped
    to the image: the negative bound of the slice counts from the far edge.
    When the box ends no further than that wrapped bound, the crop holds no
    pixel at all, whatever part of the box lies inside the image. *)
Theorem X24_box_over_the_left_or_top_edge_gives_no_pixel {P S : Type}
    (i : image P) (W : nat) (detections : list detection) (origin : S) (k : nat)
    (d : detection) (x_min y_min x_max y_max : Z) :
  Forall (λ row, length row = W) i →
  detections !! k = Some d →
  detection_to_xyxy d = (x_min, y_min, x_max, y_max) →
  (- Z.of_nat W ≤ x_min ∧ x_min < 0 ∧ 0 ≤ x_max ∧ x_max ≤ Z.of_nat W + x_min)
  ∨ (- Z.of_nat (length i) ≤ y_min ∧ y_min < 0 ∧ 0 ≤ y_max
     ∧ y_max ≤ Z.of_nat (length i) + y_min) →
  ∃ c, crop_image i detections origin !! k = Some c
       ∧ concat (crop_value c) = [].
Proof.
  intros Hrect Hk Hbox Hedge.
  eexists. split; [by apply crop_image_lookup|].
  cbn [crop_value]. unfold image_slice.
  destruct Hedge as [(Hw & Hneg & Hpos & Hle)|(Hh & Hneg & Hpos & Hle)].
  - assert (Hrows : Forall (λ row, length row = W) (py_slice i y_min y_max)).
    { unfold py_slice. by apply Forall_take, Forall_drop. }
    induction Hrows as [|row rows Hrow _ IH]; [done|].
    rewrite fmap_cons. cbn [concat]. rewrite IH, app_nil_r.
    apply py_slice_wraps_to_nothing; lia.
  - by rewrite py_slice_wraps_to_nothing.
Qed.

Lemma X24_box_over_the_left_or_top_edge_gives_no_pixel_witness :
  ∃ c, crop_image sample_image [det_at_left_edge] tt !! 0%nat = Some c
       ∧ concat (crop_value c) = [].
Proof.
  apply (X24_box_over_the_left_or_top_edge_gives_no_pixel sample_image 3
           [det_at_left_edge] tt 0 det_at_left_edge (-1) 0 1 2);
    [by repeat constructor | reflexivity | by vm_compute | left; simpl; lia].
Defined.

(** ** Crops of crops *)

Lemma elem_of_crop_image {P S : Type} (i : image P) (detections : list detection)
    (origin : S) (c : crop P S) :
  c ∈ crop_image i detections origin →
  ∃ d, d ∈ detections
       ∧ crop_parent_id c = detection_id d
       ∧ crop_origin_coordinates c
         = mk_origin_coordinates (det_x d) (det_y d) origin.
Proof.
  unfold crop_image. intros (d & -> & Hd)%list_elem_of_fmap.
  exists d. split; [done|]. by destruct (detection_to_xyxy d) as [[[??]?]?].
Qed.

(** Every crop of the Crop step is cut for a detection given for one of the
    images, and carries the origin size of that image. *)
Lemma elem_of_run_crop_step {P : Type}
    (input_images : list (option (origin_coordinates image_size)))
    (decoded_images : list (image P)) (detections : list (list detection))
    (c : crop P image_size) :
  c ∈ (run_crop_step input_images decoded_images detections).1 →
  ∃ j input_image decoded_image ds d,
    input_images !! j = Some input_image
    ∧ decoded_images !! j = Some decoded_image
    ∧ detections !! j = Some ds
    ∧ d ∈ ds
    ∧ crop_parent_id c = detection_id d
    ∧ crop_origin_coordinates c
      = mk_origin_coordinates (det_x d) (det_y d)
          (origin_size_of input_image decoded_image).
Proof.
  unfold run_crop_step. cbn [fst].
  intros (l & Hl & Hc)%elem_of_concat.
  apply list_elem_of_fmap in Hl as ([[img ds] size] & -> & Hzip).
  apply elem_of_lookup_zip_with in Hzip as (j & [img' ds'] & size' & [= <- <- <-]
                                              & Hpair & Hsize).
  apply lookup_zip_with_Some in Hpair as (img' & ds' & [= <- <-] & Himg & Hds).
  unfold extract_origin_size_from_images in Hsize.
  rewrite list_lookup_fmap in Hsize.
  destruct (zip input_images decoded_images !! j) as [[input img']|] eqn:Hin;
    [|discriminate].
  apply lookup_zip_with_Some in Hin as (? & ? & [= <- <-] & Hinput & Himg').
  rewrite Himg in Himg'. injection Himg' as <-.
  injection Hsize as <-. cbn [fst snd] in Hc.
  apply elem_of_crop_image in Hc as (d & Hd & Hp & Ho).
  exists j, input, img, ds, d. by repeat split.
Qed.

(** X25: crops of crops keep the size of the first image. A crop the Crop
    step cuts from an image that carries no origin coordinates records the
    height and width of that image as origin size; a crop cut, in a second
    run of the step, from such a crop records that same origin size, not the
    size of the crop it was cut from. *)
Theorem X25_crop_of_a_crop_keeps_the_origin_size {P : Type} (img : image P)
    (ds ds' : list detection) (c c' : crop P image_size) :
  c ∈ (run_crop_step [None] [img] [ds]).1 →
  c' ∈ (run_crop_step [Some (crop_origin_coordinates c)] [crop_value c] [ds']).1 →
  origin_size (crop_origin_coordinates c)
  = {| size_height := (shape img).1; size_width := (shape img).2 |}
  ∧ origin_size (crop_origin_coordinates c')
    = origin_size (crop_origin_coordinates c)
  ∧ (∃ d, d ∈ ds ∧ crop_parent_id c = detection_id d)
  ∧ (∃ d', d' ∈ ds' ∧ crop_parent_id c' = detection_id d').
Proof.
  intros Hc Hc'.
  apply elem_of_run_crop_step in Hc
    as (j & input & decoded & l & d & Hin & Hdec & Hl & Hd & Hp & Ho).
  apply elem_of_run_crop_step in Hc'
    as (j' & input' & decoded' & l' & d' & Hin' & Hdec' & Hl' & Hd' & Hp' & Ho').
  destruct j as [|j]; [|by rewrite lookup_cons, lookup_nil in Hin].
  destruct j' as [|j']; [|by rewrite lookup_cons, lookup_nil in Hin'].
  injection Hin as <-. injection Hdec as <-. injection Hl as <-.
  injection Hin' as <-. injection Hdec' as <-. injection Hl' as <-.
  rewrite Ho'. rewrite Ho. cbn [origin_size origin_size_of]. eauto 10.
Qed.

Lemma X25_crop_of_a_crop_keeps_the_origin_size_witness :
  ∃ c c' : crop nat image_size,
    origin_size (crop_origin_coordinates c)
    = {| size_height := (shape sample_image).1;
         size_width := (shape sample_image).2 |}
    ∧ origin_size (crop_origin_coordinates c')
      = origin_size (crop_origin_coordinates c)
    ∧ (∃ d, d ∈ [det_on_crop] ∧ crop_parent_id c = detection_id d)
    ∧ (∃ d', d' ∈ [det_on_crop] ∧ crop_parent_id c' = detection_id d').
Proof.
  eexists _, _.
  apply (X25_crop_of_a_crop_keeps_the_origin_size sample_image [det_on_crop]
           [det_on_crop]); cbn; left.
Defined.

(** ** Static crops *)

Lemma round_Zc (n : Z) : round (Zc n) = n.
Proof.
  unfold round.
  assert (Hfloor : Qfloor (Zc n) = n).
  { unfold Zc, Q2Qc, this. rewrite Qred_correct. apply Qfloor_Z. }
  rewrite Hfloor.
  replace (Zc n - Zc n)%Qc with 0%Qc by ring.
  rewrite decide_True; [done|]. by vm_compute.
Qed.

Lemma round_Zc_add (n m : Z) : round (Zc n + Zc m)%Qc = n + m.
Proof. by rewrite <- Zc_add, round_Zc. Qed.

(** X26: an absolute static crop with integer width and height whose box
    lies inside the image holds exactly the pixels of the box: [height] rows
    of [width] pixels, the pixel at row [r] and column [c] being the pixel
    of the image at row [y_min + r] and column [x_min + c], where [x_min]
    and [y_min] are the rounded left and top bounds. Its parent identifier
    is the selector of the step, and its origin coordinates are the given
    centre and origin size. *)
Theorem X26_absolute_static_crop {P S : Type} (i : image P) (W : nat)
    (name : string) (x_center y_center : Qc) (crop_width crop_height : Z)
    (origin : S) (x_min y_min : Z) :
  round (x_center - Zc crop_width / Zc 2)%Qc = x_min →
  round (y_center - Zc crop_height / Zc 2)%Qc = y_min →
  Forall (λ row, length row = W) i →
  0 ≤ crop_width → 0 ≤ crop_height →
  0 ≤ x_min → x_min + crop_width ≤ Z.of_nat W →
  0 ≤ y_min → y_min + crop_height ≤ Z.of_nat (length i) →
  ∃ c,
    take_static_crop i AbsoluteStaticCrop name x_center y_center
      (Zc crop_width) (Zc crop_height) origin = c
    ∧ crop_parent_id c = "$steps." +:+ name
    ∧ crop_origin_coordinates c = mk_origin_coordinates x_center y_center origin
    ∧ length (crop_value c) = Z.to_nat crop_height
    ∧ Forall (λ row, length row = Z.to_nat crop_width) (crop_value c)
    ∧ ∀ r col, (r < Z.to_nat crop_height)%nat → (col < Z.to_nat crop_width)%nat →
               pixel (crop_value c) r col
               = pixel i (Z.to_nat y_min + r) (Z.to_nat x_min + col).
Proof.
  intros Hx Hy Hrect Hw Hh Hx0 Hxw Hy0 Hyh.
  eexists. split; [reflexivity|].
  unfold take_static_crop. rewrite Hx, Hy, !round_Zc_add.
  cbn [crop_parent_id crop_origin_coordinates crop_value].
  split; [done|]. split; [done|].
  destruct (image_slice_inside i W x_min y_min (x_min + crop_width)
              (y_min + crop_height)) as (Hlen & Hrows & Hpixel); try done; try lia.
  replace (y_min + crop_height - y_min) with crop_height in * by lia.
  replace (x_min + crop_width - x_min) with crop_width in * by lia.
  done.
Qed.

Lemma X26_absolute_static_crop_witness :
  ∃ c,
    take_static_crop sample_image AbsoluteStaticCrop "crop" (Zc 1) (Zc 1)
      (Zc 2) (Zc 2) tt = c
    ∧ crop_parent_id c = "$steps." +:+ "crop"
    ∧ crop_origin_coordinates c = mk_origin_coordinates (Zc 1) (Zc 1) tt
    ∧ length (crop_value c) = Z.to_nat 2
    ∧ Forall (λ row, length row = Z.to_nat 2) (crop_value c)
    ∧ ∀ r col, (r < Z.to_nat 2)%nat → (col < Z.to_nat 2)%nat →
               pixel (crop_value c) r col
               = pixel sample_image (Z.to_nat 0 + r) (Z.to_nat 0 + col).
Proof.
  apply (X26_absolute_static_crop sample_image 3 "crop" (Zc 1) (Zc 1) 2 2 tt 0 0);
    [by vm_compute | by vm_compute | by repeat constructor
    | lia | lia | lia | simpl; lia | lia | simpl; lia].
Defined.

Lemma Zc_this (n : Z) : (this (Zc n) == inject_Z n)%Q.
Proof. unfold Zc, Q2Qc, this. apply Qred_correct. Qed.

Lemma Qfloor_half_integer (k : Z) : Qfloor ((2 * k + 1) # 2) = k.
Proof.
  change ((2 * k + 1) / 2 = k). symmetry. apply Z.div_unique with 1; lia.
Qed.

Lemma round_half_integer (k : Z) :
  round (Q2Qc ((2 * k + 1) # 2)) = if Z.even k then k else k + 1.
Proof.
  unfold round.
  assert (Hfloor : Qfloor (Q2Qc ((2 * k + 1) # 2)) = k).
  { unfold Q2Qc, this. rewrite Qred_correct. apply Qfloor_half_integer. }
  rewrite Hfloor.
  assert (Hr : (Q2Qc ((2 * k + 1) # 2) - Zc k)%Qc = Q2Qc (1 # 2)).
  { apply Qc_is_canon. unfold Qcminus, Qcplus, Qcopp, Zc, Q2Qc, this.
    rewrite !Qred_correct. unfold Qeq, Qplus, Qopp, inject_Z. simpl. lia. }
  rewrite Hr. rewrite decide_False by (by vm_compute).
  by rewrite decide_False by (by vm_compute).
Qed.

(** Rounding the centre and then the left bound of a relative crop of full
    width gives the left edge, whatever the parity of the width. *)
Lemma round_centre_minus_half (n : Z) :
  round (Zc (round (Zc n * Q2Qc (1 # 2))) - Zc n / Zc 2)%Qc = 0.
Proof.
  destruct (Z.even n) eqn:Heven.
  - apply Z.even_spec in Heven as [k ->].
    assert (Hc : (Zc (2 * k) * Q2Qc (1 # 2))%Qc = Zc k).
    { apply Qc_is_canon. unfold Qcmult, Zc, Q2Qc, this.
      rewrite !Qred_correct. unfold Qeq, Qmult, inject_Z. simpl. lia. }
    rewrite Hc, round_Zc.
    assert (Hz : (Zc k - Zc (2 * k) / Zc 2)%Qc = Zc 0).
    { apply Qc_is_canon. unfold Qcminus, Qcplus, Qcopp, Qcdiv, Qcmult, Qcinv,
        Zc, Q2Qc, this.
      rewrite !Qred_correct. unfold Qeq, Qplus, Qopp, Qmult, Qinv, inject_Z.
      simpl. lia. }
    rewrite Hz. apply round_Zc.
  - assert (Hodd : Z.odd n = true) by (by rewrite <- Z.negb_even, Heven).
    apply Z.odd_spec in Hodd as [k ->].
    assert (Hc : (Zc (2 * k + 1) * Q2Qc (1 # 2))%Qc = Q2Qc ((2 * k + 1) # 2)).
    { apply Qc_is_canon. unfold Qcmult, Zc, Q2Qc, this.
      rewrite !Qred_correct. unfold Qeq, Qmult, inject_Z. simpl. lia. }
    rewrite Hc, round_half_integer.
    destruct (Z.even k).
    + assert (Hz : (Zc k - Zc (2 * k + 1) / Zc 2)%Qc = Q2Qc (-1 # 2)).
      { apply Qc_is_canon. unfold Qcminus, Qcplus, Qcopp, Qcdiv, Qcmult, Qcinv,
          Zc, Q2Qc, this.
        rewrite !Qred_correct. unfold Qeq, Qplus, Qopp, Qmult, Qinv, inject_Z.
        simpl. lia. }
      rewrite Hz. by vm_compute.
    + assert (Hz : (Zc (k + 1) - Zc (2 * k + 1) / Zc 2)%Qc = Q2Qc (1 # 2)).
      { apply Qc_is_canon. unfold Qcminus, Qcplus, Qcopp, Qcdiv, Qcmult, Qcinv,
          Zc, Q2Qc, this.
        rewrite !Qred_correct. unfold Qeq, Qplus, Qopp, Qmult, Qinv, inject_Z.
        simpl. lia. }
      rewrite Hz. by vm_compute.
Qed.

Lemma py_slice_all {A : Type} (l : list A) :
  py_slice l 0 (Z.of_nat (length l)) = l.
Proof.
  rewrite py_slice_inside by lia. rewrite drop_0, Z.sub_0_r, Nat2Z.id.
  by rewrite take_ge.
Qed.

(** X27: a relative static crop with centre (0.5, 0.5) and size (1, 1) is
    the whole image, for every image size: the centre is rounded half to
    even and the bounds computed from the rounded centre are rounded again,
    which lands on the edges of the image also for odd widths and heights.
    The origin coordinates hold the rounded centre. *)
Theorem X27_relative_crop_of_the_whole_image {P S : Type} (i : image P) (W : nat)
    (name : string) (origin : S) :
  Forall (λ row, length row = W) i →
  ∃ c,
    take_static_crop i RelativeStaticCrop name (Q2Qc (1 # 2)) (Q2Qc (1 # 2))
      1%Qc 1%Qc origin = c
    ∧ crop_value c = i
    ∧ crop_parent_id c = "$steps." +:+ name
    ∧ crop_origin_coordinates c
      = mk_origin_coordinates
          (Zc (round (Zc (shape i).2 * Q2Qc (1 # 2))))
          (Zc (round (Zc (shape i).1 * Q2Qc (1 # 2)))) origin.
Proof.
  intros Hrect. eexists. split; [reflexivity|].
  unfold take_static_crop.
  replace (Zc (shape i).2 * 1)%Qc with (Zc (shape i).2) by ring.
  replace (Zc (shape i).1 * 1)%Qc with (Zc (shape i).1) by ring.
  rewrite !round_Zc, !round_centre_minus_half, !round_Zc_add.
  cbn [crop_value crop_parent_id crop_origin_coordinates].
  split; [|done]. unfold image_slice, shape. cbn [fst snd].
  rewrite !Z.add_0_l, py_slice_all.
  destruct i as [|row0 rows]; [done|].
  assert (Hw : length row0 = W) by (by apply Forall_cons in Hrect as [? _]).
  rewrite Hw. clear Hw.
  induction Hrect as [|row rest Hrow _ IH]; [done|].
  rewrite fmap_cons, IH. f_equal. rewrite <- Hrow. apply py_slice_all.
Qed.

Lemma X27_relative_crop_of_the_whole_image_witness :
  ∃ c,
    take_static_crop sample_image RelativeStaticCrop "crop" (Q2Qc (1 # 2))
      (Q2Qc (1 # 2)) 1%Qc 1%Qc tt = c
    ∧ crop_value c = sample_image
    ∧ crop_parent_id c = "$steps." +:+ "crop"
    ∧ crop_origin_coordinates c
      = mk_origin_coordinates
          (Zc (round (Zc (shape sample_image).2 * Q2Qc (1 # 2))))
          (Zc (round (Zc (shape sample_image).1 * Q2Qc (1 # 2)))) tt.
Proof.
  apply (X27_relative_crop_of_the_whole_image sample_image 3).
  by repeat constructor.
Defined.

Lemma take_static_crop_parent_id {P S : Type} (i : image P)
    (type : static_crop_type) (name : string)
    (x_center y_center crop_width crop_height : Qc) (origin : S) :
  crop_parent_id (take_static_crop i type name x_center y_center crop_width
                    crop_height origin)
  = "$steps." +:+ name
  ∧ origin_size (crop_origin_coordinates
                   (take_static_crop i type name x_center y_center crop_width
                      crop_height origin))
    = origin.
Proof. unfold take_static_crop. by destruct type. Qed.

(** X28: the static crop step makes one crop per image, in the order of the
    images. Every crop has the selector of the step itself as parent
    identifier, whatever image it was cut from, so the list of parent
    identifiers repeats that selector; the crop of an image records the
    origin size that image carries, or else the height and width of the
    image. *)
Theorem X28_static_crop_step_makes_one_crop_per_image {P : Type}
    (input_images : list (option (origin_coordinates image_size)))
    (decoded_images : list (image P)) (type : static_crop_type) (name : string)
    (x_center y_center crop_width crop_height : Qc) :
  length input_images = length decoded_images →
  ∃ crops,
    run_static_crop_step input_images decoded_images type name x_center y_center
      crop_width crop_height
    = (crops, replicate (length decoded_images) ("$steps." +:+ name))
    ∧ length crops = length decoded_images
    ∧ ∀ j input_image decoded_image,
        input_images !! j = Some input_image →
        decoded_images !! j = Some decoded_image →
        crops !! j
        = Some (take_static_crop decoded_image type name x_center y_center
                  crop_width crop_height
                  (origin_size_of input_image decoded_image)).
Proof.
  intros Hlen. unfold run_static_crop_step.
  set (sizes := extract_origin_size_from_images input_images decoded_images).
  assert (Hsizes : length sizes = length decoded_images).
  { unfold sizes, extract_origin_size_from_images.
    rewrite length_fmap, length_zip_with. lia. }
  eexists. split; [|split].
  - f_equal. rewrite <- list_fmap_compose.
    assert (Hz : length (zip decoded_images sizes) = length decoded_images)
      by (rewrite length_zip_with; lia).
    rewrite <- Hz. clear Hz.
    generalize (zip decoded_images sizes). intros l.
    induction l as [|[img size] l IH]; [done|].
    rewrite fmap_cons. cbn [length replicate]. f_equal; [|done].
    unfold compose. cbn [fst snd].
    exact (proj1 (take_static_crop_parent_id img type name x_center y_center
                    crop_width crop_height size)).
  - rewrite length_fmap, length_zip_with. lia.
  - intros j input img Hin Himg.
    rewrite list_lookup_fmap, lookup_zip_with, Himg. cbn [mbind option_bind].
    unfold sizes, extract_origin_size_from_images.
    rewrite list_lookup_fmap, lookup_zip_with, Hin. cbn [mbind option_bind].
    rewrite Himg. reflexivity.
Qed.

Lemma X28_static_crop_step_makes_one_crop_per_image_witness :
  ∃ crops,
    run_static_crop_step [None] [sample_image] AbsoluteStaticCrop "crop"
      (Zc 1) (Zc 1) (Zc 2) (Zc 2)
    = (crops, replicate (length [sample_image]) ("$steps." +:+ "crop"))
    ∧ length crops = length [sample_image]
    ∧ ∀ j input_image decoded_image,
        [@None (origin_coordinates image_size)] !! j = Some input_image →
        [sample_image] !! j = Some decoded_image →
        crops !! j
        = Some (take_static_crop decoded_image AbsoluteStaticCrop "crop"
                  (Zc 1) (Zc 1) (Zc 2) (Zc 2)
                  (origin_size_of input_image decoded_image)).
Proof. by apply X28_static_crop_step_makes_one_crop_per_image. Defined.
